(* ===== verification/_CoqProject ===== *)
-Q . S2P
Prelude.v
Types.v
Html.v
Gemini.v
Json.v
Store.v
App.v
ReviewModal.v
AppInvariants.v
AppBehaviour.v
AppReview.v
AppInterleaving.v
View.v
