(* ===== verification/Prelude.v ===== *)
(** * Monograf.IA: a verification development of the editor and its AI gateway

    The program (src/) is a React single-page editor for academic
    monographs, in three source files:
    - [src/types.ts]: the data model ([SectionType], [Section], [Project],
      [ReviewFeedback], [ImprovementSuggestions], [FinalReview]);
    - [src/services/geminiService.ts]: the gateway to the external
      generative-AI provider ([conductFinalReview], [generateText],
      [generateImage]), each one provider call wrapped in try/catch, and
      the module-level [API_KEY] check;
    - [src/App.tsx]: the component [App], which holds all state in React
      hooks, renders the editor and runs three asynchronous AI handlers,
      the image upload and the text edits.
    The components interact through calls (App calls the gateway and
    awaits it), through shared state (the hooks, read by closures that
    [useCallback] memoises), and through the DOM (the editor's live
    [innerHTML], which [insertHtmlAtEnd] reads).

    ** Files, in dependency order

    - [Prelude] (this file): the [monograf_scope] notation, the line-feed
      and quote constants, string lemmas ([String.append] is [simpl never]
      in stdpp, so its equations are rewrite rules of the [monograf_rw]
      database), [String.prefix] lemmas, decimal rendering [show_nat], the
      generic [reachable]/[run] of a step function with its rule-induction
      lemma [invariant_reachable], and tactics.
    - [Types]: [src/types.ts] as inductives and records with
      [EqDecision] instances; the object spreads as [with_content] and
      [with_sections].
    - [Html]: the regular expressions and templates of [App.tsx]:
      [strip_tags] ([/<[^>]*>?/gm] replaced by a space, lines 78 and 91) as
      a two-state automaton; the global match count [count_go]/[match_count]
      and the figure counter [figure_count] (line 55); [replace_newlines] and
      [paragraphs] (line 94); [full_text] (lines 73-76); the figure template
      [figure_html] cut at its interpolations (lines 56-65).
    - [Gemini]: [geminiService.ts].  Each service function is split at its
      [await] into the [Request] it sends and the function from the
      provider's outcome ([ContentOutcome], [ImagesOutcome], following the
      SDK's optional fields) to the value it resolves to; [JSON.parse] is
      the [JsonParse] class; [String.prototype.trim] is [js_trim] on UTF-8
      bytes; [init_service] is the [API_KEY] check; [conforms] is the
      provider's contract for [responseSchema].
    - [Json]: a concrete [JSON.parse] ([json_parse], an instance of
      [JsonParse]) following the JSON grammar on UTF-8 bytes, a printer
      [print_json] in the manner of [JSON.stringify] for the provider's
      side of the end-to-end review theorem.
    - [Store]: the document store of [App.tsx] (lines 6-52): seed project,
      [find], the meta and content mutators, [insertHtmlAtEnd]; the spec's
      store contract (section 4.1) as the class [DocumentStore] with laws
      [DocumentStoreLaws], instantiated by the code's functions
      ([editor_store]); the append law proved against the class.
    - [App]: the component as a state machine.  [AppState] has every hook,
      the editor's [innerHTML], the memoised image handler (a [Snapshot] of
      the render where [imagePrompt] last changed), the handler suspended
      at its [await] ([Pending]), the open file picker, the [FileReader]s
      in flight and the log of provider calls.  [step] = [rerender] after
      [handle]: [handle] runs the handler of one [Event] with the JSX's
      [disabled] guards; [rerender] remounts or refreshes the editor and
      refreshes the memoised handler as React does.  The review modal's
      reads are [modal_view]; closing it is the [CloseReview] event.
    - [ReviewModal]: the modal against [reviewSchema].
    - [AppInvariants]: the invariant [app_inv] of every reachable state
      ([reachable_app_inv], by rule induction over [step]) and the
      single-flight property of provider calls.
    - [AppBehaviour]: the behaviour of the text, image and upload
      handlers on every branch, the buttons' guards, the spec's busy/idle
      machine ([BusyState], [busy_step]) and the refinement onto it.
    - [AppReview]: the final review from the provider's reply to the
      modal, with the abstract and with the concrete [JSON.parse].
    - [AppInterleaving]: the order of events: which edits commute
      ([independent]), which do not (the image prompt and a content
      edit), an upload and a text generation finishing in either order,
      and the spec's scenarios as evaluated runs.
    - [View]: what the render computes from the state ([view]: sidebar
      titles and highlight, header inputs, the four buttons' [disabled]
      and labels, editor heading and key, image prompt, modal), lines
      132-257 of [App.tsx].

    ** What the theorems show

    - Invariants (AppInvariants): section ids never change and stay
      unique; the active id names a section (the [find(...)!] is safe);
      the editor shows the active section's content; every captured
      closure names an existing section; [isLoading] is set exactly when
      [loadingAction] is, and a suspended handler has its action's busy
      state.  At most one provider call is in flight; busy clicks do
      nothing; every call carries the document with its tags replaced
      and no empty request is sent, and each button sends exactly its
      request; while a review is in flight no stale review is shown.
    - Refinements: text continuation on the same section is the store
      contract's [appendToActiveContent] on the live content; every step
      is a stutter, an entry or an exit of the spec's busy/idle machine;
      the code's store satisfies the contract's laws.
    - The review: a response whose trimmed text parses to a review of the
      requested schema ([review_json]) is shown with its eight fields;
      with the concrete parser, the JSON text of a review (white space
      around it) is shown end to end; every value conforming to
      [reviewSchema] renders, showing the eight fields it holds (the
      schema is the modal's type); a reply in a Markdown code fence is
      refused by [JSON.parse] and gives no review; closing the modal
      sets the review to [null] and changes nothing else.
    - Error paths: a failed, text-less or non-JSON review is absent with
      the document untouched; a failed text generation inserts the
      apology paragraph (the spec says nothing is inserted); an
      [undefined] text leaves the app busy forever; an image generation
      that yields no image changes nothing but the busy state; a JSON
      review of the wrong shape is kept and crashes the modal's render.
    - Stale closures: after a section switch the generated text, and the
      generated figure, overwrite the section of the click with the shown
      section's content; a file read delivered after a switch does the
      same (general theorems on every interleaving, and the scenarios
      evaluated).
    - Text: [strip_tags] is the regex replace (it satisfies the replace's
      equations, which determine it);
      the global count of [/<figure/g] is the number of positions where
      the marker starts (equivalence with [occurrences]);
      a figure block adds exactly one marker, so the next figure is
      numbered k+1, for uploaded and generated images alike; [js_trim]
      removes exactly the surrounding white space, measured against the
      ECMAScript WhiteSpace and LineTerminator code points listed
      independently of the scan ([js_white_space_points], in UTF-8);
      each generated line becomes one paragraph; the review
      text ignores pre- and post-textual sections; appends concatenate in
      call order.
    - Order of events (AppInterleaving): independent edits commute (the
      same state in either order); a file read and a text generation
      started on the section on screen both keep their insertion, in
      arrival order, whichever finishes first.  Figure numbers are counted,
      not stored: after the user deletes a figure, the next one repeats
      the number of the last (the spec's open question, settled).
    - Round trip of an edit: text typed into the editor is kept in its
      section, and comes back to the editor after the user navigates
      away and back ([typed_text_survives_navigation]).
    - The page (View): exactly one sidebar entry is highlighted, the
      section the editor shows; the buttons show the spec's busy/idle
      state (a working label exactly on the button of the action in
      flight, the AI buttons disabled exactly while busy); the theme
      button changes only the theme class and icon, and two clicks give
      back the same state.
    - Termination: the file reads in flight all complete, one delivery
      each, without touching the busy state, and when they were started
      on the section on screen each non-empty one adds exactly one
      figure to it ([read_figures]).

    ** Modelling choices and bounds

    - JavaScript strings (UTF-16) are [string] (bytes), literals in UTF-8.
      The regexes only match ASCII characters and UTF-8 encodes
      non-ASCII characters with bytes >= 128 only, so matches, counts and
      replacements agree; lengths differ, which no theorem uses.
    - No fuel in the model of the program: every function is structurally
      recursive (the regex scans are automata over the string;
      [trim_left_with] recurses on the tail after one to three bytes).
      The JSON parser of [Json] runs on fuel; [json_parse] gives it the
      length of the input plus one, which [json_size_bound] shows is
      enough for every printed value (each nesting level and each
      element costs one unit, and each prints at least one byte).
    - The provider is external: its replies are events carrying an
      outcome, so every interleaving of edits, navigation and replies is
      covered.  [new Date().getFullYear()] is a parameter of the events
      that insert a figure.  React batching is sequential application of
      the state updates of one handler segment.
    - [JSON.parse] is abstract ([JsonParse]) in the theorems about [App]:
      they hold for every parser.  [Json.json_parse] is a concrete
      instance, for the end-to-end review theorem; its bounds come from
      the [json] type: numbers are integers (a fraction or an exponent is
      refused), and a lone surrogate escape, which UTF-8 cannot hold, is
      refused.
    - Not modelled: markup, CSS classes and the icons' SVG (presentation
      only, no state; [View] keeps what the render computes from the
      state), and the provider's behaviour (external: its replies are
      the events' outcomes).

    ** Plan for later sittings

    - the prompts' exact content: a text prompt embeds the stripped
      content of the section shown at the click, the review prompt the
      stripped text of the textual sections;
    - the parser on texts that are not printed values (its refusals are
      [JSON.parse]'s [SyntaxError]s). *)

From stdpp Require Export base list strings.
From Stdlib Require Export Ascii DecimalString.

Declare Scope monograf_scope.
Delimit Scope monograf_scope with mg.

(** ** Strings *)

(** A one-character string. *)
Notation "⟨ c ⟩" := (String c EmptyString) (format "⟨ c ⟩") : monograf_scope.

(** stdpp declares [String.append] [simpl never]; its two defining
    equations are used by rewriting. *)
Lemma append_nil_l (a : string) : "" +:+ a = a.
Proof. done. Qed.

Lemma append_cons (c : Ascii.ascii) (a b : string) :
  String c a +:+ b = String c (a +:+ b).
Proof. done. Qed.

(** The line feed and the double quote, which string literals of this
    development cannot hold. *)
Definition nl_char : Ascii.ascii := "010"%char.
Definition dq_char : Ascii.ascii := "034"%char.
Definition nl : string := ⟨nl_char⟩%mg.
Definition dq : string := ⟨dq_char⟩%mg.

Lemma append_assoc (a b c : string) : (a +:+ b) +:+ c = a +:+ (b +:+ c).
Proof. induction a as [|x a IH]; [done|]. by rewrite !append_cons, IH. Qed.

Lemma append_nil_r (a : string) : a +:+ "" = a.
Proof. induction a as [|x a IH]; [done|]. by rewrite append_cons, IH. Qed.

Lemma length_append (a b : string) :
  String.length (a +:+ b) = String.length a + String.length b.
Proof. induction a as [|x a IH]; [done|]. rewrite append_cons. simpl. by rewrite IH. Qed.

Create HintDb monograf discriminated.
Create Rewrite HintDb monograf_rw.
#[export] Hint Rewrite append_nil_l append_cons append_assoc append_nil_r length_append : monograf_rw.

(** Does the character [c] occur in [s]? *)
Fixpoint char_in (c : Ascii.ascii) (s : string) : bool :=
  match s with
  | EmptyString => false
  | String d s' => bool_decide (c = d) || char_in c s'
  end.

Lemma char_in_append c a b : char_in c (a +:+ b) = char_in c a || char_in c b.
Proof.
  induction a as [|d a IH]; [done|].
  rewrite append_cons. simpl. rewrite IH. apply orb_assoc.
Qed.
#[export] Hint Rewrite char_in_append : monograf_rw.

(** [String.prefix p s] is unaffected by what follows [s] once [s] is at
    least as long as [p]. *)
Lemma prefix_append_long (p s b : string) :
  String.length p <= String.length s ->
  String.prefix p (s +:+ b) = String.prefix p s.
Proof.
  revert s; induction p as [|x p IH]; intros s Hlen; [by destruct s, b|].
  destruct s as [|y s]; [simpl in *; lia|]. rewrite append_cons. simpl in *.
  destruct (Ascii.ascii_dec x y); [apply IH; lia | done].
Qed.

(** A prefix test that succeeds has its pattern inside the string. *)
Lemma prefix_length (p s : string) :
  String.prefix p s = true -> String.length p <= String.length s.
Proof.
  revert s; induction p as [|x p IH]; intros s H; simpl; [lia|].
  destruct s as [|y s]; simpl in *; [done|].
  destruct (Ascii.ascii_dec x y); [apply IH in H; lia | done].
Qed.

(** If the first character of [s] is not in [p] and [p] is not empty,
    [p] is not a prefix of [s]. *)
Lemma prefix_head_notin (p : string) (c : Ascii.ascii) (s : string) :
  p <> "" -> char_in c p = false -> String.prefix p (String c s) = false.
Proof.
  destruct p as [|x p]; [done|]; intros _ H; simpl in *.
  destruct (Ascii.ascii_dec x c); [subst; by rewrite bool_decide_true in H|done].
Qed.

(** ** Decimal rendering of numbers, as JavaScript's [`${n}`] *)

Definition show_nat (n : nat) : string :=
  NilEmpty.string_of_uint (Nat.to_uint n).

(** ** Reachability of a labelled step function

    A component whose handler is a total function [step : S -> E -> S]
    (one event applied to one state) has as reachable states the states
    obtained from the initial one by a finite sequence of events.
    Invariants are proved by rule induction. *)

Section Reachable.
Context {S E : Type} (step : S -> E -> S) (init : S).

Inductive reachable : S -> Prop :=
| reach_init : reachable init
| reach_step s e : reachable s -> reachable (step s e).

(** Running a list of events in order. *)
Definition run (s : S) (es : list E) : S := fold_left step es s.

Lemma reachable_run_from s es : reachable s -> reachable (run s es).
Proof.
  revert s; induction es as [|e es IH]; intros s H; simpl; [done|].
  apply IH. by constructor.
Qed.

Lemma reachable_run es : reachable (run init es).
Proof. apply reachable_run_from. constructor. Qed.

Lemma run_append s es1 es2 : run s (es1 ++ es2) = run (run s es1) es2.
Proof. apply fold_left_app. Qed.

(** An inductive invariant holds in every reachable state. *)
Lemma invariant_reachable (P : S -> Prop) :
  P init -> (forall s e, P s -> P (step s e)) ->
  forall s, reachable s -> P s.
Proof. intros H0 Hs s Hr. induction Hr; auto. Qed.

(** A property preserved along reachable states. *)
Lemma invariant_reachable_strong (P : S -> Prop) :
  P init -> (forall s e, reachable s -> P s -> P (step s e)) ->
  forall s, reachable s -> P s.
Proof. intros H0 Hs s Hr. induction Hr; auto. Qed.
End Reachable.

#[export] Hint Constructors reachable : monograf.

(** ** Tactics *)

(** Simplify a goal about strings with the rewrite database. *)
Ltac str_simpl := autorewrite with monograf_rw in *; simpl in *.

(** Case on every boolean test of the form [bool_decide _] in the goal. *)
Ltac decide_cases :=
  repeat match goal with
  | |- context [bool_decide ?P] => destruct (bool_decide_reflect P)
  end.
