(* ===== verification/Types.v ===== *)
(** * Types: the data model of [src/types.ts]

    [SectionType], [Section], [Project] and the review records, with
    decidable equality.  Field names follow the source; the two fields of
    [Project] whose names clash with [Section]'s projections ([id],
    [title]) are prefixed with [project_]. *)

From S2P Require Import Prelude.

(** [export enum SectionType { PRE_TEXTUAL, TEXTUAL, POST_TEXTUAL }] *)
Inductive SectionType := PRE_TEXTUAL | TEXTUAL | POST_TEXTUAL.

(** [interface Section { id; title; content; type }] *)
Record Section := mkSection {
  id : string;
  title : string;
  content : string;
  type : SectionType;
}.

(** The union type ['Monografia' | 'Artigo'] of [Project.template]. *)
Inductive Template := Monografia | Artigo.

(** [interface Project { id; title; author; template; sections }] *)
Record Project := mkProject {
  project_id : string;
  project_title : string;
  author : string;
  template : Template;
  sections : list Section;
}.

(** [interface ReviewFeedback] *)
Record ReviewFeedback := mkReviewFeedback {
  abntCompliance : string;
  originality : string;
  cohesion : string;
  grammar : string;
}.

(** [interface ImprovementSuggestions] *)
Record ImprovementSuggestions := mkImprovementSuggestions {
  clarity : string;
  depth : string;
  conclusion : string;
  resultsPresentation : string;
}.

(** [interface FinalReview] *)
Record FinalReview := mkFinalReview {
  feedback : ReviewFeedback;
  suggestions : ImprovementSuggestions;
}.

#[export] Instance SectionType_eq_dec : EqDecision SectionType.
Proof. solve_decision. Defined.
#[export] Instance Template_eq_dec : EqDecision Template.
Proof. solve_decision. Defined.
#[export] Instance Section_eq_dec : EqDecision Section.
Proof. solve_decision. Defined.
#[export] Instance Project_eq_dec : EqDecision Project.
Proof. solve_decision. Defined.
#[export] Instance ReviewFeedback_eq_dec : EqDecision ReviewFeedback.
Proof. solve_decision. Defined.
#[export] Instance ImprovementSuggestions_eq_dec : EqDecision ImprovementSuggestions.
Proof. solve_decision. Defined.
#[export] Instance FinalReview_eq_dec : EqDecision FinalReview.
Proof. solve_decision. Defined.

(** The object-spread updates [{ ...s, content }] and
    [{ ...prev, [field]: value }] of the source. *)
Definition with_content (s : Section) (c : string) : Section :=
  mkSection s.(id) s.(title) c s.(type).

Definition with_sections (p : Project) (ss : list Section) : Project :=
  mkProject p.(project_id) p.(project_title) p.(author) p.(template) ss.

Lemma with_content_id s c : (with_content s c).(id) = s.(id).
Proof. done. Qed.

Lemma with_content_content s c : (with_content s c).(content) = c.
Proof. done. Qed.

#[export] Hint Rewrite with_content_id with_content_content : monograf_rw.
