(* ===== verification/Html.v ===== *)
(** * Html: the regular-expression text operations of [src/App.tsx]

    - [strip_tags]: [s.replace(/<[^>]*>?/gm, ' ')] (lines 78 and 91), as a
      two-state automaton; the theorems show it satisfies the four
      equations of the regex's leftmost-greedy global replace, and that
      these equations determine it.
    - [match_count]: [(s.match(/pat/g) || []).length] for a literal
      non-empty pattern, scanning left to right without overlaps; the
      figure counter [figure_count] of line 55 is its instance for
      ["<figure"], equal to the plain count [occurrences] of the marker;
      bounds on both functions close the file.
    - [replace_newlines], [paragraphs]: line 94.
    - [review_block], [full_text]: lines 73-76.
    - [figure_html]: the template literal of lines 56-65. *)

From S2P Require Import Prelude Types.

Definition lt_char : Ascii.ascii := "<"%char.
Definition gt_char : Ascii.ascii := ">"%char.

(** ** Tag stripping *)

(** [/<[^>]*>?/gm] replaced by [' ']: outside a match, ['<'] starts a
    match (replaced by one space); inside a match every character but
    ['>'] is consumed, and ['>'] ends it.  A match left open at the end of
    the string runs to the end (the [>?] is optional). *)
Fixpoint strip_go (in_tag : bool) (s : string) : string :=
  match s with
  | EmptyString => EmptyString
  | String c s' =>
      if in_tag then
        if bool_decide (c = gt_char) then strip_go false s' else strip_go true s'
      else if bool_decide (c = lt_char) then String " " (strip_go true s')
      else String c (strip_go false s')
  end.

Definition strip_tags (s : string) : string := strip_go false s.

(** ** Global match count of a literal pattern *)

(** [skip] is the number of characters still covered by the last match:
    a global regex match resumes after the end of the previous one. *)
Fixpoint count_go (pat : string) (skip : nat) (s : string) : nat :=
  match s with
  | EmptyString => 0
  | String _ s' =>
      match skip with
      | S k => count_go pat k s'
      | O => if String.prefix pat s
             then S (count_go pat (String.length pat - 1) s')
             else count_go pat 0 s'
      end
  end.

Definition match_count (pat s : string) : nat := count_go pat 0 s.

Definition figure_marker : string := "<figure".

(** [(activeSection.content.match(/<figure/g) || []).length] *)
Definition figure_count (s : string) : nat := match_count figure_marker s.

(** ** Paragraphs from generated text *)

(** [newText.replace(/\n/g, '</p><p>')] *)
Fixpoint replace_newlines (s : string) : string :=
  match s with
  | EmptyString => EmptyString
  | String c s' =>
      if bool_decide (c = nl_char) then "</p><p>" +:+ replace_newlines s'
      else String c (replace_newlines s')
  end.

(** [`<p>${newText.replace(/\n/g, '</p><p>')}</p>`] *)
Definition paragraphs (t : string) : string :=
  "<p>" +:+ replace_newlines t +:+ "</p>".

(** ** The text sent to the final review *)

Definition is_textual (s : Section) : bool := bool_decide (s.(type) = TEXTUAL).

(** [s => `<h2>${s.title}</h2>${s.content}`] *)
Definition review_block (s : Section) : string :=
  "<h2>" +:+ s.(title) +:+ "</h2>" +:+ s.(content).

(** [project.sections.filter(TEXTUAL).map(review_block).join('<hr>')] *)
Definition full_text (secs : list Section) : string :=
  String.concat "<hr>" (map review_block (List.filter is_textual secs)).

(** ** The figure block *)

(** The template literal of lines 56-65, cut at its interpolations:
    [figure_open ${imageDataUrl} figure_alt ${figureCount}
     figure_caption ${figureCount} figure_source ${year} figure_close]. *)
Definition figure_open : string :=
  nl +:+ "            <figure class=" +:+ dq +:+ "my-4 text-center" +:+ dq
  +:+ " contenteditable=" +:+ dq +:+ "false" +:+ dq +:+ ">"
  +:+ nl +:+ "                <img src=" +:+ dq.

Definition figure_alt : string := dq +:+ " alt=" +:+ dq +:+ "Imagem ".

Definition figure_caption : string :=
  dq +:+ " class=" +:+ dq
  +:+ "max-w-md h-auto mx-auto rounded-md border border-gray-300 dark:border-gray-600"
  +:+ dq +:+ " />"
  +:+ nl +:+ "                <figcaption class=" +:+ dq
  +:+ "mt-2 text-sm text-gray-600 dark:text-gray-400" +:+ dq
  +:+ " contenteditable=" +:+ dq +:+ "true" +:+ dq +:+ ">"
  +:+ nl +:+ "                    Figura ".

Definition figure_source : string :=
  " - Descreva a imagem aqui."
  +:+ nl +:+ "                    <br />"
  +:+ nl +:+ "                    Fonte: O autor (".

Definition figure_close : string :=
  ")."
  +:+ nl +:+ "                </figcaption>"
  +:+ nl +:+ "            </figure>"
  +:+ nl +:+ "            <p><br></p>".

(** [imageHtml] with [imageDataUrl = url], [figureCount = n] and
    [new Date().getFullYear() = year]. *)
Definition figure_html (n : nat) (url : string) (year : nat) : string :=
  figure_open +:+ url +:+ figure_alt +:+ show_nat n +:+ figure_caption
  +:+ show_nat n +:+ figure_source +:+ show_nat year +:+ figure_close.

(** [`data:image/png;base64,${imageData}`] (line 109) *)
Definition png_data_url (bytes : string) : string :=
  "data:image/png;base64," +:+ bytes.

(** ** A reference for the match count *)

(** The number of positions of [s] where [pat] starts, overlapping or
    not: what "how many figures are there" means. *)
Fixpoint occurrences (pat s : string) : nat :=
  match s with
  | EmptyString => 0
  | String _ s' => (if String.prefix pat s then 1 else 0) + occurrences pat s'
  end.

(** [s] without its first [n] characters. *)
Fixpoint sdrop (n : nat) (s : string) : string :=
  match n, s with
  | O, _ => s
  | S n', String _ s' => sdrop n' s'
  | S _, EmptyString => EmptyString
  end.

(** * Lemmas *)

(** ** Tag stripping *)

Lemma strip_go_append (b : bool) (a r : string) :
  exists b', strip_go b (a +:+ r) = strip_go b a +:+ strip_go b' r.
Proof.
  revert b; induction a as [|c a IH]; intros b; [by exists b|].
  rewrite append_cons; simpl.
  destruct b; decide_cases;
    first [destruct (IH false) as [b' ->] | destruct (IH true) as [b' ->]];
    exists b'; by rewrite ?append_cons.
Qed.

(** Nothing of the output of the automaton is a ['<']. *)
Lemma strip_go_no_lt (b : bool) (s : string) : char_in lt_char (strip_go b s) = false.
Proof.
  revert b; induction s as [|c s IH]; intros b; [done|]; simpl.
  destruct b; decide_cases; simpl; rewrite ?IH; decide_cases; subst; done.
Qed.

(** Inside a tag, a string without ['>'] is consumed. *)
Lemma strip_go_true_consume (t : string) : char_in gt_char t = false -> strip_go true t = "".
Proof.
  induction t as [|c t IH]; intros H; [done|]; simpl in *.
  apply orb_false_iff in H as [Hc Ht].
  rewrite bool_decide_false; [by rewrite IH|].
  intros ->. by rewrite bool_decide_true in Hc.
Qed.

Lemma strip_go_true_append (t r : string) :
  char_in gt_char t = false -> strip_go true (t +:+ r) = strip_go true r.
Proof.
  induction t as [|c t IH]; intros H; [done|].
  rewrite append_cons; simpl in *.
  apply orb_false_iff in H as [Hc Ht].
  rewrite bool_decide_false; [by rewrite IH|].
  intros ->. by rewrite bool_decide_true in Hc.
Qed.

(** ** Match count *)

(** No occurrence of [pat] starts in [a] and ends in [b]. *)
Definition no_straddle (pat a b : string) : Prop :=
  forall a1 c a2, a = a1 +:+ String c a2 ->
  String.length (String c a2) < String.length pat ->
  String.prefix pat (String c a2 +:+ b) = false.

Lemma no_straddle_tail pat c a b :
  no_straddle pat (String c a) b -> no_straddle pat a b.
Proof.
  intros H a1 d a2 -> Hl. apply (H (String c a1) d a2); [done|lia].
Qed.

(** The count over a concatenation is the sum of the counts when no
    occurrence straddles the boundary. *)
Lemma count_go_append pat k a b :
  no_straddle pat a b ->
  count_go pat k (a +:+ b) = count_go pat k a + count_go pat (k - String.length a) b.
Proof.
  revert k; induction a as [|c a IH]; intros k Hns; [by rewrite Nat.sub_0_r|].
  pose proof (no_straddle_tail _ _ _ _ Hns) as Hns'.
  rewrite append_cons; cbn [count_go]. destruct k as [|k]; [|by rewrite (IH _ Hns')].
  destruct (decide (String.length pat <= S (String.length a))) as [Hle|Hgt].
  - rewrite <-append_cons, prefix_append_long by done.
    destruct (String.prefix pat (String c a)); rewrite (IH _ Hns'); simpl; [|done].
    by replace (String.length pat - 1 - String.length a) with 0 by lia.
  - rewrite <-append_cons, (Hns "" c a) by (done || simpl in *; lia).
    destruct (String.prefix pat (String c a)) eqn:Hp.
    + apply prefix_length in Hp. simpl in *. lia.
    + by rewrite (IH _ Hns').
Qed.

Lemma count_go_append_0 pat a b :
  no_straddle pat a b -> count_go pat 0 (a +:+ b) = count_go pat 0 a + count_go pat 0 b.
Proof. intros H. by rewrite count_go_append. Qed.

(** A successful prefix test sees, at any position inside the pattern,
    a character of the pattern. *)
Lemma prefix_char_in p u x r :
  String.prefix p (u +:+ String x r) = true ->
  String.length u < String.length p -> char_in x p = true.
Proof.
  revert p; induction u as [|c u IH]; intros p Hp Hl.
  - destruct p as [|y p]; simpl in *; [lia|].
    destruct (Ascii.ascii_dec y x); [subst; by rewrite bool_decide_true | done].
  - rewrite append_cons in Hp.
    destruct p as [|y p]; simpl in *; [lia|].
    destruct (Ascii.ascii_dec y c); [|done].
    rewrite (IH p Hp ltac:(lia)). apply orb_true_r.
Qed.

Definition first_char (s : string) : option Ascii.ascii :=
  match s with EmptyString => None | String c _ => Some c end.

Fixpoint last_char (s : string) : option Ascii.ascii :=
  match s with
  | EmptyString => None
  | String c EmptyString => Some c
  | String _ s' => last_char s'
  end.

Lemma last_char_append u c v : last_char (u +:+ String c v) = last_char (String c v).
Proof.
  induction u as [|d u IH]; [done|]. rewrite append_cons.
  cbn [last_char]. rewrite IH. by destruct u.
Qed.

Lemma last_char_split s x : last_char s = Some x -> exists u, s = u +:+ String x "".
Proof.
  induction s as [|c s IH]; [done|]. destruct s as [|d s]; simpl.
  - intros [= ->]. by exists "".
  - intros H. destruct (IH H) as [u Hu]. exists (String c u). by rewrite append_cons, <-Hu.
Qed.

(** Right gap: [b] starts with a character that is not in [pat]. *)
Lemma no_straddle_right pat a b x :
  first_char b = Some x -> char_in x pat = false -> no_straddle pat a b.
Proof.
  destruct b as [|y b]; intros [= ->] Hx a1 c a2 _ Hl.
  destruct (String.prefix pat (String c a2 +:+ String x b)) eqn:Hp; [|done].
  rewrite (prefix_char_in _ _ _ _ Hp Hl) in Hx. done.
Qed.

(** Left gap: [a] ends with a character that is not in [pat]. *)
Lemma no_straddle_left pat a b x :
  last_char a = Some x -> char_in x pat = false -> no_straddle pat a b.
Proof.
  intros Hl Hx a1 c a2 -> Hlen.
  rewrite last_char_append in Hl. apply last_char_split in Hl as [u Hu].
  rewrite Hu in Hlen |- *. rewrite length_append in Hlen. simpl in Hlen.
  rewrite append_assoc, append_cons, append_nil_l.
  destruct (String.prefix pat (u +:+ String x b)) eqn:Hp; [|done].
  rewrite (prefix_char_in _ _ _ _ Hp ltac:(lia)) in Hx. done.
Qed.

(** A string with no character equal to the pattern's first one holds no
    match and does not change the count of what follows. *)
Lemma count_go_skip_free p pat d r :
  char_in p d = false -> count_go (String p pat) 0 (d +:+ r) = count_go (String p pat) 0 r.
Proof.
  induction d as [|c d IH]; intros H; [done|]. simpl in H.
  apply orb_false_iff in H as [Hc Hd].
  rewrite append_cons. cbn [count_go]. simpl.
  destruct (Ascii.ascii_dec p c) as [->|]; [by rewrite bool_decide_true in Hc|].
  by apply IH.
Qed.

Lemma show_nat_no_lt n : char_in lt_char (show_nat n) = false.
Proof.
  unfold show_nat. induction (Nat.to_uint n) as [| u IH | u IH | u IH | u IH | u IH
    | u IH | u IH | u IH | u IH | u IH]; simpl; by rewrite ?IH.
Qed.

(** Splitting a string at the first occurrence of a character. *)
Lemma split_first_char x s :
  char_in x s = false \/ exists t r, s = t +:+ String x r /\ char_in x t = false.
Proof.
  induction s as [|c s [IH|(t & r & -> & Ht)]]; [by left| |].
  - destruct (decide (x = c)) as [->|Hne].
    + right. by exists "", s.
    + left. cbn [char_in]. by rewrite bool_decide_false, IH.
  - right. destruct (decide (x = c)) as [->|Hne].
    + by exists "", (t +:+ String c r).
    + exists (String c t), r. rewrite append_cons. cbn [char_in].
      by rewrite bool_decide_false, Ht.
Qed.

(** The equations of [s.replace(/<[^>]*>?/gm, ' ')]: a character other
    than ['<'] is kept; a ['<'] starts a match that ends at the first
    ['>'] (included), or runs to the end of the string when there is
    none; each match becomes one space; scanning resumes after it. *)
Definition regex_strip_equations (f : string -> string) : Prop :=
  f "" = "" /\
  (forall c s, c <> lt_char -> f (String c s) = String c (f s)) /\
  (forall t r, char_in gt_char t = false ->
     f (String lt_char (t +:+ String gt_char r)) = String " " (f r)) /\
  (forall t, char_in gt_char t = false -> f (String lt_char t) = " ").

Lemma strip_tags_equations : regex_strip_equations strip_tags.
Proof.
  unfold strip_tags; split_and!; [done| | |].
  - intros c s Hc. cbn [strip_go]. by rewrite bool_decide_false.
  - intros t r Ht. cbn [strip_go]. rewrite bool_decide_true by done.
    rewrite strip_go_true_append by done. cbn [strip_go].
    by rewrite bool_decide_true.
  - intros t Ht. cbn [strip_go]. rewrite bool_decide_true by done.
    by rewrite strip_go_true_consume.
Qed.

(** C34: [strip_tags] is [s.replace(/<[^>]*>?/gm, ' ')]: it satisfies
    the equations of the regex's global replace, and any function that
    satisfies them agrees with it on every string. *)
Theorem strip_tags_is_regex_replace :
  regex_strip_equations strip_tags /\
  forall f, regex_strip_equations f -> forall s, f s = strip_tags s.
Proof.
  split; [apply strip_tags_equations|].
  intros f Hf. pose proof strip_tags_equations as Hs.
  destruct Hf as (F0 & F1 & F2 & F3), Hs as (S0 & S1 & S2 & S3).
  intros s. remember (String.length s) as n eqn:Hn.
  revert s Hn; induction n as [n IH] using lt_wf_ind; intros s ->.
  destruct s as [|c s]; [by rewrite F0, S0|].
  destruct (decide (c = lt_char)) as [->|Hc].
  - destruct (split_first_char gt_char s) as [Hs|(t & r & -> & Ht)].
    + by rewrite F3, S3.
    + rewrite F2, S2 by done. f_equal. apply (IH (String.length r)); [|done].
      simpl. rewrite length_append. simpl. lia.
  - rewrite F1, S1 by done. f_equal. apply (IH (String.length s)); [simpl; lia|done].
Qed.

Lemma figure_count_closed_pieces :
  count_go figure_marker 0 figure_open = 1 /\ count_go figure_marker 0 figure_alt = 0 /\
  count_go figure_marker 0 figure_caption = 0 /\ count_go figure_marker 0 figure_source = 0 /\
  count_go figure_marker 0 figure_close = 0.
Proof. vm_compute. done. Qed.

Lemma figure_piece_ends :
  last_char figure_open = Some dq_char /\ last_char figure_alt = Some " "%char /\
  last_char figure_caption = Some " "%char /\ last_char figure_source = Some "("%char.
Proof. vm_compute. done. Qed.

Lemma figure_piece_starts :
  first_char figure_open = Some nl_char /\ first_char figure_alt = Some dq_char /\
  first_char figure_caption = Some dq_char /\ first_char figure_close = Some ")"%char.
Proof. vm_compute. done. Qed.

Lemma first_char_append a b x : first_char a = Some x -> first_char (a +:+ b) = Some x.
Proof. by destruct a. Qed.

Lemma figure_marker_chars :
  char_in nl_char figure_marker = false /\ char_in dq_char figure_marker = false /\
  char_in " "%char figure_marker = false /\ char_in "("%char figure_marker = false /\
  char_in ")"%char figure_marker = false.
Proof. vm_compute. done. Qed.

Lemma figure_skip_digits k r :
  count_go figure_marker 0 (show_nat k +:+ r) = count_go figure_marker 0 r.
Proof. apply count_go_skip_free, show_nat_no_lt. Qed.

Lemma count_split_after pat a b x :
  last_char a = Some x -> char_in x pat = false ->
  count_go pat 0 (a +:+ b) = count_go pat 0 a + count_go pat 0 b.
Proof. intros Ha Hx. apply count_go_append_0. exact (no_straddle_left _ _ _ _ Ha Hx). Qed.

Lemma count_split_before pat a p b x :
  first_char p = Some x -> char_in x pat = false ->
  count_go pat 0 (a +:+ (p +:+ b)) = count_go pat 0 a + count_go pat 0 (p +:+ b).
Proof.
  intros Hp Hx. apply count_go_append_0.
  exact (no_straddle_right _ _ _ _ (first_char_append _ _ _ Hp) Hx).
Qed.

Lemma figure_close_end : last_char figure_close = Some ">"%char /\ char_in ">"%char figure_marker = false.
Proof. vm_compute. done. Qed.

(** A figure block between any two contents adds exactly one figure
    marker, plus whatever the image URL itself holds: the block starts
    with a line break and ends with [>], so no marker straddles its
    ends. *)
Lemma figure_count_around (a url : string) (n year : nat) (b : string) :
  figure_count (a +:+ figure_html n url year +:+ b) =
  S (figure_count a + figure_count url + figure_count b).
Proof.
  destruct figure_count_closed_pieces as (Ho & Ha & Hc & Hs & Hcl).
  destruct figure_piece_ends as (Eo & Ea & Ec & Es).
  destruct figure_piece_starts as (So & Sa & Sc & Scl).
  destruct figure_marker_chars as (Xnl & Xdq & Xsp & Xlp & Xrp).
  destruct figure_close_end as [Ecl Xgt].
  unfold figure_count, match_count. unfold figure_html. rewrite !append_assoc.
  rewrite (count_split_before _ a _ _ _ So Xnl), (count_split_after _ _ _ _ Eo Xdq).
  rewrite (count_split_before _ url _ _ _ Sa Xdq), (count_split_after _ _ _ _ Ea Xsp).
  rewrite figure_skip_digits, (count_split_after _ _ _ _ Ec Xsp).
  rewrite figure_skip_digits, (count_split_after _ _ _ _ Es Xlp).
  rewrite figure_skip_digits, (count_split_after _ _ _ _ Ecl Xgt).
  rewrite Ho, Ha, Hc, Hs, Hcl. lia.
Qed.

(** Inserting a figure block after any content adds exactly one figure
    marker, plus whatever the image URL itself holds. *)
Theorem figure_count_insert (c url : string) (n year : nat) :
  figure_count (c +:+ figure_html n url year) = S (figure_count c + figure_count url).
Proof.
  rewrite <-(append_nil_r (figure_html n url year)), figure_count_around.
  change (figure_count "") with 0. lia.
Qed.

(** ** Paragraphs of the generated text *)

Lemma replace_newlines_append a b :
  replace_newlines (a +:+ b) = replace_newlines a +:+ replace_newlines b.
Proof.
  induction a as [|c a IH]; [done|]. rewrite append_cons. cbn [replace_newlines].
  case_bool_decide; by rewrite IH, ?append_assoc, ?append_cons.
Qed.

Lemma replace_newlines_id t : char_in nl_char t = false -> replace_newlines t = t.
Proof.
  induction t as [|c t IH]; intros Ht; [done|]. cbn [char_in] in Ht.
  apply orb_false_iff in Ht as [Hc Ht]. cbn [replace_newlines].
  rewrite bool_decide_false; [by rewrite IH|]. intros ->. by rewrite bool_decide_true in Hc.
Qed.

(** C37: each line of the generated text becomes one paragraph: a text made
    of lines without line breaks, joined by ['\n'], is turned into the
    concatenation of [<p>line</p>] for each line, in order. *)
Theorem paragraphs_lines (ls : list string) :
  ls <> [] -> Forall (fun l => char_in nl_char l = false) ls ->
  paragraphs (String.concat nl ls) =
  String.concat "" (map (fun l => "<p>" +:+ l +:+ "</p>") ls).
Proof.
  induction ls as [|l ls IH]; intros Hne Hls; [done|].
  apply Forall_cons in Hls as [Hl Hls].
  destruct ls as [|l' ls'].
  - simpl. unfold paragraphs. by rewrite replace_newlines_id.
  - specialize (IH ltac:(done) Hls). cbn [String.concat map] in *.
    unfold paragraphs in *. rewrite !replace_newlines_append, replace_newlines_id by done.
    rewrite <-IH. vm_compute (replace_newlines nl). by rewrite !append_assoc.
Qed.

Lemma paragraphs_lines_witness :
  ["Primeira linha."; "Segunda linha."] <> [] /\
  Forall (fun l => char_in nl_char l = false) ["Primeira linha."; "Segunda linha."] /\
  paragraphs (String.concat nl ["Primeira linha."; "Segunda linha."]) =
  String.concat "" (map (fun l => "<p>" +:+ l +:+ "</p>") ["Primeira linha."; "Segunda linha."]).
Proof.
  assert (Hne : ["Primeira linha."; "Segunda linha."] <> []) by discriminate.
  assert (Hf : Forall (fun l => char_in nl_char l = false) ["Primeira linha."; "Segunda linha."])
    by (repeat constructor).
  split; [exact Hne|]. split; [exact Hf|]. exact (paragraphs_lines _ Hne Hf).
Defined.

(** ** The match count against the reference *)

Lemma prefix_split pat s : String.prefix pat s = true -> exists r, s = pat +:+ r.
Proof.
  revert s; induction pat as [|a pat IH]; intros s H; [by exists s|].
  destruct s as [|b s]; [done|]. simpl in H. destruct (Ascii.ascii_dec a b) as [<-|]; [|done].
  destruct (IH s H) as [r ->]. exists r. by rewrite append_cons.
Qed.

Lemma sdrop_app x r : sdrop (String.length x) (x +:+ r) = r.
Proof. induction x as [|c x IH]; [done|]. by rewrite append_cons. Qed.

(** Text without the pattern's first character holds no occurrence. *)
Lemma occurrences_no_head p0 tl x r :
  char_in p0 x = false -> occurrences (String p0 tl) (x +:+ r) = occurrences (String p0 tl) r.
Proof.
  induction x as [|c x IH]; [done|]. cbn [char_in]. intros [Hc Hx]%orb_false_iff.
  rewrite append_cons. cbn [occurrences]. rewrite IH by done. simpl.
  destruct (Ascii.ascii_dec p0 c); [subst; by rewrite bool_decide_true in Hc|done].
Qed.

(** The global scan skips the rest of each match; when the pattern's
    first character does not recur in it, no occurrence hides there. *)
Lemma count_go_occurrences p0 tl k s :
  char_in p0 tl = false ->
  count_go (String p0 tl) k s = occurrences (String p0 tl) (sdrop k s).
Proof.
  intros Htl. revert k; induction s as [|c s IH]; intros k; [by destruct k|].
  destruct k as [|k]; cbn [count_go sdrop]; [|apply IH].
  cbn [occurrences]. destruct (String.prefix (String p0 tl) (String c s)) eqn:E; [|apply IH].
  rewrite IH. destruct (prefix_split _ _ E) as [r Hr]. rewrite append_cons in Hr.
  injection Hr as -> ->. cbn [String.length].
  replace (S (String.length tl) - 1) with (String.length tl) by lia. rewrite sdrop_app.
  by rewrite occurrences_no_head.
Qed.

(** ** Bounds *)

(** Matches do not overlap, and each one covers the pattern's length. *)
Lemma count_go_bound pat k s :
  pat <> "" -> count_go pat k s * String.length pat <= String.length s - k.
Proof.
  intros Hp. revert k; induction s as [|c s IH]; intros k; [done|].
  cbn [count_go String.length]. destruct k as [|k]; [|specialize (IH k); lia].
  destruct (String.prefix pat (String c s)) eqn:E; [|specialize (IH 0); lia].
  apply prefix_length in E. specialize (IH (String.length pat - 1)).
  destruct pat as [|x pat]; [done|]. cbn [String.length] in *. nia.
Qed.

(** the figure counter is bounded by the content: a section of
    length [n] holds at most [n / 7] matches of ["<figure"], so the
    number given to the next figure is at most [n / 7 + 1]. *)
Theorem figure_count_bound c :
  figure_count c * 7 <= String.length c /\ figure_count c + 1 <= String.length c / 7 + 1.
Proof.
  assert (H : figure_count c * 7 <= String.length c).
  { pose proof (count_go_bound figure_marker 0 c ltac:(done)) as Hb. unfold figure_count, match_count.
    cbn [String.length figure_marker] in Hb. lia. }
  split; [done|]. apply Nat.add_le_mono_r, Nat.div_le_lower_bound; lia.
Qed.

(** C35: the figure counter is the number of figures.  The global match
    of [/<figure/g] skips the rest of each match, yet counts every
    position where ["<figure"] starts: ['<'] does not recur in the
    marker, so matches cannot overlap. *)
Theorem figure_count_occurrences s : figure_count s = occurrences figure_marker s.
Proof. by apply count_go_occurrences. Qed.
