(* ===== verification/Gemini.v ===== *)
(** * Gemini: the AI gateway of [src/services/geminiService.ts]

    The provider is an external collaborator.  Each exported async
    function performs exactly one provider call under [try/catch]; it is
    modelled as the request it sends ([*_request], a value of [Request]
    recorded by the caller) and the function from the provider's outcome
    to the value the function resolves to ([*_result]).  Outcomes follow
    the optional fields of the SDK's response types:
    [GenerateContentResponse.text] may be [undefined], and
    [generateImages] returns an optional list of images whose [image] and
    [imageBytes] are optional.  [JSON.parse] is the [JsonParse] class;
    [String.prototype.trim] is [js_trim] on UTF-8 bytes.

    The module-level check [if (!API_KEY) throw ...] is [init_service].
    The file ends with the properties of [js_trim] and the JSON value
    [review_json] of a review in the shape [reviewSchema] requests. *)

From S2P Require Import Prelude Types.

#[local] Set Warnings "-register-all".


(** ** JSON values and the platform's [JSON.parse] *)

Inductive json :=
| JNull
| JBool (b : bool)
| JNumber (n : Z)
| JString (s : string)
| JArray (items : list json)
| JObject (fields : list (string * json)).

(** [JSON.parse]: [None] when it throws a [SyntaxError]. *)
Class JsonParse := { JSON_parse : string -> option json }.

(** ** The SDK's request and response shapes *)

Inductive SchemaType := OBJECT | STRING.

Inductive Schema := mkSchema {
  schema_type : SchemaType;
  schema_description : option string;
  schema_properties : list (string * Schema);
  schema_required : list string;
}.

Definition string_prop (name descr : string) : string * Schema :=
  (name, mkSchema STRING (Some descr) [] []).

(** [reviewSchema] (lines 12-37). *)
Definition reviewSchema : Schema :=
  mkSchema OBJECT None
    [("feedback", mkSchema OBJECT None
        [string_prop "abntCompliance" "Análise da conformidade ABNT (margens, espaçamento, citações). Aponte erros específicos.";
         string_prop "originality" "Análise de originalidade e plágio. Indique trechos que precisam de citação ou paráfrase.";
         string_prop "cohesion" "Análise de coerência e coesão. Aponte problemas de fluxo lógico e repetições.";
         string_prop "grammar" "Análise ortográfica e gramatical avançada."]
        ["abntCompliance"; "originality"; "cohesion"; "grammar"]);
     ("suggestions", mkSchema OBJECT None
        [string_prop "clarity" "Sugestão sobre a clareza do objetivo geral e sua conexão com a conclusão.";
         string_prop "depth" "Sugestão sobre a profundidade do referencial teórico.";
         string_prop "conclusion" "Sugestão para fortalecer as conclusões, contribuições e trabalhos futuros.";
         string_prop "resultsPresentation" "Sugestão sobre a apresentação e discussão dos resultados e figuras."]
        ["clarity"; "depth"; "conclusion"; "resultsPresentation"])]
    ["feedback"; "suggestions"].

Record GenerateContentConfig := mkGenerateContentConfig {
  responseMimeType : string;
  responseSchema : Schema;
}.

(** A call of [ai.models.generateContent] or [ai.models.generateImages]
    with its arguments. *)
Inductive Request :=
| GenerateContent (model : string) (contents : string) (config : option GenerateContentConfig)
| GenerateImages (model : string) (prompt : string)
    (numberOfImages : nat) (outputMimeType : string) (aspectRatio : string).

(** The outcome of an awaited [generateContent]: it rejects, or resolves
    to a response whose [text] may be [undefined] ([None]). *)
Inductive ContentOutcome :=
| ContentError
| ContentResponse (text : option string).

Record Image := mkImage { imageBytes : option string }.
Record GeneratedImage := mkGeneratedImage { image : option Image }.

(** The outcome of an awaited [generateImages]. *)
Inductive ImagesOutcome :=
| ImagesError
| ImagesResponse (generatedImages : option (list GeneratedImage)).

(** ** [String.prototype.trim] on UTF-8 bytes *)

Definition code (c : Ascii.ascii) : N := Ascii.N_of_ascii c.

(** White space and line terminators of one byte: TAB, LF, VT, FF, CR,
    SPACE. *)
Definition ws1 (c : Ascii.ascii) : bool :=
  bool_decide (code c ∈ [9; 10; 11; 12; 13; 32]%N).

(** U+00A0 (C2 A0). *)
Definition ws2 (c1 c2 : Ascii.ascii) : bool :=
  bool_decide (code c1 = 194%N /\ code c2 = 160%N).

(** U+1680 (E1 9A 80), U+2000-U+200A (E2 80 80-8A), U+2028, U+2029,
    U+202F (E2 80 A8, A9, AF), U+205F (E2 81 9F), U+3000 (E3 80 80),
    U+FEFF (EF BB BF). *)
Definition ws3 (c1 c2 c3 : Ascii.ascii) : bool :=
  let a := code c1 in let b := code c2 in let c := code c3 in
  bool_decide ((a = 225 /\ b = 154 /\ c = 128) \/
               (a = 226 /\ b = 128 /\ (128 <= c <= 138 \/ c = 168 \/ c = 169 \/ c = 175)) \/
               (a = 226 /\ b = 129 /\ c = 159) \/
               (a = 227 /\ b = 128 /\ c = 128) \/
               (a = 239 /\ b = 187 /\ c = 191))%N.

(** Drop leading white space; [w2] and [w3] recognise the multi-byte
    white space in the byte order of the scan. *)
Fixpoint trim_left_with (w2 : Ascii.ascii -> Ascii.ascii -> bool)
    (w3 : Ascii.ascii -> Ascii.ascii -> Ascii.ascii -> bool) (s : string) : string :=
  match s with
  | EmptyString => EmptyString
  | String c1 s1 =>
      if ws1 c1 then trim_left_with w2 w3 s1 else
      match s1 with
      | EmptyString => s
      | String c2 s2 =>
          if w2 c1 c2 then trim_left_with w2 w3 s2 else
          match s2 with
          | EmptyString => s
          | String c3 s3 => if w3 c1 c2 c3 then trim_left_with w2 w3 s3 else s
          end
      end
  end.

Fixpoint string_rev (s : string) : string :=
  match s with
  | EmptyString => EmptyString
  | String c s' => string_rev s' +:+ String c EmptyString
  end.

(** [s.trimStart()] *)
Definition trim_start (s : string) : string := trim_left_with ws2 ws3 s.

(** [s.trimEnd()]: the same scan on the reversed bytes, with the
    multi-byte sequences reversed. *)
Definition ws2_rev (c2 c1 : Ascii.ascii) : bool := ws2 c1 c2.
Definition ws3_rev (c3 c2 c1 : Ascii.ascii) : bool := ws3 c1 c2 c3.

Definition trim_end (s : string) : string :=
  string_rev (trim_left_with ws2_rev ws3_rev (string_rev s)).

(** [s.trim()] *)
Definition js_trim (s : string) : string := trim_end (trim_start s).

(** ** The module initialisation (lines 4-10) *)

Inductive InitResult :=
| InitError (message : string)
| InitOk (apiKey : string).

(** [const API_KEY = process.env.API_KEY; if (!API_KEY) throw ...]: an
    absent variable and an empty one are both falsy. *)
Definition init_service (API_KEY : option string) : InitResult :=
  match API_KEY with
  | Some k => if bool_decide (k = "") then InitError "API_KEY environment variable not set."
              else InitOk k
  | None => InitError "API_KEY environment variable not set."
  end.

(** ** [conductFinalReview] (lines 39-66) *)

Definition review_model : string := "gemini-2.5-flash".

(** The template literal of lines 41-48. *)
Definition review_prompt (fullText : string) : string :=
  "Aja como um Mestre de Bancada Acadêmica, um avaliador de TCC extremamente crítico e detalhista. Analise o seguinte trabalho acadêmico e forneça um feedback estruturado."
  +:+ nl +:+ nl +:+ "        Texto do Trabalho:"
  +:+ nl +:+ "        ---"
  +:+ nl +:+ "        " +:+ fullText
  +:+ nl +:+ "        ---"
  +:+ nl +:+ nl
  +:+ "        Sua análise deve ser dividida em duas partes: 'Identificação de Erros (Crítica Fria)' e 'Sugestões de Melhoria (Conselho de Mestre)'. Responda estritamente no formato JSON solicitado.".

Definition conductFinalReview_request (fullText : string) : Request :=
  GenerateContent review_model (review_prompt fullText)
    (Some (mkGenerateContentConfig "application/json" reviewSchema)).

(** What the promise resolves to: the value [JSON.parse] returns (the
    [as FinalReview] cast checks nothing), or [null] from the [catch]
    when the call rejects, when [response.text] is [undefined] (reading
    [.trim] of it throws) or when the text is not JSON. *)
Definition conductFinalReview_result `{JsonParse} (o : ContentOutcome) : json :=
  match o with
  | ContentError => JNull
  | ContentResponse None => JNull
  | ContentResponse (Some text) =>
      match JSON_parse (js_trim text) with
      | Some v => v
      | None => JNull
      end
  end.

(** ** [generateText] (lines 69-80) *)

Definition text_model : string := "gemini-2.5-flash".

Definition generateText_request (prompt : string) : Request :=
  GenerateContent text_model prompt None.

Definition generateText_apology : string :=
  "Desculpe, não foi possível gerar o texto no momento.".

(** [return response.text] ([None]: [undefined]), or the apology text from
    the [catch]. *)
Definition generateText_result (o : ContentOutcome) : option string :=
  match o with
  | ContentError => Some generateText_apology
  | ContentResponse text => text
  end.

(** ** [generateImage] (lines 82-103) *)

Definition image_model : string := "imagen-4.0-generate-001".

Definition generateImage_request (prompt : string) : Request :=
  GenerateImages image_model prompt 1 "image/png" "1:1".

(** [response.generatedImages[0].image.imageBytes] when the list is
    present and not empty, [null] otherwise; reading [imageBytes] of an
    absent [image] throws and the [catch] returns [null].  [None] stands
    for both [null] and [undefined]: the caller only tests truthiness. *)
Definition generateImage_result (o : ImagesOutcome) : option string :=
  match o with
  | ImagesError => None
  | ImagesResponse (Some (g :: _)) =>
      match g.(image) with
      | Some i => i.(imageBytes)
      | None => None
      end
  | ImagesResponse _ => None
  end.

(** The JSON value of a [FinalReview] in the shape [reviewSchema] asks
    the provider for. *)
Definition review_json (r : FinalReview) : json :=
  JObject [("feedback", JObject [
              ("abntCompliance", JString r.(feedback).(abntCompliance));
              ("originality", JString r.(feedback).(originality));
              ("cohesion", JString r.(feedback).(cohesion));
              ("grammar", JString r.(feedback).(grammar))]);
           ("suggestions", JObject [
              ("clarity", JString r.(suggestions).(clarity));
              ("depth", JString r.(suggestions).(depth));
              ("conclusion", JString r.(suggestions).(conclusion));
              ("resultsPresentation", JString r.(suggestions).(resultsPresentation))])].

(** The value of a property: [JSON.parse] keeps the last of duplicate
    keys; [None] is [undefined]. *)
Definition lookup_last (k : string) (fields : list (string * json)) : option json :=
  fold_left (fun acc kv => if bool_decide (kv.1 = k) then Some kv.2 else acc) fields None.

(** The provider's contract for [responseSchema]: a value conforms to a
    schema of type [STRING] when it is a string, and to a schema of type
    [OBJECT] when it is an object whose listed properties conform to
    their schemas, the required ones present ([JSON.parse] keeps the last
    of duplicate keys). *)
Fixpoint conforms (sc : Schema) (v : json) {struct sc} : bool :=
  match sc, v with
  | mkSchema STRING _ _ _, JString _ => true
  | mkSchema OBJECT _ props req, JObject fields =>
      (fix go (ps : list (string * Schema)) : bool :=
         match ps with
         | [] => true
         | (k, sc') :: ps' =>
             match lookup_last k fields with
             | Some w => conforms sc' w
             | None => negb (bool_decide (k ∈ req))
             end && go ps'
         end) props
  | _, _ => false
  end.

(** ** Properties of [js_trim] *)

Section TrimLeft.
Variable w2 : Ascii.ascii -> Ascii.ascii -> bool.
Variable w3 : Ascii.ascii -> Ascii.ascii -> Ascii.ascii -> bool.

(** Does [s] start with a white-space sequence of one, two or three
    bytes? *)
Definition lead_ws (s : string) : bool :=
  match s with
  | EmptyString => false
  | String c1 s1 =>
      ws1 c1 ||
      match s1 with
      | EmptyString => false
      | String c2 s2 =>
          w2 c1 c2 ||
          match s2 with
          | EmptyString => false
          | String c3 _ => w3 c1 c2 c3
          end
      end
  end.

(** Strong induction on the length of a string, for the scans that
    skip one to three bytes. *)
Lemma string_len_ind (P : string -> Prop) :
  (forall s, (forall t, String.length t < String.length s -> P t) -> P s) ->
  forall s, P s.
Proof.
  intros Hs s. remember (String.length s) as n eqn:Hn. revert s Hn.
  induction n as [n IH] using lt_wf_ind. intros s ->. apply Hs. intros t Ht. by eapply IH.
Qed.

(** The scan stops at once on a string with no leading white space. *)
Lemma trim_left_stop s : lead_ws s = false -> trim_left_with w2 w3 s = s.
Proof.
  destruct s as [|c1 [|c2 [|c3 s]]]; simpl; [done| | |];
    destruct (ws1 c1); simpl; try done; destruct (w2 c1 c2); simpl; try done.
  by destruct (w3 c1 c2 c3).
Qed.

(** The scan splits its argument into a prefix of white space (which the
    scan erases) and a result with no leading white space. *)
Lemma trim_left_split s :
  exists p, s = p +:+ trim_left_with w2 w3 s /\ trim_left_with w2 w3 p = "" /\
            lead_ws (trim_left_with w2 w3 s) = false.
Proof.
  induction s as [s IH] using string_len_ind.
  destruct s as [|c1 s1]; [by exists ""|]. simpl.
  destruct (ws1 c1) eqn:E1.
  { destruct (IH s1) as (p & Hp & He & Hl); [simpl; lia|].
    exists (String c1 p). rewrite append_cons, <-Hp. simpl. by rewrite E1. }
  destruct s1 as [|c2 s2]; [exists ""; simpl; by rewrite E1|].
  destruct (w2 c1 c2) eqn:E2.
  { destruct (IH s2) as (p & Hp & He & Hl); [simpl; lia|].
    exists (String c1 (String c2 p)). rewrite !append_cons, <-Hp. simpl. by rewrite E1, E2. }
  destruct s2 as [|c3 s3]; [exists ""; simpl; by rewrite E1, E2|].
  destruct (w3 c1 c2 c3) eqn:E3.
  { destruct (IH s3) as (p & Hp & He & Hl); [simpl; lia|].
    exists (String c1 (String c2 (String c3 p))). rewrite !append_cons, <-Hp. simpl.
    by rewrite E1, E2, E3. }
  exists "". simpl. by rewrite E1, E2, E3.
Qed.

Lemma trim_left_idem s :
  trim_left_with w2 w3 (trim_left_with w2 w3 s) = trim_left_with w2 w3 s.
Proof. destruct (trim_left_split s) as (_ & _ & _ & Hl). by apply trim_left_stop. Qed.

(** Leading white space is decided by the first bytes, which a prefix
    keeps. *)
Lemma lead_ws_prefix u q : lead_ws (u +:+ q) = false -> lead_ws u = false.
Proof.
  destruct u as [|c1 [|c2 [|c3 u]]]; rewrite ?append_cons; simpl; [done| | |];
    destruct (ws1 c1); simpl; try done; destruct (w2 c1 c2); simpl; done.
Qed.
End TrimLeft.

Lemma string_rev_app a b : string_rev (a +:+ b) = string_rev b +:+ string_rev a.
Proof.
  induction a as [|c a IH]; [simpl; by rewrite append_nil_r|].
  rewrite append_cons. cbn [string_rev]. by rewrite IH, append_assoc.
Qed.

Lemma string_rev_involutive s : string_rev (string_rev s) = s.
Proof. induction s as [|c s IH]; [done|]. simpl. by rewrite string_rev_app, IH. Qed.

(** [trimEnd] of a string whose reversal splits into white space [q] and
    a rest [r] with no white space at its start. *)
Lemma trim_end_split t :
  exists q, string_rev t = q +:+ string_rev (trim_end t) /\
            trim_left_with ws2_rev ws3_rev q = "" /\
            lead_ws ws2_rev ws3_rev (string_rev (trim_end t)) = false.
Proof.
  unfold trim_end. rewrite string_rev_involutive. apply trim_left_split.
Qed.

(** A string that neither starts nor ends with white space is its own
    trim. *)
Lemma js_trim_fixed s :
  lead_ws ws2 ws3 s = false -> lead_ws ws2_rev ws3_rev (string_rev s) = false -> js_trim s = s.
Proof.
  intros H1 H2. unfold js_trim, trim_start. rewrite trim_left_stop by done.
  unfold trim_end. rewrite trim_left_stop by done. apply string_rev_involutive.
Qed.

(** ** [trim] against the white space of ECMAScript

    The specification side, independent of the scan: the code points of
    WhiteSpace and LineTerminator (ECMA-262, 12.2 and 12.3) in UTF-8. *)

(** The UTF-8 encoding of a code point of the Basic Multilingual Plane. *)
Definition utf8 (cp : N) : string :=
  if (cp <? 128)%N then String (Ascii.ascii_of_N cp) ""
  else if (cp <? 2048)%N then
    String (Ascii.ascii_of_N (192 + cp / 64)) (String (Ascii.ascii_of_N (128 + cp mod 64)) "")
  else String (Ascii.ascii_of_N (224 + cp / 4096))
         (String (Ascii.ascii_of_N (128 + (cp / 64) mod 64))
           (String (Ascii.ascii_of_N (128 + cp mod 64)) "")).

(** TAB, LF, VT, FF, CR, SPACE, NBSP, U+1680, U+2000-U+200A, LS, PS,
    U+202F, U+205F, U+3000 and ZWNBSP. *)
Definition js_white_space_points : list N :=
  [9; 10; 11; 12; 13; 32; 160; 5760;
   8192; 8193; 8194; 8195; 8196; 8197; 8198; 8199; 8200; 8201; 8202;
   8232; 8233; 8239; 8287; 12288; 65279]%N.

Definition ws_units : list string := map utf8 js_white_space_points.

(** A concatenation of pieces each satisfying [U]. *)
Inductive concat_of (U : string -> Prop) : string -> Prop :=
| concat_nil : concat_of U ""
| concat_cons w s : U w -> concat_of U s -> concat_of U (w +:+ s).

Definition all_white : string -> Prop := concat_of (fun w => w ∈ ws_units).

Definition starts_white (s : string) : Prop := exists w r, w ∈ ws_units /\ s = w +:+ r.
Definition ends_white (s : string) : Prop := exists w r, w ∈ ws_units /\ s = r +:+ w.

(** Enumerate the units a membership hypothesis allows. *)
Ltac unit_cases H :=
  apply list_elem_of_In in H; vm_compute in H;
  repeat destruct H as [H|H]; simplify_eq; try done.

Lemma unit_shapes w :
  w ∈ ws_units ->
  (exists c, w = String c "") \/ (exists c1 c2, w = String c1 (String c2 "")) \/
  (exists c1 c2 c3, w = String c1 (String c2 (String c3 ""))).
Proof. intros H. unit_cases H; eauto 10. Qed.

Lemma unit1_ws1 c : String c "" ∈ ws_units -> ws1 c = true.
Proof. intros H. unit_cases H. Qed.

Lemma unit2_ws2 c1 c2 : String c1 (String c2 "") ∈ ws_units -> ws2 c1 c2 = true.
Proof. intros H. unit_cases H. Qed.

Lemma unit3_ws3 c1 c2 c3 : String c1 (String c2 (String c3 "")) ∈ ws_units -> ws3 c1 c2 c3 = true.
Proof. intros H. unit_cases H. Qed.

Lemma ws1_unit c : ws1 c = true -> String c "" ∈ ws_units.
Proof.
  intros H. apply list_elem_of_In.
  destruct c as [[] [] [] [] [] [] [] []]; vm_compute in H; try discriminate;
    vm_compute; repeat (first [left; reflexivity | right]).
Qed.

Lemma code_char c n : code c = n -> c = Ascii.ascii_of_N n.
Proof. intros <-. symmetry. apply Ascii.ascii_N_embedding. Qed.

Lemma ws2_unit c1 c2 : ws2 c1 c2 = true -> String c1 (String c2 "") ∈ ws_units.
Proof.
  unfold ws2. intros [H1 H2]%bool_decide_eq_true.
  rewrite (code_char _ _ H1), (code_char _ _ H2). apply list_elem_of_In. vm_compute. tauto.
Qed.

Lemma ws3_unit c1 c2 c3 : ws3 c1 c2 c3 = true -> String c1 (String c2 (String c3 "")) ∈ ws_units.
Proof.
  unfold ws3. intros H%bool_decide_eq_true. apply list_elem_of_In.
  assert (Hc3 : (code c3 = 128 \/ code c3 = 129 \/ code c3 = 130 \/ code c3 = 131 \/ code c3 = 132 \/
                code c3 = 133 \/ code c3 = 134 \/ code c3 = 135 \/ code c3 = 136 \/ code c3 = 137 \/
                code c3 = 138 \/ code c3 = 168 \/ code c3 = 169 \/ code c3 = 175 \/ code c3 = 159 \/
                code c3 = 191)%N) by lia.
  destruct H as [(H1 & H2 & Hg) | [(H1 & H2 & Hg) | [(H1 & H2 & Hg) | [(H1 & H2 & Hg) | (H1 & H2 & Hg)]]]];
    rewrite (code_char _ _ H1), (code_char _ _ H2);
    destruct Hc3 as [H3|[H3|[H3|[H3|[H3|[H3|[H3|[H3|[H3|[H3|[H3|[H3|[H3|[H3|[H3|H3]]]]]]]]]]]]]]];
    first [exfalso; lia | rewrite (code_char _ _ H3); vm_compute; tauto].
Qed.

Lemma concat_of_app U a b : concat_of U a -> concat_of U b -> concat_of U (a +:+ b).
Proof.
  induction 1 as [|w s Hw Hs IH]; intros Hb; [by rewrite append_nil_l|].
  rewrite append_assoc. constructor; auto.
Qed.

Lemma concat_of_one (U : string -> Prop) w : U w -> concat_of U w.
Proof. intros Hw. rewrite <-(append_nil_r w). by repeat constructor. Qed.

Section TrimUnits.
Variable w2 : Ascii.ascii -> Ascii.ascii -> bool.
Variable w3 : Ascii.ascii -> Ascii.ascii -> Ascii.ascii -> bool.
Variable U : string -> Prop.
Hypothesis HU1 : forall c, ws1 c = true -> U (String c "").
Hypothesis HU2 : forall c1 c2, w2 c1 c2 = true -> U (String c1 (String c2 "")).
Hypothesis HU3 : forall c1 c2 c3, w3 c1 c2 c3 = true -> U (String c1 (String c2 (String c3 ""))).

(** What the scan erases is a concatenation of the pieces it
    recognises. *)
Lemma trim_left_units s : exists p, s = p +:+ trim_left_with w2 w3 s /\ concat_of U p.
Proof.
  induction s as [s IH] using string_len_ind.
  destruct s as [|c1 s1]; [exists ""; split; [done|constructor]|]. simpl.
  destruct (ws1 c1) eqn:E1.
  { destruct (IH s1) as (p & Hp & Hw); [simpl; lia|].
    exists (String c1 "" +:+ p). rewrite append_assoc, <-Hp. split; [done|]. by constructor; auto. }
  destruct s1 as [|c2 s2]; [exists ""; split; [done|constructor]|].
  destruct (w2 c1 c2) eqn:E2.
  { destruct (IH s2) as (p & Hp & Hw); [simpl; lia|].
    exists (String c1 (String c2 "") +:+ p). rewrite append_assoc, <-Hp. split; [done|]. by constructor; auto. }
  destruct s2 as [|c3 s3]; [exists ""; split; [done|constructor]|].
  destruct (w3 c1 c2 c3) eqn:E3; [|exists ""; split; [done|constructor]].
  destruct (IH s3) as (p & Hp & Hw); [simpl; lia|].
  exists (String c1 (String c2 (String c3 "")) +:+ p). rewrite append_assoc, <-Hp.
  split; [done|]. by constructor; auto.
Qed.
End TrimUnits.

Lemma all_white_rev q :
  concat_of (fun w => string_rev w ∈ ws_units) q -> all_white (string_rev q).
Proof.
  induction 1 as [|w s Hw Hs IH]; [constructor|].
  rewrite string_rev_app. apply concat_of_app; [done|]. by apply concat_of_one.
Qed.

(** No unit starts a string whose first bytes the scan does not erase. *)
Lemma lead_ws_not_white m : lead_ws ws2 ws3 m = false -> ~ starts_white m.
Proof.
  intros Hl (w & r & Hw & ->).
  destruct (unit_shapes w Hw) as [(c & ->) | [(c1 & c2 & ->) | (c1 & c2 & c3 & ->)]];
    rewrite ?append_cons in Hl; simpl in Hl.
  - by rewrite unit1_ws1 in Hl.
  - rewrite unit2_ws2 in Hl by done. by rewrite orb_true_r in Hl.
  - rewrite unit3_ws3 in Hl by done. destruct r; by rewrite !orb_true_r in Hl.
Qed.

Lemma lead_ws_rev_not_white m :
  lead_ws ws2_rev ws3_rev (string_rev m) = false -> ~ ends_white m.
Proof.
  intros Hl (w & r & Hw & ->). rewrite string_rev_app in Hl.
  destruct (unit_shapes w Hw) as [(c & ->) | [(c1 & c2 & ->) | (c1 & c2 & c3 & ->)]];
    simpl in Hl; rewrite ?append_cons in Hl; simpl in Hl.
  - by rewrite unit1_ws1 in Hl.
  - unfold ws2_rev in Hl. rewrite unit2_ws2 in Hl by done. by rewrite orb_true_r in Hl.
  - unfold ws3_rev in Hl. rewrite unit3_ws3 in Hl by done.
    destruct (string_rev r); by rewrite !orb_true_r in Hl.
Qed.

