(* ===== verification/Json.v ===== *)
(** * Json: a concrete [JSON.parse] and the text the provider sends

    [conductFinalReview] hands the trimmed response text to [JSON.parse]
    (geminiService.ts, line 60), a platform function that [Gemini] keeps
    abstract as the class [JsonParse].  This file gives it a concrete
    instance, [json_parse], that follows the JSON grammar of ECMA-404 on
    UTF-8 bytes, and a printer [print_json] in the manner of
    [JSON.stringify] for the provider's side, with the round trip that
    relates them.

    The parser is fuel-driven (each call consumes at least one byte, so
    the length of the input plus one is enough fuel, and [json_parse]
    gives exactly that).  Its bounds, which follow from the [json] type
    of [Gemini]: numbers are integers (a fraction or an exponent is
    refused), and a [\u] escape of a lone surrogate, which UTF-8 cannot
    hold, is refused. *)

From S2P Require Import Prelude Gemini.
From Stdlib Require Import ZArith DecimalN.

(** ** Characters *)

Definition bs_char : Ascii.ascii := "092"%char.

Definition is_digit (c : Ascii.ascii) : bool := bool_decide (48 <= code c <= 57)%N.

(** White space between JSON tokens: TAB, LF, CR, SPACE. *)
Definition json_ws (c : Ascii.ascii) : bool := bool_decide (code c ∈ [9; 10; 13; 32]%N).

Fixpoint skip_ws (s : string) : string :=
  match s with
  | String c s' => if json_ws c then skip_ws s' else s
  | EmptyString => EmptyString
  end.

(** Lower-case hexadecimal digits, as [JSON.stringify] writes them. *)
Definition hex_digit (n : N) : Ascii.ascii :=
  Ascii.ascii_of_N (if (n <? 10)%N then 48 + n else 87 + n)%N.

Definition hex_value (c : Ascii.ascii) : option N :=
  let n := code c in
  if bool_decide (48 <= n <= 57)%N then Some (n - 48)%N
  else if bool_decide (97 <= n <= 102)%N then Some (n - 87)%N
  else if bool_decide (65 <= n <= 70)%N then Some (n - 55)%N
  else None.

(** ** The printer *)

(** [JSON.stringify]'s escapes: the quote, the backslash, the short forms
    of five control characters and [\u00XX] for the others; every other
    byte is written as it is. *)
Definition escape_char (c : Ascii.ascii) : string :=
  let n := code c in
  if bool_decide (n = 34%N) then String bs_char dq
  else if bool_decide (n = 92%N) then String bs_char (String bs_char EmptyString)
  else if bool_decide (n = 8%N) then String bs_char "b"
  else if bool_decide (n = 9%N) then String bs_char "t"
  else if bool_decide (n = 10%N) then String bs_char "n"
  else if bool_decide (n = 12%N) then String bs_char "f"
  else if bool_decide (n = 13%N) then String bs_char "r"
  else if bool_decide (n < 32)%N then
    String bs_char ("u00" +:+ String (hex_digit (n / 16)) (String (hex_digit (n mod 16)) EmptyString))
  else String c EmptyString.

Fixpoint escape (s : string) : string :=
  match s with
  | EmptyString => EmptyString
  | String c s' => escape_char c +:+ escape s'
  end.

Definition quote_string (s : string) : string := dq +:+ escape s +:+ dq.

Definition show_N (n : N) : string := NilEmpty.string_of_uint (N.to_uint n).

Definition print_number (z : Z) : string :=
  if (z <? 0)%Z then "-" +:+ show_N (Z.to_N (- z)) else show_N (Z.to_N z).

(** The elements of an array after its ['['], and the members of an
    object after its ['{'], with the separators and the closing bracket. *)
Fixpoint print_items (pr : json -> string) (vs : list json) (first : bool) : string :=
  match vs with
  | [] => "]"
  | w :: ws => (if first then "" else ",") +:+ pr w +:+ print_items pr ws false
  end.

Fixpoint print_members (pr : json -> string) (fs : list (string * json)) (first : bool) : string :=
  match fs with
  | [] => "}"
  | (k, w) :: ws =>
      (if first then "" else ",") +:+ quote_string k +:+ ":" +:+ pr w +:+ print_members pr ws false
  end.

Fixpoint print_json (v : json) : string :=
  match v with
  | JNull => "null"
  | JBool true => "true"
  | JBool false => "false"
  | JNumber z => print_number z
  | JString s => quote_string s
  | JArray vs => "[" +:+ print_items print_json vs true
  | JObject fs => "{" +:+ print_members print_json fs true
  end.

(** ** The parser *)

(** A code point as UTF-8 bytes. *)
Definition utf8 (cp : N) : string :=
  let b (n : N) := Ascii.ascii_of_N n in
  if (cp <? 128)%N then String (b cp) EmptyString
  else if (cp <? 2048)%N then
    String (b (192 + cp / 64)%N) (String (b (128 + cp mod 64)%N) EmptyString)
  else if (cp <? 65536)%N then
    String (b (224 + cp / 4096)%N) (String (b (128 + (cp / 64) mod 64)%N)
      (String (b (128 + cp mod 64)%N) EmptyString))
  else
    String (b (240 + cp / 262144)%N) (String (b (128 + (cp / 4096) mod 64)%N)
      (String (b (128 + (cp / 64) mod 64)%N) (String (b (128 + cp mod 64)%N) EmptyString))).

Definition read_hex4 (s : string) : option (N * string) :=
  match s with
  | String a (String b (String c (String d r))) =>
      match hex_value a, hex_value b, hex_value c, hex_value d with
      | Some x, Some y, Some z, Some w => Some (((x * 16 + y) * 16 + z) * 16 + w, r)%N
      | _, _, _, _ => None
      end
  | _ => None
  end.

(** The character of a one-letter escape. *)
Definition unescape (e : Ascii.ascii) : option Ascii.ascii :=
  let n := code e in
  if bool_decide (n = 34%N) then Some e
  else if bool_decide (n = 92%N) then Some e
  else if bool_decide (n = 47%N) then Some e
  else if bool_decide (n = 98%N) then Some (Ascii.ascii_of_N 8)
  else if bool_decide (n = 102%N) then Some (Ascii.ascii_of_N 12)
  else if bool_decide (n = 110%N) then Some (Ascii.ascii_of_N 10)
  else if bool_decide (n = 114%N) then Some (Ascii.ascii_of_N 13)
  else if bool_decide (n = 116%N) then Some (Ascii.ascii_of_N 9)
  else None.

Definition prepend (t : string) (o : option (string * string)) : option (string * string) :=
  match o with
  | Some (u, r) => Some (t +:+ u, r)
  | None => None
  end.

(** A [\uXXXX] escape, the [\u] read: a surrogate pair is one code
    point; a lone surrogate is refused. *)
Definition unicode_escape (s : string) : option (string * string) :=
  match read_hex4 s with
  | None => None
  | Some (hi, r) =>
      if bool_decide (55296 <= hi <= 56319)%N then
        match r with
        | String a (String u r') =>
            if bool_decide (a = bs_char /\ code u = 117%N) then
              match read_hex4 r' with
              | Some (lo, r'') =>
                  if bool_decide (56320 <= lo <= 57343)%N
                  then Some (utf8 (65536 + (hi - 55296) * 1024 + (lo - 56320))%N, r'')
                  else None
              | None => None
              end
            else None
        | _ => None
        end
      else if bool_decide (56320 <= hi <= 57343)%N then None
      else Some (utf8 hi, r)
  end.

(** The characters of a string literal after its opening quote, up to and
    without its closing quote; raw control characters are refused. *)
Fixpoint parse_chars (fuel : nat) (s : string) : option (string * string) :=
  match fuel with
  | O => None
  | S f =>
      match s with
      | EmptyString => None
      | String c s' =>
          if bool_decide (c = dq_char) then Some (EmptyString, s')
          else if bool_decide (c = bs_char) then
            match s' with
            | EmptyString => None
            | String e s'' =>
                match unescape e with
                | Some c' => prepend (String c' EmptyString) (parse_chars f s'')
                | None =>
                    if bool_decide (code e = 117%N) then
                      match unicode_escape s'' with
                      | Some (t, r) => prepend t (parse_chars f r)
                      | None => None
                      end
                    else None
                end
            end
          else if bool_decide (code c < 32)%N then None
          else prepend (String c EmptyString) (parse_chars f s')
      end
  end.

(** The longest prefix of digits. *)
Fixpoint span_digits (s : string) : string * string :=
  match s with
  | String c s' =>
      if is_digit c then let '(ds, r) := span_digits s' in (String c ds, r) else (EmptyString, s)
  | EmptyString => (EmptyString, EmptyString)
  end.

Definition leading_zero (ds : string) : bool :=
  match ds with
  | String c (String _ _) => bool_decide (c = "0"%char)
  | _ => false
  end.

Definition frac_or_exp (r : string) : bool :=
  match r with
  | String c _ => bool_decide (c ∈ ["."; "e"; "E"]%char)
  | EmptyString => false
  end.

Definition number_value (neg : bool) (ds : string) : option Z :=
  option_map (fun d => let n := Z.of_N (N.of_uint d) in if neg then (- n)%Z else n)
             (NilEmpty.uint_of_string ds).

Definition split_sign (s : string) : bool * string :=
  match s with
  | String c r => if bool_decide (c = "-"%char) then (true, r) else (false, s)
  | EmptyString => (false, s)
  end.

(** An optional minus sign, then [0] or digits not starting with [0],
    not followed by a fraction or an exponent. *)
Definition parse_number (s : string) : option (Z * string) :=
  let '(neg, s1) := split_sign s in
  let '(ds, r) := span_digits s1 in
  if bool_decide (ds = EmptyString) || leading_zero ds || frac_or_exp r then None
  else option_map (fun z => (z, r)) (number_value neg ds).

(** [s] with the prefix [w] removed, when [w] is a prefix of [s]. *)
Fixpoint drop_prefix (w s : string) : option string :=
  match w, s with
  | EmptyString, _ => Some s
  | String a w', String b s' => if bool_decide (a = b) then drop_prefix w' s' else None
  | String _ _, EmptyString => None
  end.

(** A keyword: the bytes of [w] must follow. *)
Definition parse_keyword (w : string) (v : json) (s : string) : option (json * string) :=
  match drop_prefix w s with
  | Some r => Some (v, r)
  | None => None
  end.

(** A value, after any white space; the elements of an array after its
    ['['] and the members of an object after its ['{'], with the
    separators and the closing bracket. *)
Fixpoint parse_value (fuel : nat) (s : string) : option (json * string) :=
  match fuel with
  | O => None
  | S f =>
      match skip_ws s with
      | EmptyString => None
      | String c r as s1 =>
          if bool_decide (c = "n"%char) then parse_keyword "null" JNull s1
          else if bool_decide (c = "t"%char) then parse_keyword "true" (JBool true) s1
          else if bool_decide (c = "f"%char) then parse_keyword "false" (JBool false) s1
          else if bool_decide (c = dq_char) then
            match parse_chars (S (String.length r)) r with
            | Some (t, r') => Some (JString t, r')
            | None => None
            end
          else if bool_decide (c = "["%char) then
            match parse_elements f true r with
            | Some (vs, r') => Some (JArray vs, r')
            | None => None
            end
          else if bool_decide (c = "{"%char) then
            match parse_members f true r with
            | Some (fs, r') => Some (JObject fs, r')
            | None => None
            end
          else match parse_number s1 with
               | Some (z, r') => Some (JNumber z, r')
               | None => None
               end
      end
  end
with parse_elements (fuel : nat) (first : bool) (s : string) : option (list json * string) :=
  match fuel with
  | O => None
  | S f =>
      match skip_ws s with
      | String c r =>
          if bool_decide (c = "]"%char) then Some ([], r)
          else
            let s' := if first then Some (String c r)
                      else if bool_decide (c = ","%char) then Some r else None in
            match s' with
            | Some s' =>
                match parse_value f s' with
                | Some (v, r1) =>
                    match parse_elements f false r1 with
                    | Some (vs, r2) => Some (v :: vs, r2)
                    | None => None
                    end
                | None => None
                end
            | None => None
            end
      | EmptyString => None
      end
  end
with parse_members (fuel : nat) (first : bool) (s : string) : option (list (string * json) * string) :=
  match fuel with
  | O => None
  | S f =>
      match skip_ws s with
      | String c r =>
          if bool_decide (c = "}"%char) then Some ([], r)
          else
            let s' := if first then Some (String c r)
                      else if bool_decide (c = ","%char) then Some r else None in
            match s' with
            | Some s' =>
                match skip_ws s' with
                | String q r0 =>
                    if bool_decide (q = dq_char) then
                      match parse_chars (S (String.length r0)) r0 with
                      | Some (k, r1) =>
                          match skip_ws r1 with
                          | String colon r2 =>
                              if bool_decide (colon = ":"%char) then
                                match parse_value f r2 with
                                | Some (v, r3) =>
                                    match parse_members f false r3 with
                                    | Some (fs, r4) => Some ((k, v) :: fs, r4)
                                    | None => None
                                    end
                                | None => None
                                end
                              else None
                          | EmptyString => None
                          end
                      | None => None
                      end
                    else None
                | EmptyString => None
                end
            | None => None
            end
      | EmptyString => None
      end
  end.

(** [JSON.parse(text)]: one value, white space around it, nothing else. *)
Definition json_parse (s : string) : option json :=
  match parse_value (S (String.length s)) s with
  | Some (v, r) => if bool_decide (skip_ws r = EmptyString) then Some v else None
  | None => None
  end.

#[export] Instance json_parse_instance : JsonParse := {| JSON_parse := json_parse |}.

(** ** The fuel a printed value needs

    A value takes one unit of fuel, and an array or object one more per
    element on top of the most any element needs (the element loop and
    the element's own parse share the fuel of the loop's step). *)
Fixpoint items_need (sz : json -> nat) (vs : list json) : nat :=
  match vs with
  | [] => 1
  | w :: ws => S (Nat.max (sz w) (items_need sz ws))
  end.

Fixpoint members_need (sz : json -> nat) (fs : list (string * json)) : nat :=
  match fs with
  | [] => 1
  | (_, w) :: ws => S (Nat.max (sz w) (members_need sz ws))
  end.

Fixpoint json_size (v : json) : nat :=
  match v with
  | JArray vs => S (items_need json_size vs)
  | JObject fs => S (members_need json_size fs)
  | _ => 1
  end.

(** Only JSON white space. *)
Fixpoint all_ws (s : string) : bool :=
  match s with
  | EmptyString => true
  | String c s' => json_ws c && all_ws s'
  end.

(** What may follow a printed value for the parser to stop where the
    value ends: no digit, no fraction, no exponent. *)
Definition digit_free_head (r : string) : Prop :=
  match r with String c _ => is_digit c = false | EmptyString => True end.

Definition delim (r : string) : Prop := digit_free_head r /\ frac_or_exp r = false.

(** The round-trip property of one value, and the fuel bound of its
    text, stated once for the nested induction. *)
Definition parses_back (v : json) : Prop :=
  forall f rest, json_size v <= f -> delim rest -> parse_value f (print_json v +:+ rest) = Some (v, rest).

Definition size_bounded (v : json) : Prop := json_size v <= S (String.length (print_json v)).

(** ** The round trip *)

(** The digits of a decimal are digit characters. *)
Lemma string_of_uint_digits d c r :
  NilEmpty.string_of_uint d = String c r -> is_digit c = true.
Proof. destruct d; simpl; intros [=<-]; reflexivity. Qed.


Lemma span_string_of_uint d r :
  digit_free_head r ->
  span_digits (NilEmpty.string_of_uint d +:+ r) = (NilEmpty.string_of_uint d, r).
Proof.
  intros Hr. induction d; cbn [NilEmpty.string_of_uint]; rewrite ?append_cons, ?append_nil_l;
    try (cbn [span_digits]; rewrite IHd; reflexivity).
  destruct r as [|c r]; [done|]. cbn [span_digits]. simpl in Hr. by rewrite Hr.
Qed.

Lemma nzhead_not_D0 u v : Decimal.nzhead u <> Decimal.D0 v.
Proof. induction u; simpl; congruence. Qed.

(** [N.to_uint] is normalised: ["0"], or digits that do not start with
    ['0']. *)
Lemma show_N_shape n :
  show_N n <> EmptyString /\ leading_zero (show_N n) = false.
Proof.
  unfold show_N. pose proof (DecimalN.Unsigned.to_of (N.to_uint n)) as Hd.
  rewrite DecimalN.Unsigned.of_to in Hd. revert Hd.
  generalize (N.to_uint n) as d. intros d Hd. unfold Decimal.unorm in Hd.
  destruct (Decimal.nzhead d) eqn:E; subst d;
    [done|by destruct (nzhead_not_D0 _ _ E)| ..];
    cbn [NilEmpty.string_of_uint]; split; try done;
    match goal with |- context [NilEmpty.string_of_uint ?u] => by destruct (NilEmpty.string_of_uint u) end.
Qed.

Lemma split_sign_show m r : split_sign (show_N m +:+ r) = (false, show_N m +:+ r).
Proof.
  destruct (show_N m) as [|c x] eqn:E; [by destruct (show_N_shape m)|].
  rewrite append_cons. cbn [split_sign]. rewrite bool_decide_false; [done|].
  intros ->. unfold show_N in E. apply string_of_uint_digits in E. discriminate.
Qed.

Lemma number_value_show neg m :
  number_value neg (show_N m) = Some (if neg then (- Z.of_N m)%Z else Z.of_N m).
Proof. unfold number_value, show_N. rewrite NilEmpty.usu. simpl. by rewrite DecimalN.Unsigned.of_to. Qed.

Lemma parse_signed s neg m r :
  delim r -> split_sign s = (neg, show_N m +:+ r) ->
  parse_number s = Some (if neg then (- Z.of_N m)%Z else Z.of_N m, r).
Proof.
  intros [Hd Hf] Hs. unfold parse_number. rewrite Hs. unfold show_N at 1.
  rewrite span_string_of_uint by done. fold (show_N m). destruct (show_N_shape m) as [Hne Hz].
  rewrite bool_decide_false by done. by rewrite Hz, Hf, number_value_show.
Qed.

Lemma parse_print_number z r : delim r -> parse_number (print_number z +:+ r) = Some (z, r).
Proof.
  intros Hr. unfold print_number. destruct (Z.ltb_spec z 0).
  - rewrite (parse_signed _ true (Z.to_N (- z)) r Hr); [f_equal; f_equal; lia|].
    rewrite append_assoc, append_cons, append_nil_l. cbn [split_sign]. by rewrite bool_decide_true.
  - rewrite (parse_signed _ false (Z.to_N z) r Hr); [f_equal; f_equal; lia|]. apply split_sign_show.
Qed.

Lemma parse_escape_char c f t :
  parse_chars (S f) (escape_char c +:+ t) = prepend (String c EmptyString) (parse_chars f t).
Proof. destruct c as [[] [] [] [] [] [] [] []]; reflexivity. Qed.

Lemma escape_length s : String.length s <= String.length (escape s).
Proof.
  induction s as [|c s IH]; [done|]. cbn [escape]. rewrite length_append. simpl.
  assert (1 <= String.length (escape_char c)) by (destruct c as [[] [] [] [] [] [] [] []]; simpl; lia).
  lia.
Qed.

Lemma parse_chars_escape s f rest :
  String.length s < f -> parse_chars f (escape s +:+ dq +:+ rest) = Some (s, rest).
Proof.
  revert f; induction s as [|c s IH]; intros [|f] Hf; simpl in Hf; try lia; [reflexivity|].
  cbn [escape]. rewrite append_assoc, parse_escape_char, IH by lia. reflexivity.
Qed.

(** A quoted string, read after its opening quote with the fuel the
    value parser gives. *)
Lemma parse_quoted s rest :
  parse_chars (S (String.length (escape s +:+ dq +:+ rest))) (escape s +:+ dq +:+ rest) = Some (s, rest).
Proof. apply parse_chars_escape. rewrite length_append. pose proof (escape_length s). lia. Qed.

Lemma drop_prefix_app w r : drop_prefix w (w +:+ r) = Some r.
Proof. induction w as [|a w IH]; [done|]. rewrite append_cons. simpl. by rewrite bool_decide_true. Qed.

Lemma json_ind' (P : json -> Prop) :
  P JNull -> (forall b, P (JBool b)) -> (forall z, P (JNumber z)) -> (forall s, P (JString s)) ->
  (forall vs, Forall P vs -> P (JArray vs)) ->
  (forall fs, Forall (fun kv => P kv.2) fs -> P (JObject fs)) ->
  forall v, P v.
Proof.
  intros Hn Hb Hz Hs Ha Ho. fix IH 1. intros [| | | |vs|fs]; [exact Hn|apply Hb|apply Hz|apply Hs| |].
  - apply Ha. exact ((fix go (vs : list json) : Forall P vs := match vs with
                                    | [] => List.Forall_nil _
                                    | w :: ws => List.Forall_cons _ _ _ (IH w) (go ws)
                                    end) vs).
  - apply Ho. exact ((fix go (fs : list (string * json)) : Forall (fun kv => P kv.2) fs := match fs with
                                   | [] => List.Forall_nil _
                                   | kv :: ws => List.Forall_cons _ _ _ (IH kv.2) (go ws)
                                   end) fs).
Qed.

(** Digits and white space are neither brackets nor separators. *)
Lemma digit_char c :
  is_digit c = true ->
  json_ws c = false /\ c <> "n"%char /\ c <> "t"%char /\ c <> "f"%char /\ c <> dq_char /\
  c <> "["%char /\ c <> "{"%char /\ c <> "]"%char /\ c <> "}"%char /\ c <> ","%char.
Proof. destruct c as [[] [] [] [] [] [] [] []]; intros H; try discriminate H; split_and!; done. Qed.

Lemma ws_char c r : json_ws c = true -> digit_free_head (String c r) /\ frac_or_exp (String c r) = false.
Proof. destruct c as [[] [] [] [] [] [] [] []]; intros H; try discriminate H; done. Qed.

Lemma print_number_head z :
  exists c x, print_number z = String c x /\ (c = "-"%char \/ is_digit c = true).
Proof.
  unfold print_number. destruct (z <? 0)%Z.
  - eexists _, _. rewrite append_cons, append_nil_l. split; [reflexivity|by left].
  - destruct (show_N (Z.to_N z)) as [|c x] eqn:E; [by destruct (show_N_shape (Z.to_N z))|].
    exists c, x. split; [done|right]. unfold show_N in E. by eapply string_of_uint_digits.
Qed.

Lemma print_json_head v :
  exists c x, print_json v = String c x /\ json_ws c = false /\
    c <> "]"%char /\ c <> "}"%char /\ c <> ","%char.
Proof.
  destruct v as [|[]|z| | |]; cbn [print_json]; try by (eexists _, _; split_and!; [reflexivity|..]).
  destruct (print_number_head z) as (c & x & -> & [-> | Hd]); eexists _, _; split_and!; try done.
  all: by destruct (digit_char c Hd) as (? & _ & _ & _ & _ & _ & _ & ? & ? & ?).
Qed.


(** One step of each parser on a known first byte. *)
Lemma parse_value_quote f r :
  parse_value (S f) (String dq_char r) =
  match parse_chars (S (String.length r)) r with Some (t, r') => Some (JString t, r') | None => None end.
Proof. reflexivity. Qed.

Lemma parse_value_array f r :
  parse_value (S f) (String "[" r) =
  match parse_elements f true r with Some (vs, r') => Some (JArray vs, r') | None => None end.
Proof. reflexivity. Qed.

Lemma parse_value_object f r :
  parse_value (S f) (String "{" r) =
  match parse_members f true r with Some (fs, r') => Some (JObject fs, r') | None => None end.
Proof. reflexivity. Qed.

Lemma parse_value_number f c r :
  json_ws c = false -> c <> "n"%char -> c <> "t"%char -> c <> "f"%char -> c <> dq_char ->
  c <> "["%char -> c <> "{"%char ->
  parse_value (S f) (String c r) =
  match parse_number (String c r) with Some (z, r') => Some (JNumber z, r') | None => None end.
Proof. intros Hw ??????. simpl. rewrite Hw. by rewrite !bool_decide_false. Qed.

Lemma parse_elements_first f c r :
  json_ws c = false -> c <> "]"%char ->
  parse_elements (S f) true (String c r) =
  match parse_value f (String c r) with
  | Some (v, r1) => match parse_elements f false r1 with Some (vs, r2) => Some (v :: vs, r2) | None => None end
  | None => None
  end.
Proof. intros Hw ?. simpl. rewrite Hw. by rewrite bool_decide_false. Qed.

Lemma parse_elements_comma f r :
  parse_elements (S f) false (String "," r) =
  match parse_value f r with
  | Some (v, r1) => match parse_elements f false r1 with Some (vs, r2) => Some (v :: vs, r2) | None => None end
  | None => None
  end.
Proof. reflexivity. Qed.

Lemma parse_members_quote f first r :
  parse_members (S f) first ((if first then "" else ",") +:+ String dq_char r) =
  match parse_chars (S (String.length r)) r with
  | Some (k, r1) =>
      match skip_ws r1 with
      | String colon r2 =>
          if bool_decide (colon = ":"%char) then
            match parse_value f r2 with
            | Some (v, r3) =>
                match parse_members f false r3 with Some (fs, r4) => Some ((k, v) :: fs, r4) | None => None end
            | None => None
            end
          else None
      | EmptyString => None
      end
  | None => None
  end.
Proof. by destruct first. Qed.

Lemma delim_items pr ws rest : delim (print_items pr ws false +:+ rest).
Proof. destruct ws; cbn [print_items]; rewrite ?append_assoc, append_cons; done. Qed.

Lemma delim_members pr fs rest : delim (print_members pr fs false +:+ rest).
Proof. destruct fs as [|[]]; cbn [print_members]; rewrite ?append_assoc, append_cons; done. Qed.


Lemma parse_print_items vs :
  Forall parses_back vs -> forall first f rest, items_need json_size vs <= f -> delim rest ->
  parse_elements f first (print_items print_json vs first +:+ rest) = Some (vs, rest).
Proof.
  induction 1 as [|w ws Hw Hws IH]; intros first [|f] rest Hf Hr; cbn [items_need] in Hf; try lia.
  - cbn [print_items]. rewrite append_cons, append_nil_l. by destruct first.
  - cbn [print_items]. rewrite !append_assoc.
    assert (HY : parse_elements f false (print_items print_json ws false +:+ rest) = Some (ws, rest))
      by (apply IH; [lia|done]).
    assert (Hv := Hw f _ ltac:(lia) (delim_items print_json ws rest)).
    destruct first.
    + rewrite append_nil_l. destruct (print_json_head w) as (c & x & Hp & Hc & Hc1 & _).
      rewrite Hp, append_cons, parse_elements_first by done.
      rewrite <-append_cons, <-Hp, Hv, HY. done.
    + rewrite append_cons, append_nil_l, parse_elements_comma, Hv, HY. done.
Qed.

Lemma parse_print_members fs :
  Forall (fun kv => parses_back kv.2) fs -> forall first f rest, members_need json_size fs <= f ->
  delim rest ->
  parse_members f first (print_members print_json fs first +:+ rest) = Some (fs, rest).
Proof.
  induction 1 as [|[k w] ws Hw Hws IH]; intros first [|f] rest Hf Hr; cbn [members_need] in Hf; try lia.
  - cbn [print_members]. rewrite append_cons, append_nil_l. by destruct first.
  - cbn [print_members]. rewrite !append_assoc.
    assert (HY : parse_members f false (print_members print_json ws false +:+ rest) = Some (ws, rest))
      by (apply IH; [lia|done]).
    cbn [snd] in Hw. assert (Hv := Hw f _ ltac:(lia) (delim_members print_json ws rest)).
    unfold quote_string. rewrite !append_assoc. unfold dq at 1. rewrite append_cons, append_nil_l.
    rewrite parse_members_quote, parse_quoted, append_cons, append_nil_l. simpl.
    rewrite Hv, HY. done.
Qed.

Lemma parse_print_value v : parses_back v.
Proof.
  induction v using json_ind'; intros [|f] rest Hf [Hd He]; cbn [json_size] in Hf; try lia.
  - reflexivity.
  - destruct b; reflexivity.
  - cbn [print_json]. destruct (print_number_head z) as (c & x & Hp & Hc).
    rewrite Hp, append_cons, parse_value_number;
      [by rewrite <-append_cons, <-Hp, parse_print_number|..];
      destruct Hc as [-> | Hc]; try done; by destruct (digit_char c Hc) as (? & ? & ? & ? & ? & ? & ? & _).
  - cbn [print_json]. unfold quote_string. rewrite !append_assoc. unfold dq at 1.
    rewrite append_cons, append_nil_l, parse_value_quote, parse_quoted. done.
  - cbn [print_json]. rewrite append_assoc, append_cons, append_nil_l, parse_value_array.
    rewrite parse_print_items by (done || lia). done.
  - cbn [print_json]. rewrite append_assoc, append_cons, append_nil_l, parse_value_object.
    rewrite parse_print_members by (done || lia). done.
Qed.


Lemma items_need_pos sz vs : 1 <= items_need sz vs.
Proof. destruct vs; simpl; lia. Qed.

Lemma members_need_pos sz fs : 1 <= members_need sz fs.
Proof. destruct fs as [|[]]; simpl; lia. Qed.

Lemma items_need_bound vs :
  Forall size_bounded vs ->
  items_need json_size vs <= String.length (print_items print_json vs false) /\
  items_need json_size vs <= S (String.length (print_items print_json vs true)).
Proof.
  induction 1 as [|w ws Hw Hws IH]; [simpl; lia|]. unfold size_bounded in Hw.
  pose proof (items_need_pos json_size ws).
  cbn [items_need print_items]. rewrite !length_append. simpl. lia.
Qed.

Lemma members_need_bound fs :
  Forall (fun kv => size_bounded kv.2) fs ->
  members_need json_size fs <= String.length (print_members print_json fs false) /\
  members_need json_size fs <= S (String.length (print_members print_json fs true)).
Proof.
  induction 1 as [|[k w] ws Hw Hws IH]; [simpl; lia|]. unfold size_bounded in Hw. cbn [snd] in Hw.
  pose proof (members_need_pos json_size ws).
  cbn [members_need print_members]. rewrite !length_append. simpl. lia.
Qed.

Lemma json_size_bound v : size_bounded v.
Proof.
  induction v using json_ind'; unfold size_bounded; cbn [json_size print_json]; try (simpl; lia).
  - rewrite length_append. simpl. destruct (items_need_bound vs H). lia.
  - rewrite length_append. simpl. destruct (members_need_bound fs H). lia.
Qed.

Lemma all_ws_skip w s : all_ws w = true -> skip_ws (w +:+ s) = skip_ws s.
Proof.
  induction w as [|c w IH]; [done|]. cbn [all_ws]. intros [Hc Hw]%andb_prop.
  rewrite append_cons. simpl. rewrite Hc. by apply IH.
Qed.

Lemma parse_value_ws f w s : all_ws w = true -> parse_value f (w +:+ s) = parse_value f s.
Proof. intros Hw. destruct f; [done|]. simpl. by rewrite all_ws_skip. Qed.

Lemma all_ws_delim w : all_ws w = true -> delim w.
Proof. destruct w as [|c w]; [done|]. cbn [all_ws]. intros [Hc _]%andb_prop. by apply ws_char. Qed.

(** [JSON.parse] of printed text. *)
Lemma json_parse_print v w1 w2 :
  all_ws w1 = true -> all_ws w2 = true -> json_parse (w1 +:+ print_json v +:+ w2) = Some v.
Proof.
  intros H1 H2. unfold json_parse. rewrite parse_value_ws by done.
  rewrite parse_print_value.
  - rewrite bool_decide_true; [done|]. rewrite <-(append_nil_r w2). by rewrite all_ws_skip.
  - pose proof (json_size_bound v). unfold size_bounded in *. rewrite !length_append. lia.
  - by apply all_ws_delim.
Qed.

(** ** Text around a printed object *)

Lemma json_ws_ws1 c : json_ws c = true -> ws1 c = true.
Proof. by destruct c as [[] [] [] [] [] [] [] []]. Qed.

Lemma trim_left_all_ws w2 w3 w s :
  all_ws w = true -> trim_left_with w2 w3 (w +:+ s) = trim_left_with w2 w3 s.
Proof.
  induction w as [|c w IH]; [done|]. cbn [all_ws]. intros [Hc Hw]%andb_prop.
  rewrite append_cons. simpl. rewrite (json_ws_ws1 c Hc). by apply IH.
Qed.

Lemma all_ws_app a b : all_ws (a +:+ b) = all_ws a && all_ws b.
Proof. induction a as [|c a IH]; [done|]. rewrite append_cons. simpl. by rewrite IH, andb_assoc. Qed.

Lemma all_ws_rev w : all_ws (string_rev w) = all_ws w.
Proof.
  induction w as [|c w IH]; [done|]. simpl. rewrite all_ws_app, IH. simpl.
  by destruct (json_ws c), (all_ws w).
Qed.

Lemma lead_ws_brace x : lead_ws ws2 ws3 (String "{" x) = false.
Proof. by destruct x as [|c2 [|c3 x]]. Qed.

Lemma lead_ws_rev_brace x : lead_ws ws2_rev ws3_rev (String "}" x) = false.
Proof.
  destruct x as [|c2 [|c3 x]]; cbn [lead_ws]; [done| |];
    unfold ws2_rev, ws3_rev, ws2, ws3; cbn -[code]; change (code "}") with 125%N;
    rewrite ?bool_decide_false by lia; done.
Qed.

Lemma print_members_end pr fs first : exists m, print_members pr fs first = m +:+ "}".
Proof.
  revert first; induction fs as [|[k w] fs IH]; intros first; [by exists ""|].
  destruct (IH false) as [m Hm]. cbn [print_members]. rewrite Hm.
  exists ((if first then "" else ",") +:+ quote_string k +:+ ":" +:+ pr w +:+ m).
  by rewrite !append_assoc.
Qed.

(** The text of an object, with JSON white space around it, trims to the
    object's text. *)
Lemma js_trim_object fs w1 w2 :
  all_ws w1 = true -> all_ws w2 = true ->
  js_trim (w1 +:+ print_json (JObject fs) +:+ w2) = print_json (JObject fs).
Proof.
  intros H1 H2. destruct (print_members_end print_json fs true) as [m Hm].
  assert (HP : print_json (JObject fs) = String "{" (m +:+ "}")).
  { cbn [print_json]. by rewrite Hm, append_cons, append_nil_l. }
  unfold js_trim, trim_start. rewrite trim_left_all_ws by done.
  rewrite HP, append_cons, trim_left_stop by apply lead_ws_brace.
  rewrite <-append_cons. unfold trim_end. rewrite string_rev_app, trim_left_all_ws by (by rewrite all_ws_rev).
  assert (HR : string_rev (String "{" (m +:+ "}")) = String "}" (string_rev m +:+ "{")).
  { simpl. by rewrite string_rev_app. }
  rewrite HR, trim_left_stop by apply lead_ws_rev_brace. rewrite <-HR. apply string_rev_involutive.
Qed.

(** ** Texts [JSON.parse] refuses *)

(** Every byte of a multi-byte white-space sequence is non-ASCII. *)
Lemma ws2_high a b : ws2 a b = true -> (128 <= code a)%N /\ (128 <= code b)%N.
Proof. unfold ws2. intros H%bool_decide_eq_true. lia. Qed.

Lemma ws3_high a b c :
  ws3 a b c = true -> (128 <= code a)%N /\ (128 <= code b)%N /\ (128 <= code c)%N.
Proof. unfold ws3. intros H%bool_decide_eq_true. lia. Qed.

(** A scan that erases all of [q] met no ASCII byte outside the one-byte
    white space. *)
Lemma trim_left_empty_ascii w2 w3 c q :
  (forall a b, w2 a b = true -> (128 <= code a)%N /\ (128 <= code b)%N) ->
  (forall a b d, w3 a b d = true -> (128 <= code a)%N /\ (128 <= code b)%N /\ (128 <= code d)%N) ->
  ws1 c = false -> (code c < 128)%N ->
  trim_left_with w2 w3 q = "" -> char_in c q = false.
Proof.
  intros H2 H3 Hc Hlt. induction q as [q IH] using string_len_ind. intros Hq.
  destruct q as [|c1 q1]; [done|]. cbn [trim_left_with] in Hq. cbn [char_in].
  assert (Hne : forall x, (128 <= code x)%N -> bool_decide (c = x) = false)
    by (intros x Hx; apply bool_decide_eq_false; intros ->; lia).
  destruct (ws1 c1) eqn:E1.
  { rewrite bool_decide_false by congruence. apply IH; [simpl; lia|done]. }
  destruct q1 as [|c2 q2]; [done|].
  destruct (w2 c1 c2) eqn:E2.
  { destruct (H2 _ _ E2). cbn [char_in]. rewrite !Hne by done. apply IH; [simpl; lia|done]. }
  destruct q2 as [|c3 q3]; [done|].
  destruct (w3 c1 c2 c3) eqn:E3; [|done].
  destruct (H3 _ _ _ E3) as (? & ? & ?). cbn [char_in]. rewrite !Hne by done.
  apply IH; [simpl; lia|done].
Qed.

Lemma char_in_rev c s : char_in c (string_rev s) = char_in c s.
Proof.
  induction s as [|d s IH]; [done|]. cbn [string_rev char_in]. rewrite char_in_append, IH.
  simpl. by rewrite orb_false_r, orb_comm.
Qed.

(** [trimStart] keeps a string starting with an ASCII byte that is not
    white space. *)
Lemma trim_start_ascii c r :
  ws1 c = false -> (code c < 128)%N -> trim_start (String c r) = String c r.
Proof.
  intros H1 Hlt. apply trim_left_stop. cbn [lead_ws]. rewrite H1.
  destruct r as [|c2 [|c3 r]]; [done| |]; simpl.
  - destruct (ws2 c c2) eqn:E; [destruct (ws2_high _ _ E); lia|done].
  - destruct (ws2 c c2) eqn:E; [destruct (ws2_high _ _ E); lia|].
    destruct (ws3 c c2 c3) eqn:E'; [destruct (ws3_high _ _ _ E'); lia|done].
Qed.

(** [trimEnd] keeps the first byte of such a string. *)
Lemma trim_end_ascii c r :
  ws1 c = false -> (code c < 128)%N -> exists z, trim_end (String c r) = String c z.
Proof.
  intros H1 Hlt. destruct (trim_end_split (String c r)) as (q & Hq & Hqe & _).
  apply (f_equal string_rev) in Hq.
  rewrite string_rev_involutive, string_rev_app, string_rev_involutive in Hq.
  destruct (trim_end (String c r)) as [|c' z] eqn:E.
  - exfalso. rewrite append_nil_l in Hq.
    assert (Hc : char_in c (string_rev q) = true) by (rewrite <-Hq; simpl; by rewrite bool_decide_true).
    rewrite char_in_rev, (trim_left_empty_ascii ws2_rev ws3_rev c q) in Hc; [done| | |done|done|done].
    + intros a b Hab. unfold ws2_rev in Hab. destruct (ws2_high _ _ Hab). lia.
    + intros a b d Habd. unfold ws3_rev in Habd. destruct (ws3_high _ _ _ Habd). lia.
  - rewrite append_cons in Hq. injection Hq as -> _. by exists z.
Qed.

Lemma js_trim_ascii c r :
  ws1 c = false -> (code c < 128)%N -> exists z, js_trim (String c r) = String c z.
Proof. intros H1 Hlt. unfold js_trim. rewrite trim_start_ascii by done. by apply trim_end_ascii. Qed.

(** [JSON.parse] throws on a text starting with a backquote. *)
Lemma json_parse_backquote z : json_parse (String "`" z) = None.
Proof. reflexivity. Qed.
