(* ===== verification/Store.v ===== *)
(** * Store: the document store of [src/App.tsx]

    The project and the active section id are two [useState] hooks of
    [App]; every mutation is a [setProject] with a functional updater that
    builds a new value (copy on write).  This file holds the seed project
    (lines 6-19), the initial active id (line 23), the lookup of the active
    section (line 33), the meta and content mutators (lines 35-44) and
    [insertHtmlAtEnd] (lines 46-52).

    The spec's contract of the store (section 4.1) is the class
    [DocumentStore] with its laws [DocumentStoreLaws]; the instance
    [editor_store] is the code's functions on [(project, activeSectionId)]
    and its laws are proved here.  Client properties (the append law of
    spec section 8) are proved once against the class. *)

From S2P Require Import Prelude Types Html.

(** [initialProject] (lines 6-19). *)
Definition initialProject : Project :=
  mkProject "1" "" "" Monografia [
    mkSection "s1" "Capa"
      "<h2>[Seu Nome Completo]</h2><h1>[Título do Trabalho]</h1><p>[Cidade]</p><p>[Ano]</p>"
      PRE_TEXTUAL;
    mkSection "s2" "Resumo"
      "<p>Escreva aqui o resumo do seu trabalho...</p>"
      PRE_TEXTUAL;
    mkSection "s3" "Introdução"
      "<p>A introdução do trabalho aborda o contexto do tema...</p>"
      TEXTUAL;
    mkSection "s4" "Desenvolvimento"
      "<p>O desenvolvimento aprofunda os conceitos, análises e resultados...</p>"
      TEXTUAL;
    mkSection "s5" "Conclusão"
      "<p>A conclusão resume os principais pontos e sugere futuras pesquisas...</p>"
      TEXTUAL;
    mkSection "s6" "Referências"
      "<p>Insira aqui suas referências bibliográficas...</p>"
      POST_TEXTUAL
  ].

(** [useState<string>(project.sections[2].id)] (line 23); the seed has
    six sections, so the index is in range. *)
Definition initialActiveSectionId : string :=
  match initialProject.(sections) !! 2 with Some s => s.(id) | None => "" end.

(** [project.sections.find(s => s.id === activeSectionId)] (line 33). *)
Definition find_section (secs : list Section) (sid : string) : option Section :=
  List.find (fun s => bool_decide (s.(id) = sid)) secs.

Definition activeSection (p : Project) (activeSectionId : string) : option Section :=
  find_section p.(sections) activeSectionId.

(** The two fields [handleProjectMetaChange] accepts. *)
Inductive MetaField := MetaTitle | MetaAuthor.

(** [setProject(prev => ({ ...prev, [field]: value }))] (lines 35-37). *)
Definition handleProjectMetaChange (field : MetaField) (value : string) (p : Project) : Project :=
  match field with
  | MetaTitle => mkProject p.(project_id) value p.(author) p.(template) p.(sections)
  | MetaAuthor => mkProject p.(project_id) p.(project_title) value p.(template) p.(sections)
  end.

(** The map of line 42. *)
Definition set_content_where (activeSectionId content : string) (s : Section) : Section :=
  if bool_decide (s.(id) = activeSectionId) then with_content s content else s.

(** [handleSectionContentChange] (lines 39-44): every section whose id is
    [activeSectionId] (the one captured by the closure) gets [content]. *)
Definition handleSectionContentChange (activeSectionId content : string) (p : Project) : Project :=
  with_sections p (map (set_content_where activeSectionId content) p.(sections)).

(** [insertHtmlAtEnd] (lines 46-52): reads the editor's live [innerHTML]
    ([None] when [editorRef.current] is null) and writes it, followed by
    [html], into the section the closure's [activeSectionId] names. *)
Definition insertHtmlAtEnd (activeSectionId : string) (editor : option string)
    (html : string) (p : Project) : Project :=
  match editor with
  | Some currentContent => handleSectionContentChange activeSectionId (currentContent +:+ html) p
  | None => p
  end.

(** ** Well-formedness *)

Definition section_ids (p : Project) : list string := map id p.(sections).

(** Section ids are unique and the active id names a section. *)
Definition wf_store (p : Project) (activeSectionId : string) : Prop :=
  NoDup (section_ids p) /\ activeSectionId ∈ section_ids p.

(** ** The store contract of the spec (section 4.1) *)

Class DocumentStore (T : Type) := {
  getActiveSection : T -> option Section;
  setMeta : MetaField -> string -> T -> T;
  setActiveSection : string -> T -> T;
  replaceActiveContent : string -> T -> T;
  appendToActiveContent : string -> T -> T;
}.

Class DocumentStoreLaws (T : Type) `{DocumentStore T} := {
  get_replace html st :
    getActiveSection (replaceActiveContent html st) =
    (fun s => with_content s html) <$> getActiveSection st;
  get_append html st :
    getActiveSection (appendToActiveContent html st) =
    (fun s => with_content s (s.(content) +:+ html)) <$> getActiveSection st;
  get_setMeta f v st : getActiveSection (setMeta f v st) = getActiveSection st;
}.

(** The code's store: the project and the active id.  Replacing the
    content is [handleSectionContentChange]; appending is
    [insertHtmlAtEnd] with the editor showing the active section's
    content, the situation of every call in [App] whose closure is
    current (see [App]). *)
Definition EditorState : Type := Project * string.

#[export] Instance editor_store : DocumentStore EditorState := {
  getActiveSection st := activeSection st.1 st.2;
  setMeta f v st := (handleProjectMetaChange f v st.1, st.2);
  setActiveSection sid st := (st.1, sid);
  replaceActiveContent html st := (handleSectionContentChange st.2 html st.1, st.2);
  appendToActiveContent html st :=
    (insertHtmlAtEnd st.2 (content <$> activeSection st.1 st.2) html st.1, st.2);
}.

(** * Lemmas *)

Lemma find_section_id secs sid s : find_section secs sid = Some s -> s.(id) = sid.
Proof.
  unfold find_section. intros Hf. apply find_some in Hf as [_ Hs].
  by apply bool_decide_eq_true in Hs.
Qed.

Lemma set_content_where_id a c s : (set_content_where a c s).(id) = s.(id).
Proof. unfold set_content_where. by case_bool_decide. Qed.

Lemma find_section_map_set secs sid a c :
  find_section (map (set_content_where a c) secs) sid =
  set_content_where a c <$> find_section secs sid.
Proof.
  induction secs as [|s secs IH]; [done|]. simpl.
  rewrite set_content_where_id. by case_bool_decide.
Qed.

(** [handleSectionContentChange] maps over the sections: the section at
    index [k] afterwards is the old one, rewritten if it is the active one. *)
Lemma lookup_content_change a c p k :
  (handleSectionContentChange a c p).(sections) !! k = set_content_where a c <$> p.(sections) !! k.
Proof.
  unfold handleSectionContentChange, with_sections. simpl.
  revert k. induction (sections p) as [|s secs IH]; intros [|k]; simpl; auto.
Qed.

Lemma section_ids_content_change a c p :
  section_ids (handleSectionContentChange a c p) = section_ids p.
Proof.
  unfold section_ids, handleSectionContentChange, with_sections. simpl.
  rewrite map_map. apply map_ext, set_content_where_id.
Qed.

Lemma section_ids_meta f v p : section_ids (handleProjectMetaChange f v p) = section_ids p.
Proof. by destruct f. Qed.

Lemma section_ids_insert a e h p : section_ids (insertHtmlAtEnd a e h p) = section_ids p.
Proof. destruct e; [apply section_ids_content_change|done]. Qed.

#[export] Hint Rewrite section_ids_content_change section_ids_meta section_ids_insert : monograf_rw.

Lemma activeSection_content_change a c p sid :
  activeSection (handleSectionContentChange a c p) sid =
  set_content_where a c <$> activeSection p sid.
Proof. apply find_section_map_set. Qed.

Lemma activeSection_meta f v p sid :
  activeSection (handleProjectMetaChange f v p) sid = activeSection p sid.
Proof. by destruct f. Qed.

(** The active section exists exactly when its id is a section id. *)
Lemma activeSection_Some_iff p sid :
  is_Some (activeSection p sid) <-> sid ∈ section_ids p.
Proof.
  unfold activeSection, find_section, section_ids.
  induction (sections p) as [|s secs IH]; simpl.
  - split; [by intros []|]. intros Hin. by apply elem_of_nil in Hin.
  - rewrite elem_of_cons. case_bool_decide; [naive_solver|].
    rewrite IH. naive_solver.
Qed.

Lemma section_id_of_lookup p i s :
  p.(sections) !! i = Some s -> s.(id) ∈ section_ids p.
Proof.
  intros Hs. apply list_elem_of_lookup_2 in Hs. apply list_elem_of_In in Hs.
  apply list_elem_of_In. unfold section_ids. by apply in_map.
Qed.

Lemma set_content_where_found a c p s :
  activeSection p a = Some s -> set_content_where a c s = with_content s c.
Proof.
  intros Hf. apply find_section_id in Hf.
  unfold set_content_where. by rewrite bool_decide_true.
Qed.

(** C39: replacing the active section's content keeps the section ids (so
    their uniqueness and the existence of the active section), changes the
    active section's content only, and leaves every other section as it
    was. *)
Theorem handleSectionContentChange_spec p a c :
  wf_store p a ->
  wf_store (handleSectionContentChange a c p) a /\
  activeSection (handleSectionContentChange a c p) a =
    (fun s => with_content s c) <$> activeSection p a /\
  (forall sid, sid <> a ->
     activeSection (handleSectionContentChange a c p) sid = activeSection p sid).
Proof.
  intros Hwf. unfold wf_store in *. rewrite section_ids_content_change.
  split; [done|]. split.
  - rewrite activeSection_content_change.
    destruct (activeSection p a) as [s|] eqn:Hs; [|done]. simpl.
    by erewrite set_content_where_found.
  - intros sid Hne. rewrite activeSection_content_change.
    destruct (activeSection p sid) as [s|] eqn:Hs; [|done]. simpl. f_equal.
    apply find_section_id in Hs. unfold set_content_where.
    rewrite bool_decide_false; [done|congruence].
Qed.

Lemma with_content_twice s a b : with_content (with_content s a) b = with_content s b.
Proof. done. Qed.

Ltac store_unfold :=
  cbn [getActiveSection setMeta setActiveSection replaceActiveContent
       appendToActiveContent editor_store fst snd] in *.

#[export] Instance editor_store_laws : DocumentStoreLaws EditorState.
Proof.
  split.
  - intros html [p a]. store_unfold. rewrite activeSection_content_change.
    destruct (activeSection p a) as [s|] eqn:Hs; [|done]. simpl.
    by erewrite set_content_where_found.
  - intros html [p a]. store_unfold.
    destruct (activeSection p a) as [s|] eqn:Hs; simpl; [|by rewrite Hs].
    rewrite activeSection_content_change, Hs. simpl.
    by erewrite set_content_where_found.
  - intros f v [p a]. apply activeSection_meta.
Qed.

(** ** The append law, against the contract *)

Section AppendLaw.
Context {T : Type} `{DocumentStoreLaws T}.

Definition append_all (hs : list string) (st : T) : T :=
  fold_left (fun st h => appendToActiveContent h st) hs st.

(** Successive appends leave the active section's content equal to the
    former content followed by the fragments in call order. *)
Lemma get_append_all hs st :
  getActiveSection (append_all hs st) =
  (fun s => with_content s (s.(content) +:+ foldr String.append "" hs)) <$> getActiveSection st.
Proof.
  revert st; induction hs as [|h hs IH]; intros st; simpl.
  - destruct (getActiveSection st) as [s|]; [|done]. simpl.
    rewrite append_nil_r. by destruct s.
  - unfold append_all in *. simpl. rewrite IH, get_append.
    destruct (getActiveSection st) as [s|]; [|done]. simpl.
    by rewrite append_assoc.
Qed.
End AppendLaw.

(** C38: for every sequence of appends to the code's store, the active
    section's content equals the former content followed by each appended
    fragment in call order, and its length never decreases. *)
Theorem appendToActiveContent_sequence (p : Project) (a : string) (hs : list string) (s : Section) :
  activeSection p a = Some s ->
  exists s', getActiveSection (append_all hs ((p, a) : EditorState)) = Some s' /\
    s'.(content) = s.(content) +:+ foldr String.append "" hs /\
    String.length s.(content) <= String.length s'.(content).
Proof.
  intros Hs. rewrite get_append_all. store_unfold. rewrite Hs.
  eexists; split; [done|]. simpl. split; [done|].
  rewrite length_append. lia.
Qed.

(** ** The text of the final review *)

Lemma is_textual_set_content_where a c s :
  is_textual (set_content_where a c s) = is_textual s.
Proof. unfold set_content_where. by case_bool_decide. Qed.

Lemma textual_blocks_map_set secs a c :
  Forall (fun s => s.(id) = a -> s.(type) <> TEXTUAL) secs ->
  List.filter is_textual (map (set_content_where a c) secs) = List.filter is_textual secs.
Proof.
  induction secs as [|s secs IH]; intros Hf; [done|].
  apply Forall_cons in Hf as [Hs Hf]. cbn [map List.filter].
  rewrite is_textual_set_content_where, IH by done.
  destruct (is_textual s) eqn:Ht; [|done]. f_equal.
  unfold set_content_where. case_bool_decide as Hid; [|done].
  unfold is_textual in Ht. apply bool_decide_eq_true in Ht. by destruct (Hs Hid).
Qed.

(** C36: the text sent to the final review only depends on the textual
    sections: editing a pre- or post-textual section (cover, abstract,
    references) does not change it. *)
Theorem full_text_ignores_non_textual p a c :
  Forall (fun s => s.(id) = a -> s.(type) <> TEXTUAL) p.(sections) ->
  full_text (handleSectionContentChange a c p).(sections) = full_text p.(sections).
Proof. intros Hf. unfold full_text. simpl. by rewrite textual_blocks_map_set. Qed.

(** ** Witnesses *)

Lemma handleSectionContentChange_spec_witness :
  wf_store initialProject "s3" /\
  activeSection (handleSectionContentChange "s3" "<p>x</p>" initialProject) "s3" =
    (fun s => with_content s "<p>x</p>") <$> activeSection initialProject "s3".
Proof.
  assert (Hwf : wf_store initialProject "s3").
  { split; [apply (bool_decide_unpack _); vm_compute; reflexivity|].
    apply (bool_decide_unpack _); vm_compute; reflexivity. }
  split; [exact Hwf|]. exact (proj1 (proj2 (handleSectionContentChange_spec _ _ _ Hwf))).
Defined.

Lemma appendToActiveContent_sequence_witness :
  exists s, activeSection initialProject "s3" = Some s /\
  exists s', getActiveSection (append_all ["<p>a</p>"; "<p>b</p>"] ((initialProject, "s3") : EditorState)) = Some s' /\
    s'.(content) = s.(content) +:+ foldr String.append "" ["<p>a</p>"; "<p>b</p>"] /\
    String.length s.(content) <= String.length s'.(content).
Proof.
  eexists. split; [reflexivity|].
  apply appendToActiveContent_sequence. reflexivity.
Defined.

Lemma full_text_ignores_non_textual_witness :
  Forall (fun s => s.(id) = "s6" -> s.(type) <> TEXTUAL) initialProject.(sections) /\
  full_text (handleSectionContentChange "s6" "<p>ABNT NBR 6023</p>" initialProject).(sections) =
  full_text initialProject.(sections).
Proof.
  assert (Hf : Forall (fun s => s.(id) = "s6" -> s.(type) <> TEXTUAL) initialProject.(sections)).
  { repeat constructor; simpl; discriminate. }
  split; [exact Hf | exact (full_text_ignores_non_textual _ _ _ Hf)].
Defined.
