(* ===== verification/App.v ===== *)
(** * App: the component [App] of [src/App.tsx] as a state machine

    [AppState] holds every [useState] hook of [App] (lines 22-28), the
    live [innerHTML] of the editor ([editorRef], line 30), and what the
    asynchronous code keeps alive between events: the closure of
    [handleGenerateImage] memoised by [useCallback(..., [imagePrompt])]
    ([imageHandler]), the continuation of the handler suspended at its
    [await] ([pending]), the open file picker and the [FileReader]s in
    flight ([reads]), and the log of provider calls ([calls]).

    [step] applies one event: a click, an edit, a file read completing or
    the provider settling the awaited call.  Each handler is translated
    with its guards (the [disabled] attributes of the buttons and the
    handlers' own early returns); [rerender] then does what React does
    after the state changes: remount or refresh the editor when the
    active section or its HTML changed (lines 183-191), and refresh the
    memoised image handler when [imagePrompt] changed (line 113).

    The closures are the source of the stale-state behaviour: after its
    [await], [handleGenerateText] writes into the section that was active
    at the click, and [handleGenerateImage] uses the [activeSection] of
    the render at which [imagePrompt] last changed; both read the editor's
    live content.  [JSON.parse] is the [JsonParse] instance in context. *)

From S2P Require Import Prelude Types Html Gemini Store.

(** ['review' | 'text' | 'image'], the non-null values of [loadingAction]. *)
Inductive LoadingAction := LReview | LText | LImage.

#[export] Instance LoadingAction_eq_dec : EqDecision LoadingAction.
Proof. solve_decision. Defined.

(** What a closure captured from its render: [activeSection] (the
    [find] of line 33, [None] if it found nothing) and the
    [activeSectionId] that its [insertHtmlAtEnd] writes to. *)
Record Snapshot := mkSnapshot {
  snap_section : option Section;
  snap_activeSectionId : string;
}.

(** The handler suspended at its [await]. *)
Inductive Pending :=
| PendingReview
| PendingText (target : string)
| PendingImage (handler : Snapshot).

(** A [FileReader] in flight: the [handleInsertImage] its [onload]
    captured and the data URL it will deliver. *)
Record FileRead := mkFileRead {
  read_handler : Snapshot;
  read_result : string;
}.

Record AppState := mkAppState {
  project : Project;
  activeSectionId : string;
  isLoading : bool;
  loadingAction : option LoadingAction;
  finalReview : json;
  imagePrompt : string;
  darkMode : bool;
  editor : option string;
  imageHandler : Snapshot;
  pickerOpen : bool;
  pending : option Pending;
  reads : list FileRead;
  calls : list Request;
}.

(** ** Field updates *)

Definition set_project p st := mkAppState p st.(activeSectionId) st.(isLoading)
  st.(loadingAction) st.(finalReview) st.(imagePrompt) st.(darkMode) st.(editor)
  st.(imageHandler) st.(pickerOpen) st.(pending) st.(reads) st.(calls).
Definition set_activeSectionId a st := mkAppState st.(project) a st.(isLoading)
  st.(loadingAction) st.(finalReview) st.(imagePrompt) st.(darkMode) st.(editor)
  st.(imageHandler) st.(pickerOpen) st.(pending) st.(reads) st.(calls).
(** [setIsLoading(b); setLoadingAction(a)] *)
Definition set_loading b a st := mkAppState st.(project) st.(activeSectionId) b
  a st.(finalReview) st.(imagePrompt) st.(darkMode) st.(editor)
  st.(imageHandler) st.(pickerOpen) st.(pending) st.(reads) st.(calls).
Definition set_finalReview r st := mkAppState st.(project) st.(activeSectionId) st.(isLoading)
  st.(loadingAction) r st.(imagePrompt) st.(darkMode) st.(editor)
  st.(imageHandler) st.(pickerOpen) st.(pending) st.(reads) st.(calls).
Definition set_imagePrompt v st := mkAppState st.(project) st.(activeSectionId) st.(isLoading)
  st.(loadingAction) st.(finalReview) v st.(darkMode) st.(editor)
  st.(imageHandler) st.(pickerOpen) st.(pending) st.(reads) st.(calls).
Definition set_darkMode d st := mkAppState st.(project) st.(activeSectionId) st.(isLoading)
  st.(loadingAction) st.(finalReview) st.(imagePrompt) d st.(editor)
  st.(imageHandler) st.(pickerOpen) st.(pending) st.(reads) st.(calls).
Definition set_editor e st := mkAppState st.(project) st.(activeSectionId) st.(isLoading)
  st.(loadingAction) st.(finalReview) st.(imagePrompt) st.(darkMode) e
  st.(imageHandler) st.(pickerOpen) st.(pending) st.(reads) st.(calls).
Definition set_imageHandler h st := mkAppState st.(project) st.(activeSectionId) st.(isLoading)
  st.(loadingAction) st.(finalReview) st.(imagePrompt) st.(darkMode) st.(editor)
  h st.(pickerOpen) st.(pending) st.(reads) st.(calls).
Definition set_pickerOpen b st := mkAppState st.(project) st.(activeSectionId) st.(isLoading)
  st.(loadingAction) st.(finalReview) st.(imagePrompt) st.(darkMode) st.(editor)
  st.(imageHandler) b st.(pending) st.(reads) st.(calls).
Definition set_pending q st := mkAppState st.(project) st.(activeSectionId) st.(isLoading)
  st.(loadingAction) st.(finalReview) st.(imagePrompt) st.(darkMode) st.(editor)
  st.(imageHandler) st.(pickerOpen) q st.(reads) st.(calls).
Definition set_reads rs st := mkAppState st.(project) st.(activeSectionId) st.(isLoading)
  st.(loadingAction) st.(finalReview) st.(imagePrompt) st.(darkMode) st.(editor)
  st.(imageHandler) st.(pickerOpen) st.(pending) rs st.(calls).
(** One provider call is made. *)
Definition add_call r st := mkAppState st.(project) st.(activeSectionId) st.(isLoading)
  st.(loadingAction) st.(finalReview) st.(imagePrompt) st.(darkMode) st.(editor)
  st.(imageHandler) st.(pickerOpen) st.(pending) st.(reads) (st.(calls) ++ [r]).

(** ** What a render computes *)

(** [activeSection] (line 33). *)
Definition current_section (st : AppState) : option Section :=
  activeSection st.(project) st.(activeSectionId).

(** The [__html] the editor is given (line 190). *)
Definition active_html (st : AppState) : option string := content <$> current_section st.

Definition current_snapshot (st : AppState) : Snapshot :=
  mkSnapshot (current_section st) st.(activeSectionId).

(** The seed state: the first render of [App]. *)
Definition initialState : AppState :=
  let st0 := mkAppState initialProject initialActiveSectionId false None JNull "" false
               None (mkSnapshot None "") false None [] [] in
  set_imageHandler (current_snapshot st0) (set_editor (active_html st0) st0).

(** ** Prompts built by the handlers *)

(** The template literal of line 92. *)
Definition text_prompt (sectionTitle projectTitle plainTextContent : string) : string :=
  "Você é um assistente de escrita acadêmica. Continue o seguinte trecho da seção "
  +:+ dq +:+ sectionTitle +:+ dq +:+ " de um TCC sobre " +:+ dq +:+ projectTitle +:+ dq
  +:+ ". Mantenha um tom formal e focado no tema. Retorne apenas o novo texto, sem repetir o que foi enviado."
  +:+ nl +:+ nl +:+ "Trecho atual:" +:+ nl +:+ plainTextContent.

(** [fullPrompt] (line 106). *)
Definition image_prompt (imagePrompt : string) : string :=
  "Estilo de ilustração conceitual para um trabalho acadêmico. " +:+ imagePrompt.

(** ** The review modal (lines 231-253) *)

(** JavaScript truthiness of a parsed value ([NaN] is not a JSON value). *)
Definition truthy (v : json) : bool :=
  match v with
  | JNull => false
  | JBool b => b
  | JNumber n => negb (Z.eqb n 0)
  | JString s => negb (bool_decide (s = ""))
  | JArray _ | JObject _ => true
  end.

(** [v.k] on a value ([None]: [undefined]); the outer [None] is the
    [TypeError] of reading a property of [undefined] or [null]. *)
Definition get_prop (v : option json) (k : string) : option (option json) :=
  match v with
  | None | Some JNull => None
  | Some (JObject fields) => Some (lookup_last k fields)
  | Some _ => Some None
  end.

(** Whether React accepts a value as a child: strings and numbers are
    text, [null], [undefined] and booleans render nothing, arrays render
    their items, and a plain object throws. *)
Fixpoint renders_ok (v : json) : bool :=
  match v with
  | JArray items => forallb renders_ok items
  | JObject _ => false
  | _ => true
  end.

Definition child_ok (v : option json) : bool :=
  match v with Some w => renders_ok w | None => true end.

Inductive ModalView :=
| ModalHidden
| ModalCrash
| ModalShows (fields : list (option json)).

(** The eight fields the modal reads, in render order. *)
Definition review_paths : list (string * string) :=
  [("feedback", "abntCompliance"); ("feedback", "originality");
   ("feedback", "cohesion"); ("feedback", "grammar");
   ("suggestions", "clarity"); ("suggestions", "depth");
   ("suggestions", "conclusion"); ("suggestions", "resultsPresentation")].

Definition read_path (v : json) (path : string * string) : option (option json) :=
  match get_prop (Some v) path.1 with
  | Some o => get_prop o path.2
  | None => None
  end.

(** [{finalReview && (<modal ... {finalReview.feedback.abntCompliance} ...>)}]:
    hidden when the value is falsy; a crash of the render when a read
    throws or a field is not a valid child. *)
Definition modal_view (finalReview : json) : ModalView :=
  if negb (truthy finalReview) then ModalHidden
  else match mapM (read_path finalReview) review_paths with
       | None => ModalCrash
       | Some fields => if forallb child_ok fields then ModalShows fields else ModalCrash
       end.

Section AppModel.
Context `{JsonParse}.

(** ** Handlers *)

(** [handleInsertImage] (lines 54-67) of the closure [h]; [None] when
    reading [activeSection.content] throws ([activeSection] undefined). *)
Definition handleInsertImage (h : Snapshot) (imageDataUrl : string) (year : nat)
    (st : AppState) : option AppState :=
  match h.(snap_section) with
  | None => None
  | Some sec =>
      let figureCount := figure_count sec.(content) + 1 in
      let imageHtml := figure_html figureCount imageDataUrl year in
      Some (set_project (insertHtmlAtEnd h.(snap_activeSectionId) st.(editor) imageHtml
                           st.(project)) st)
  end.

(** [handleFinalReview] (lines 69-82) up to its [await]. *)
Definition handleFinalReview (st : AppState) : AppState :=
  let fullText := full_text st.(project).(sections) in
  set_pending (Some PendingReview)
    (add_call (conductFinalReview_request (strip_tags fullText))
      (set_finalReview JNull (set_loading true (Some LReview) st))).

(** [handleGenerateText] (lines 84-97) up to its [await]; its closure is
    the current render's ([useCallback] on [activeSection] and
    [project.title]). *)
Definition handleGenerateText (st : AppState) : AppState :=
  if bool_decide (st.(project).(project_title) = "") then st
  else
    let st1 := set_loading true (Some LText) st in
    match current_section st with
    | None => st1
    | Some sec =>
        let plainTextContent := strip_tags sec.(content) in
        let prompt := text_prompt sec.(title) st.(project).(project_title) plainTextContent in
        set_pending (Some (PendingText st.(activeSectionId)))
          (add_call (generateText_request prompt) st1)
    end.

(** [handleGenerateImage] (lines 99-113) up to its [await], with the
    memoised closure [imageHandler]. *)
Definition handleGenerateImage (st : AppState) : AppState :=
  if bool_decide (st.(imagePrompt) = "") then st
  else
    set_pending (Some (PendingImage st.(imageHandler)))
      (add_call (generateImage_request (image_prompt st.(imagePrompt)))
        (set_loading true (Some LImage) st)).

(** The end of a handler: [setIsLoading(false); setLoadingAction(null)]. *)
Definition finish (st : AppState) : AppState := set_loading false None (set_pending None st).

(** [generateContent] settles: the rest of [handleFinalReview] or of
    [handleGenerateText].  When [generateText] resolves to [undefined],
    [newText.replace] throws and the handler stops before clearing the
    busy state. *)
Definition resumeContent (o : ContentOutcome) (st : AppState) : AppState :=
  match st.(pending) with
  | Some PendingReview => finish (set_finalReview (conductFinalReview_result o) st)
  | Some (PendingText target) =>
      match generateText_result o with
      | None => set_pending None st
      | Some newText =>
          finish (set_project (insertHtmlAtEnd target st.(editor) (paragraphs newText)
                                 st.(project)) st)
      end
  | _ => st
  end.

(** [generateImages] settles: the rest of [handleGenerateImage]
    ([if (imageData)] is false for null, undefined and ["" ]). *)
Definition resumeImages (o : ImagesOutcome) (year : nat) (st : AppState) : AppState :=
  match st.(pending) with
  | Some (PendingImage h) =>
      match generateImage_result o with
      | Some imageData =>
          if bool_decide (imageData = "") then finish st
          else match handleInsertImage h (png_data_url imageData) year st with
               | Some st' => finish st'
               | None => set_pending None st
               end
      | None => finish st
      end
  | _ => st
  end.

(** [reader.onload] of the [i]-th read in flight (lines 123-127). *)
Definition fileLoaded (i : nat) (year : nat) (st : AppState) : AppState :=
  match st.(reads) !! i with
  | None => st
  | Some r =>
      let st1 := set_reads (delete i st.(reads)) st in
      if bool_decide (r.(read_result) = "") then st1
      else match handleInsertImage r.(read_handler) r.(read_result) year st1 with
           | Some st' => st'
           | None => st1
           end
  end.

(** ** Events *)

Inductive Event :=
| ClickSection (i : nat)
| EditorInput (html : string)
| ChangeTitle (value : string)
| ChangeAuthor (value : string)
| ChangeImagePrompt (value : string)
| ToggleDarkMode
| ClickReview
| ClickGenerateText
| ClickGenerateImage
| ClickUpload
| SelectFile (dataUrl : option string)
| FileLoaded (i : nat) (year : nat)
| ContentSettles (o : ContentOutcome)
| ImagesSettle (o : ImagesOutcome) (year : nat)
| CloseReview.

(** The handler an event runs, with the [disabled] guards of the JSX
    (lines 171, 200, 211, 219): a click on a disabled button does
    nothing. *)
Definition handle (st : AppState) (e : Event) : AppState :=
  match e with
  | ClickSection i =>
      match st.(project).(sections) !! i with
      | Some s => set_activeSectionId s.(id) st
      | None => st
      end
  | EditorInput html =>
      set_project (handleSectionContentChange st.(activeSectionId) html st.(project))
        (set_editor (Some html) st)
  | ChangeTitle v => set_project (handleProjectMetaChange MetaTitle v st.(project)) st
  | ChangeAuthor v => set_project (handleProjectMetaChange MetaAuthor v st.(project)) st
  | ChangeImagePrompt v => set_imagePrompt v st
  | ToggleDarkMode => set_darkMode (negb st.(darkMode)) st
  | ClickReview => if st.(isLoading) then st else handleFinalReview st
  | ClickGenerateText =>
      if st.(isLoading) || bool_decide (st.(project).(project_title) = "") then st
      else handleGenerateText st
  | ClickGenerateImage => if st.(isLoading) then st else handleGenerateImage st
  | ClickUpload => if st.(isLoading) then st else set_pickerOpen true st
  | SelectFile f =>
      if st.(pickerOpen) then
        let st1 := set_pickerOpen false st in
        match f with
        | Some url => set_reads (st1.(reads) ++ [mkFileRead (current_snapshot st1) url]) st1
        | None => st1
        end
      else st
  | FileLoaded i year => fileLoaded i year st
  | ContentSettles o => resumeContent o st
  | ImagesSettle o year => resumeImages o year st
  | CloseReview => if truthy st.(finalReview) then set_finalReview JNull st else st
  end.

(** React's render after the state changed: the editor is remounted
    ([key={activeSection.id}]) or its [innerHTML] reset when the
    [__html] prop changed; [handleGenerateImage] is re-created when
    [imagePrompt] changed. *)
Definition rerender (before after : AppState) : AppState :=
  let after1 :=
    if bool_decide (before.(activeSectionId) = after.(activeSectionId) /\
                    active_html before = active_html after)
    then after else set_editor (active_html after) after in
  if bool_decide (before.(imagePrompt) = after.(imagePrompt)) then after1
  else set_imageHandler (current_snapshot after1) after1.

Definition step (st : AppState) (e : Event) : AppState := rerender st (handle st e).

End AppModel.

(** Unfold every handler and split on every test and match. *)
Ltac handle_cases :=
  unfold handle, handleFinalReview, handleGenerateText, handleGenerateImage,
    resumeContent, resumeImages, fileLoaded, handleInsertImage, finish in *;
  repeat (case_match; simplify_eq/=); simpl in *;
  repeat match goal with H : (_ || _) = false |- _ => apply orb_false_iff in H as [? ?] end.

(** * Lemmas on the state updates *)

(** [rerender] only touches the editor and the memoised image handler. *)
Lemma rerender_fields (before after : AppState) :
  (rerender before after).(project) = after.(project) /\
  (rerender before after).(activeSectionId) = after.(activeSectionId) /\
  (rerender before after).(isLoading) = after.(isLoading) /\
  (rerender before after).(loadingAction) = after.(loadingAction) /\
  (rerender before after).(finalReview) = after.(finalReview) /\
  (rerender before after).(imagePrompt) = after.(imagePrompt) /\
  (rerender before after).(pending) = after.(pending) /\
  (rerender before after).(reads) = after.(reads) /\
  (rerender before after).(calls) = after.(calls) /\
  (rerender before after).(pickerOpen) = after.(pickerOpen).
Proof.
  unfold rerender.
  by repeat case_match.
Qed.

Lemma rerender_editor (before after : AppState) :
  (rerender before after).(editor) =
  if bool_decide (before.(activeSectionId) = after.(activeSectionId) /\
                  active_html before = active_html after)
  then after.(editor) else active_html after.
Proof.
  unfold rerender.
  by repeat case_match.
Qed.

Lemma rerender_imageHandler (before after : AppState) :
  (rerender before after).(imageHandler) =
  if bool_decide (before.(imagePrompt) = after.(imagePrompt)) then after.(imageHandler)
  else current_snapshot after.
Proof.
  unfold rerender.
  by repeat case_match.
Qed.

Lemma active_html_rerender (before after : AppState) :
  active_html (rerender before after) = active_html after /\
  current_section (rerender before after) = current_section after.
Proof.
  unfold active_html, current_section.
  destruct (rerender_fields before after) as (-> & -> & _). done.
Qed.

(** React's render after a change that keeps the active section, its
    HTML and the image prompt changes nothing. *)
Lemma rerender_unchanged st st' :
  st'.(activeSectionId) = st.(activeSectionId) -> active_html st' = active_html st ->
  st'.(imagePrompt) = st.(imagePrompt) -> rerender st st' = st'.
Proof. intros Ha Hh Hp. unfold rerender. by rewrite !bool_decide_true. Qed.

(** A [JSON.parse] that rejects every text, for evaluated runs whose
    outcome does not depend on the parser. *)
Definition reject_all_json : JsonParse := {| JSON_parse _ := None |}.
