(* ===== verification/ReviewModal.v ===== *)
(** * ReviewModal: the review modal against the provider's schema

    The modal of [App.tsx] (lines 231-253) reads eight string fields of
    [finalReview] ([modal_view] in [App]).  The provider is asked for a
    value of the schema [reviewSchema] ([Gemini]); [conforms] is that
    contract.  This file shows that the schema and the modal agree: a
    value of the schema's type is rendered, and the strings shown are the
    eight fields of the value, in the order of [review_paths]. *)

From S2P Require Import Prelude Types Html Gemini Store App.

(** The eight texts of a review, in the order the modal shows them. *)
Definition review_fields (r : FinalReview) : list string :=
  [r.(feedback).(abntCompliance); r.(feedback).(originality); r.(feedback).(cohesion);
   r.(feedback).(grammar); r.(suggestions).(clarity); r.(suggestions).(depth);
   r.(suggestions).(conclusion); r.(suggestions).(resultsPresentation)].

(** Rewrite the [lookup_last] results known from the hypotheses, one
    property read at a time. *)
Ltac rewrite_lookups :=
  cbn -[lookup_last];
  repeat (match goal with E : lookup_last ?k ?f = _ |- context [lookup_last ?k ?f] => rewrite E end;
          cbn -[lookup_last]).

(** The JSON value of a review conforms to the schema it was asked in. *)
Lemma review_json_conforms r : conforms reviewSchema (review_json r) = true.
Proof. by destruct r as [[] []]. Qed.

(** The modal shows the JSON value of a review with its eight texts. *)
Lemma modal_view_review_json r :
  modal_view (review_json r) = ModalShows (map (fun v => Some (JString v)) (review_fields r)).
Proof. by destruct r as [[] []]. Qed.

(** C29: the schema is the modal's type.  Every value conforming to
    [reviewSchema] (whatever other keys it has, in whatever order) is
    shown by the modal without a crash, and the eight texts shown are the
    eight fields the modal reads from the value. *)
Theorem review_schema_renders v :
  conforms reviewSchema v = true ->
  exists ss, Forall2 (fun p s => read_path v p = Some (Some (JString s))) review_paths ss /\
    modal_view v = ModalShows (map (fun s => Some (JString s)) ss).
Proof.
  intros H. destruct v as [| | | | |fields]; try discriminate.
  cbn -[lookup_last] in H.
  repeat match goal with
  | H : context [match lookup_last ?k ?f with _ => _ end] |- _ =>
      destruct (lookup_last k f) as [[]|] eqn:?; cbn -[lookup_last] in H; try discriminate
  end.
  unfold modal_view, review_paths, read_path, get_prop. rewrite_lookups.
  eexists [_; _; _; _; _; _; _; _].
  split; cycle 1; [reflexivity | repeat constructor; rewrite_lookups; done].
Qed.

Lemma review_schema_renders_witness :
  conforms reviewSchema (review_json (mkFinalReview (mkReviewFeedback "a" "o" "c" "g")
                                       (mkImprovementSuggestions "cl" "d" "co" "r"))) = true /\
  exists ss, Forall2 (fun p s => read_path (review_json (mkFinalReview (mkReviewFeedback "a" "o" "c" "g")
                                       (mkImprovementSuggestions "cl" "d" "co" "r"))) p = Some (Some (JString s)))
               review_paths ss /\
    modal_view (review_json (mkFinalReview (mkReviewFeedback "a" "o" "c" "g")
                                       (mkImprovementSuggestions "cl" "d" "co" "r"))) =
      ModalShows (map (fun s => Some (JString s)) ss).
Proof.
  split; [apply review_json_conforms|].
  apply review_schema_renders. apply review_json_conforms.
Defined.
