(* ===== verification/AppInvariants.v ===== *)
(** * AppInvariants: what every reachable state of [App] satisfies

    Proved by rule induction over [reachable step initialState]:
    - the section ids never change (no handler adds, removes or renames a
      section), so they stay unique;
    - the active id always names a section, so the [find(...)!] of line
      33 never yields [undefined];
    - the editor's [innerHTML] is the active section's content;
    - every captured closure ([imageHandler], the suspended handler, the
      file reads) refers to a section that exists, with its own id;
    - [isLoading] is true exactly when [loadingAction] is set, and a
      suspended handler always has the busy state of its action.
    On top of it, [step] makes at most one provider call at a time, and
    every call carries the document with its markup stripped
    ([request_ok]). *)

From S2P Require Import Prelude Types Html Gemini Store App.

Definition seed_ids : list string := section_ids initialProject.

(** A closure captured a section that exists, together with its id. *)
Definition snapshot_ok (h : Snapshot) : Prop :=
  exists s, h.(snap_section) = Some s /\ s.(id) = h.(snap_activeSectionId) /\
            s.(id) ∈ seed_ids.

Definition action_of (q : Pending) : LoadingAction :=
  match q with
  | PendingReview => LReview
  | PendingText _ => LText
  | PendingImage _ => LImage
  end.

Definition pending_ok (st : AppState) : Prop :=
  match st.(pending) with
  | None => True
  | Some q =>
      st.(isLoading) = true /\ st.(loadingAction) = Some (action_of q) /\
      match q with
      | PendingReview => True
      | PendingText t => t ∈ seed_ids
      | PendingImage h => snapshot_ok h
      end
  end.

Definition busy_flag (a : option LoadingAction) : bool :=
  match a with Some _ => true | None => false end.

(** What a provider call may carry: the review prompt around a text
    without ['<'], the continuation prompt for a non-empty project title
    around a section text without ['<'], or an image prompt around a
    non-empty description. *)
Definition request_ok (r : Request) : Prop :=
  (exists t, r = conductFinalReview_request t /\ char_in lt_char t = false) \/
  (exists ti pt c, r = generateText_request (text_prompt ti pt c) /\ pt <> "" /\
                   char_in lt_char c = false) \/
  (exists p, r = generateImage_request (image_prompt p) /\ p <> "").

Record app_inv (st : AppState) : Prop := {
  inv_ids : section_ids st.(project) = seed_ids;
  inv_active : st.(activeSectionId) ∈ seed_ids;
  inv_editor : st.(editor) = active_html st;
  inv_handler : snapshot_ok st.(imageHandler);
  inv_pending : pending_ok st;
  inv_reads : Forall (fun r => snapshot_ok r.(read_handler)) st.(reads);
  inv_busy : st.(isLoading) = busy_flag st.(loadingAction);
}.

Section Invariants.
Context `{JsonParse}.

Lemma handle_ids st e : section_ids (handle st e).(project) = section_ids st.(project).
Proof. destruct e; handle_cases; by autorewrite with monograf_rw. Qed.

Lemma handle_active st e :
  (handle st e).(activeSectionId) = st.(activeSectionId) \/
  exists i s, e = ClickSection i /\ st.(project).(sections) !! i = Some s /\
              (handle st e).(activeSectionId) = s.(id).
Proof. destruct e; handle_cases; first [by left | right; eauto 10]. Qed.

Lemma handle_imageHandler st e : (handle st e).(imageHandler) = st.(imageHandler).
Proof. destruct e; by handle_cases. Qed.

(** The active section of a state whose ids are the seed's and whose
    active id is one of them exists and carries that id. *)
Lemma current_section_ok st :
  section_ids st.(project) = seed_ids -> st.(activeSectionId) ∈ seed_ids ->
  exists s, current_section st = Some s /\ s.(id) = st.(activeSectionId).
Proof.
  intros Hids Ha. rewrite <-Hids, <-activeSection_Some_iff in Ha.
  destruct Ha as [s Hs]. exists s. split; [done|]. by apply find_section_id in Hs.
Qed.

Lemma current_snapshot_ok st :
  section_ids st.(project) = seed_ids -> st.(activeSectionId) ∈ seed_ids ->
  snapshot_ok (current_snapshot st).
Proof.
  intros Hids Ha. destruct (current_section_ok st Hids Ha) as (s & Hs & Hid).
  exists s. simpl. rewrite Hs, Hid. done.
Qed.

Lemma handle_editor st e :
  (handle st e).(editor) = st.(editor) \/
  exists html, e = EditorInput html /\ (handle st e).(editor) = Some html.
Proof. destruct e; handle_cases; eauto. Qed.

(** After an edit, the active section holds what the editor holds. *)
Lemma editor_input_html st html :
  section_ids st.(project) = seed_ids -> st.(activeSectionId) ∈ seed_ids ->
  active_html (handle st (EditorInput html)) = Some html.
Proof.
  intros Hids Ha. destruct (current_section_ok st Hids Ha) as (s & Hs & _).
  unfold current_section in Hs. unfold active_html, current_section. simpl.
  rewrite activeSection_content_change, Hs. simpl.
  by erewrite set_content_where_found.
Qed.

Lemma handle_reads st e :
  Forall (fun r => snapshot_ok r.(read_handler)) st.(reads) ->
  section_ids st.(project) = seed_ids -> st.(activeSectionId) ∈ seed_ids ->
  Forall (fun r => snapshot_ok r.(read_handler)) (handle st e).(reads).
Proof.
  intros Hr Hids Ha. destruct e; handle_cases; try done; try by apply Forall_delete.
  apply Forall_app; split; [done|]. constructor; [|done].
  by apply current_snapshot_ok.
Qed.

Lemma handle_busy st e :
  pending_ok st -> st.(isLoading) = busy_flag st.(loadingAction) ->
  snapshot_ok st.(imageHandler) -> st.(activeSectionId) ∈ seed_ids ->
  pending_ok (handle st e) /\ (handle st e).(isLoading) = busy_flag (handle st e).(loadingAction).
Proof.
  intros Hp Hb Hh Ha. unfold pending_ok in *.
  destruct e; handle_cases; first [naive_solver | destruct_and!; congruence].
Qed.

Lemma step_inv st e : app_inv st -> app_inv (step st e).
Proof.
  intros [Hids Ha He Hh Hp Hr Hb].
  destruct (rerender_fields st (handle st e)) as (Rp & Ra & Rl & Rla & _ & Rip & Rpe & Rr & _).
  assert (Hids' : section_ids (handle st e).(project) = seed_ids) by by rewrite handle_ids.
  assert (Ha' : (handle st e).(activeSectionId) ∈ seed_ids).
  { destruct (handle_active st e) as [-> | (i & s & -> & Hs & ->)]; [done|].
    rewrite <-Hids. by eapply section_id_of_lookup. }
  destruct (handle_busy st e Hp Hb Hh Ha) as [Hp' Hb'].
  unfold step. split.
  - by rewrite Rp.
  - by rewrite Ra.
  - rewrite rerender_editor. destruct (active_html_rerender st (handle st e)) as [-> _].
    case_bool_decide as Hc; [|done]. destruct Hc as [Hca Hch].
    destruct (handle_editor st e) as [-> | (html & -> & ->)].
    + by rewrite He.
    + by rewrite editor_input_html.
  - rewrite rerender_imageHandler, handle_imageHandler.
    case_bool_decide; [done|]. by apply current_snapshot_ok.
  - unfold pending_ok in *. by rewrite Rpe, Rl, Rla.
  - rewrite Rr. by apply handle_reads.
  - by rewrite Rl, Rla.
Qed.

Lemma initial_inv : app_inv initialState.
Proof.
  split; try done.
  - apply (bool_decide_unpack _). vm_compute. reflexivity.
  - eexists. split; [reflexivity|]. split; [done|].
    apply (bool_decide_unpack _). vm_compute. reflexivity.
Qed.

(** Every reachable state satisfies [app_inv], by rule induction. *)
Lemma reachable_app_inv st : reachable step initialState st -> app_inv st.
Proof.
  apply invariant_reachable; [apply initial_inv|]. intros s e. apply step_inv.
Qed.

(** C1: every reachable state of [App] satisfies the invariant: the
    section ids are those of the seed, the active section exists, the
    editor shows its content, every captured closure names an existing
    section, the busy flag is set exactly when an action is recorded, and
    a suspended handler has the busy state of its action. *)
Theorem app_invariant st : reachable step initialState st -> app_inv st.
Proof.
  apply invariant_reachable; [apply initial_inv|]. intros s e. apply step_inv.
Qed.

Lemma handle_calls st e :
  (handle st e).(calls) = st.(calls) \/
  (st.(isLoading) = false /\
   exists r q, (handle st e).(calls) = st.(calls) ++ [r] /\ (handle st e).(pending) = Some q /\
               (handle st e).(isLoading) = true).
Proof.
  destruct e; handle_cases;
    first [by left | right; split; [done|]; eexists _, _; split_and!; done].
Qed.

(** C2: the provider is called by one action at a time.  A step makes
    no provider call, or exactly one; it makes one only from an idle
    state, and the call becomes the suspended handler with the busy flag
    set; so while a call is in flight (or the busy flag is set) no event
    starts another. *)
Theorem single_flight st e :
  reachable step initialState st ->
  (step st e).(calls) = st.(calls) \/
  (st.(isLoading) = false /\ st.(pending) = None /\
   exists r q, (step st e).(calls) = st.(calls) ++ [r] /\ (step st e).(pending) = Some q /\
               (step st e).(isLoading) = true).
Proof.
  intros Hr. pose proof (inv_pending _ (reachable_app_inv st Hr)) as Hp.
  destruct (rerender_fields st (handle st e)) as (_ & _ & Rl & _ & _ & _ & Rpe & _ & Rc & _).
  unfold step. rewrite Rc, Rpe, Rl.
  destruct (handle_calls st e) as [-> | (Hl & r & q & Hc & Hq & Hl')]; [by left|].
  right. split; [done|]. split; [|eauto 10].
  unfold pending_ok in Hp. destruct (pending st); [|done]. destruct Hp as [Hl2 _]. congruence.
Qed.
(** A handler appends only requests of the three allowed shapes. *)
Lemma handle_requests st e :
  Forall request_ok st.(calls) -> Forall request_ok (handle st e).(calls).
Proof.
  intros Hc. destruct e; handle_cases; try done;
    apply Forall_app; (split; [done|]); apply Forall_singleton; unfold request_ok.
  - left. eexists. split; [done|]. apply strip_go_no_lt.
  - right; left. do 3 eexists. split_and!; [done| |apply strip_go_no_lt].
    by eapply bool_decide_eq_false_1.
  - right; right. eexists. split; [done|]. by eapply bool_decide_eq_false_1.
Qed.

(** C8: what leaves for the provider.  Every call made in a reachable
    state is a review of a text with no ['<'] (the HTML tags were
    replaced), a continuation of a section text with no ['<'] for a
    project with a non-empty title, or an image for a non-empty prompt:
    no markup of the document and no empty request is ever sent. *)
Theorem requests_markup_free st :
  reachable step initialState st -> Forall request_ok st.(calls).
Proof.
  induction 1 as [|s e _ Hs]; [by constructor|].
  destruct (rerender_fields s (handle s e)) as (_ & _ & _ & _ & _ & _ & _ & _ & Rc & _).
  unfold step. rewrite Rc. by apply handle_requests.
Qed.

(** Only [handleFinalReview] suspends a review, and it clears the
    previous one first; the review's result ends the suspension. *)
Lemma handle_review_hidden st e :
  (st.(pending) = Some PendingReview -> st.(finalReview) = JNull) ->
  (handle st e).(pending) = Some PendingReview -> (handle st e).(finalReview) = JNull.
Proof. intros Hf. destruct e; handle_cases; intros; simplify_eq/=; auto. Qed.

(** C30: no stale review is shown while a new one is computed: in every
    reachable state where a review call is in flight, the stored review
    is [null] and the modal is hidden. *)
Theorem review_pending_hidden st :
  reachable step initialState st -> st.(pending) = Some PendingReview ->
  st.(finalReview) = JNull /\ modal_view st.(finalReview) = ModalHidden.
Proof.
  intros Hr. cut (st.(pending) = Some PendingReview -> st.(finalReview) = JNull).
  { intros Hf Hp. by rewrite (Hf Hp). }
  induction Hr as [|s e _ IH]; [done|].
  destruct (rerender_fields s (handle s e)) as (_ & _ & _ & _ & Rf & _ & Rp & _).
  unfold step. rewrite Rf, Rp. by apply handle_review_hidden.
Qed.

End Invariants.

Lemma app_invariant_witness :
  reachable (@step reject_all_json) initialState
    (run (@step reject_all_json) initialState [ClickSection 3; EditorInput "<p>x</p>"]) /\
  app_inv (run (@step reject_all_json) initialState [ClickSection 3; EditorInput "<p>x</p>"]).
Proof.
  assert (Hr := reachable_run (@step reject_all_json) initialState [ClickSection 3; EditorInput "<p>x</p>"]).
  split; [exact Hr | exact (app_invariant _ Hr)].
Defined.

Lemma single_flight_witness :
  reachable (@step reject_all_json) initialState (run (@step reject_all_json) initialState [ChangeTitle "T"]) /\
  ((@step reject_all_json (run (@step reject_all_json) initialState [ChangeTitle "T"]) ClickGenerateText).(calls) =
     (run (@step reject_all_json) initialState [ChangeTitle "T"]).(calls) \/
   ((run (@step reject_all_json) initialState [ChangeTitle "T"]).(isLoading) = false /\
    (run (@step reject_all_json) initialState [ChangeTitle "T"]).(pending) = None /\
    exists r q, (@step reject_all_json (run (@step reject_all_json) initialState [ChangeTitle "T"]) ClickGenerateText).(calls) =
                (run (@step reject_all_json) initialState [ChangeTitle "T"]).(calls) ++ [r] /\
                (@step reject_all_json (run (@step reject_all_json) initialState [ChangeTitle "T"]) ClickGenerateText).(pending) = Some q /\
                (@step reject_all_json (run (@step reject_all_json) initialState [ChangeTitle "T"]) ClickGenerateText).(isLoading) = true)).
Proof.
  assert (Hr := reachable_run (@step reject_all_json) initialState [ChangeTitle "T"]).
  split; [exact Hr | exact (single_flight _ ClickGenerateText Hr)].
Defined.

Lemma requests_markup_free_witness :
  reachable (@step reject_all_json) initialState
    (run (@step reject_all_json) initialState [ChangeTitle "T"; ClickGenerateText]) /\
  Forall request_ok (run (@step reject_all_json) initialState [ChangeTitle "T"; ClickGenerateText]).(calls).
Proof.
  assert (Hr := reachable_run (@step reject_all_json) initialState [ChangeTitle "T"; ClickGenerateText]).
  split; [exact Hr | exact (requests_markup_free _ Hr)].
Defined.

Lemma review_pending_hidden_witness :
  reachable (@step reject_all_json) initialState (run (@step reject_all_json) initialState [ClickReview]) /\
  (run (@step reject_all_json) initialState [ClickReview]).(pending) = Some PendingReview /\
  modal_view (run (@step reject_all_json) initialState [ClickReview]).(finalReview) = ModalHidden.
Proof.
  assert (Hr := reachable_run (@step reject_all_json) initialState [ClickReview]).
  assert (Hp : (run (@step reject_all_json) initialState [ClickReview]).(pending) = Some PendingReview)
    by (vm_compute; reflexivity).
  split_and!; [exact Hr|exact Hp|]. exact (proj2 (review_pending_hidden _ Hr Hp)).
Defined.
