(* ===== verification/AppBehaviour.v ===== *)
(** * AppBehaviour: what the handlers of [App] do, on every branch

    - continuing the text when the user stays on the section refines the
      store contract's [appendToActiveContent] (spec 4.1);
    - the stale-closure writes: when the user switched sections while the
      text was generated, or after the image prompt last changed, the
      section of the closure is overwritten with the content of the
      section now shown, followed by the new text or figure; a file read
      delivered after a switch does the same;
    - the error paths of text and image generation: a provider error
      appends the apology text; an [undefined] text leaves the editor
      busy forever; an image generation without an image changes nothing
      but the busy state;
    - figure numbering, the file reads in flight, the requests each
      button sends, the guards of the buttons, and the spec's busy/idle
      machine with the refinement onto it.
    The review's behaviours are in [AppReview], the order of events in
    [AppInterleaving]; [run_app] and the states of the witnesses are
    shared with them. *)

From S2P Require Import Prelude Types Html Gemini Store App AppInvariants.

(** The abstract busy state of the spec. *)
Inductive BusyState := Idle | Busy (a : LoadingAction).

Inductive busy_step : BusyState -> BusyState -> Prop :=
| busy_enter a : busy_step Idle (Busy a)
| busy_exit a : busy_step (Busy a) Idle.

Definition busy_state (st : AppState) : BusyState :=
  match st.(loadingAction) with None => Idle | Some a => Busy a end.

(** The figures a list of reads adds when each is delivered into the
    section on screen: one block per non-empty data URL, with the
    markers the URL itself holds. *)
Definition read_figures (rs : list FileRead) : nat :=
  sum_list_with (fun r => if bool_decide (r.(read_result) = "") then 0
                          else S (figure_count r.(read_result))) rs.

Section Behaviour.
Context `{JsonParse}.

(** ** Shared lemmas *)

(** The editor shows the active section's content [c]. *)
Lemma active_content st :
  app_inv st -> exists s, current_section st = Some s /\ st.(editor) = Some s.(content).
Proof.
  intros Hi. destruct (current_section_ok st (inv_ids _ Hi) (inv_active _ Hi)) as (s & Hs & _).
  exists s. split; [done|]. rewrite (inv_editor _ Hi). unfold active_html. by rewrite Hs.
Qed.

(** [insertHtmlAtEnd t editor html] writes the editor's content, followed
    by [html], into the section [t], whichever section is shown. *)
Lemma insert_write st t html s :
  app_inv st -> current_section st = Some s -> t ∈ seed_ids ->
  exists u, activeSection st.(project) t = Some u /\
  activeSection (insertHtmlAtEnd t st.(editor) html st.(project)) t =
    Some (with_content u (s.(content) +:+ html)).
Proof.
  intros Hi Hs Ht. destruct (active_content st Hi) as (s' & Hs' & He).
  rewrite Hs in Hs'. injection Hs' as <-.
  rewrite <-(inv_ids _ Hi), <-activeSection_Some_iff in Ht. destruct Ht as [u Hu].
  exists u. split; [done|]. rewrite He. simpl.
  rewrite activeSection_content_change, Hu. simpl. by erewrite set_content_where_found.
Qed.

Lemma step_fields st e :
  (step st e).(project) = (handle st e).(project) /\
  (step st e).(activeSectionId) = (handle st e).(activeSectionId) /\
  (step st e).(isLoading) = (handle st e).(isLoading) /\
  (step st e).(loadingAction) = (handle st e).(loadingAction) /\
  (step st e).(finalReview) = (handle st e).(finalReview) /\
  (step st e).(pending) = (handle st e).(pending) /\
  (step st e).(calls) = (handle st e).(calls) /\
  current_section (step st e) = current_section (handle st e).
Proof.
  unfold step. destruct (rerender_fields st (handle st e)) as (? & ? & ? & ? & ? & _ & ? & _ & ? & _).
  destruct (active_html_rerender st (handle st e)) as [_ ?]. done.
Qed.

(** The text handler resumes: the project after it. *)
Lemma settle_text_project st t o text :
  st.(pending) = Some (PendingText t) -> generateText_result o = Some text ->
  (step st (ContentSettles o)).(project) =
    insertHtmlAtEnd t st.(editor) (paragraphs text) st.(project) /\
  (step st (ContentSettles o)).(activeSectionId) = st.(activeSectionId) /\
  (step st (ContentSettles o)).(isLoading) = false.
Proof.
  intros Hp Ho. destruct (step_fields st (ContentSettles o)) as (-> & -> & -> & _ & _).
  simpl. unfold resumeContent. rewrite Hp, Ho. done.
Qed.

(** The text section the suspended handler writes to exists. *)
Lemma pending_text_target st t :
  app_inv st -> st.(pending) = Some (PendingText t) -> t ∈ seed_ids.
Proof. intros Hi Hp. pose proof (inv_pending _ Hi) as Hq. unfold pending_ok in Hq. rewrite Hp in Hq. naive_solver. Qed.

(** The image handler suspended at its [await] captured an existing
    section. *)
Lemma pending_image_snapshot st h :
  app_inv st -> st.(pending) = Some (PendingImage h) -> snapshot_ok h.
Proof. intros Hi Hp. pose proof (inv_pending _ Hi) as Hq. unfold pending_ok in Hq. rewrite Hp in Hq. naive_solver. Qed.

(** The image handler resumes with a non-empty image: the project after it. *)
Lemma settle_image_project st h sec o d year :
  st.(pending) = Some (PendingImage h) -> h.(snap_section) = Some sec ->
  generateImage_result o = Some d -> d <> "" ->
  (step st (ImagesSettle o year)).(project) =
    insertHtmlAtEnd h.(snap_activeSectionId) st.(editor)
      (figure_html (figure_count sec.(content) + 1) (png_data_url d) year) st.(project) /\
  (step st (ImagesSettle o year)).(activeSectionId) = st.(activeSectionId) /\
  (step st (ImagesSettle o year)).(isLoading) = false.
Proof.
  intros Hp Hs Ho Hd. destruct (step_fields st (ImagesSettle o year)) as (-> & -> & -> & _).
  simpl. unfold resumeImages. rewrite Hp, Ho, bool_decide_false by done.
  unfold handleInsertImage. by rewrite Hs.
Qed.

(** The [i]-th file read delivers a non-empty data URL: the project
    after its [onload]. *)
Lemma upload_project st i r sec year :
  st.(reads) !! i = Some r -> r.(read_handler).(snap_section) = Some sec ->
  r.(read_result) <> "" ->
  (step st (FileLoaded i year)).(project) =
    insertHtmlAtEnd r.(read_handler).(snap_activeSectionId) st.(editor)
      (figure_html (figure_count sec.(content) + 1) r.(read_result) year) st.(project) /\
  (step st (FileLoaded i year)).(activeSectionId) = st.(activeSectionId) /\
  (step st (FileLoaded i year)).(reads) = delete i st.(reads).
Proof.
  intros Hr Hs Hd. unfold step. destruct (rerender_fields st (handle st (FileLoaded i year)))
    as (-> & -> & _ & _ & _ & _ & _ & -> & _).
  simpl. unfold fileLoaded. rewrite Hr, bool_decide_false by done.
  unfold handleInsertImage. by rewrite Hs.
Qed.

(** A write of [html] at the end of the active section, read back from
    the state after it. *)
Lemma active_after_insert st st' html :
  app_inv st ->
  st'.(project) = insertHtmlAtEnd st.(activeSectionId) st.(editor) html st.(project) ->
  st'.(activeSectionId) = st.(activeSectionId) ->
  exists c, active_html st = Some c /\ active_html st' = Some (c +:+ html).
Proof.
  intros Hi Hp Ha.
  destruct (current_section_ok st (inv_ids _ Hi) (inv_active _ Hi)) as (s & Hs & _).
  destruct (insert_write st _ html s Hi Hs (inv_active _ Hi)) as (u & Hu & Hw).
  unfold current_section in Hs. rewrite Hs in Hu. injection Hu as <-.
  exists s.(content). unfold active_html, current_section. rewrite Hp, Ha, Hs, Hw. done.
Qed.

(** ** Text generation *)

(** C4: when the user is still on the section where the text generation
    was started, the handler's completion is the store contract's
    [appendToActiveContent] of the generated paragraphs, applied to the
    live content (interim edits included), and the buttons are enabled
    again. *)
Theorem text_generation_refines_append st o text :
  reachable step initialState st ->
  st.(pending) = Some (PendingText st.(activeSectionId)) ->
  generateText_result o = Some text ->
  ((step st (ContentSettles o)).(project), (step st (ContentSettles o)).(activeSectionId)) =
    appendToActiveContent (paragraphs text) ((st.(project), st.(activeSectionId)) : EditorState) /\
  (step st (ContentSettles o)).(isLoading) = false.
Proof.
  intros Hr Hp Ho. pose proof (reachable_app_inv st Hr) as Hi.
  destruct (settle_text_project st _ o text Hp Ho) as (-> & -> & ->).
  split; [|done]. rewrite (inv_editor _ Hi). done.
Qed.

(** C5: the stale-closure write.  When the user switched to another
    section while the text was being generated, the completion writes
    into the section active at the click ([t]) the content of the section
    now shown, followed by the new paragraphs: [t]'s own content is lost,
    and the section on screen does not change. *)
Theorem stale_text_write st t o text :
  reachable step initialState st ->
  st.(pending) = Some (PendingText t) -> t <> st.(activeSectionId) ->
  generateText_result o = Some text ->
  exists shown u, current_section st = Some shown /\ activeSection st.(project) t = Some u /\
    activeSection (step st (ContentSettles o)).(project) t =
      Some (with_content u (shown.(content) +:+ paragraphs text)) /\
    current_section (step st (ContentSettles o)) = current_section st.
Proof.
  intros Hr Hp Hne Ho. pose proof (reachable_app_inv st Hr) as Hi.
  destruct (current_section_ok st (inv_ids _ Hi) (inv_active _ Hi)) as (shown & Hs & Hid).
  destruct (insert_write st t (paragraphs text) shown Hi Hs (pending_text_target st t Hi Hp))
    as (u & Hu & Hw).
  destruct (settle_text_project st t o text Hp Ho) as (Hpr & Ha & _).
  exists shown, u. split_and!; [done|done|by rewrite Hpr|].
  unfold current_section. rewrite Hpr, Ha. destruct (active_content st Hi) as (s' & Hs' & He).
  rewrite He. simpl. rewrite activeSection_content_change. fold (current_section st).
  rewrite Hs. simpl. unfold set_content_where. rewrite bool_decide_false; [done|congruence].
Qed.

(** ** Error paths of text generation *)

(** Once busy with no handler suspended, nothing leaves the busy state and
    no provider call is made. *)
Lemma stuck_step st e :
  st.(isLoading) = true -> st.(pending) = None ->
  (step st e).(isLoading) = true /\ (step st e).(pending) = None /\
  (step st e).(calls) = st.(calls).
Proof.
  intros Hl Hp. destruct (step_fields st e) as (_ & _ & -> & _ & _ & -> & -> & _).
  destruct e; handle_cases; rewrite ?Hl, ?Hp; try done; congruence.
Qed.

Lemma stuck_run st es :
  st.(isLoading) = true -> st.(pending) = None ->
  (run step st es).(isLoading) = true /\ (run step st es).(pending) = None /\
  (run step st es).(calls) = st.(calls).
Proof.
  revert st; induction es as [|e es IH]; intros st Hl Hp; [done|]. simpl.
  destruct (stuck_step st e Hl Hp) as (Hl' & Hp' & Hc).
  destruct (IH _ Hl' Hp') as (? & ? & Hc'). rewrite Hc', Hc. done.
Qed.

(** C6: when [generateText] resolves to [undefined] (a response without
    text), [newText.replace] throws after the [await]: the busy state is
    never cleared, so every AI button stays disabled for the rest of the
    session and no provider call is ever made again. *)
Theorem generateText_undefined_stuck st t o es :
  reachable step initialState st ->
  st.(pending) = Some (PendingText t) -> generateText_result o = None ->
  (run step (step st (ContentSettles o)) es).(isLoading) = true /\
  (run step (step st (ContentSettles o)) es).(calls) = st.(calls).
Proof.
  intros Hr Hp Ho. pose proof (inv_pending _ (reachable_app_inv st Hr)) as Hq.
  unfold pending_ok in Hq. rewrite Hp in Hq. destruct Hq as (Hl & _).
  destruct (step_fields st (ContentSettles o)) as (_ & _ & Hl' & _ & _ & Hp' & Hc & _).
  simpl in Hl', Hp', Hc. unfold resumeContent in Hl', Hp', Hc. rewrite Hp, Ho in Hl', Hp', Hc.
  simpl in *. destruct (stuck_run (step st (ContentSettles o)) es) as (? & _ & Hc'); [congruence|done|].
  split; [done|]. congruence.
Qed.

Lemma apology_paragraph :
  paragraphs generateText_apology =
  "<p>Desculpe, não foi possível gerar o texto no momento.</p>".
Proof. vm_compute. reflexivity. Qed.

(** C9: when the provider call of [generateText] fails, the [catch]
    returns an apology and the handler inserts it into the document: the
    active section gets the paragraph
    ["<p>Desculpe, não foi possível gerar o texto no momento.</p>"]
    appended, where the spec says nothing is inserted. *)
Theorem provider_error_inserts_apology st :
  reachable step initialState st ->
  st.(pending) = Some (PendingText st.(activeSectionId)) ->
  exists s, current_section st = Some s /\
    current_section (step st (ContentSettles ContentError)) =
      Some (with_content s (s.(content) +:+
        "<p>Desculpe, não foi possível gerar o texto no momento.</p>")).
Proof.
  intros Hr Hp. pose proof (reachable_app_inv st Hr) as Hi.
  destruct (current_section_ok st (inv_ids _ Hi) (inv_active _ Hi)) as (s & Hs & Hid).
  destruct (insert_write st _ (paragraphs generateText_apology) s Hi Hs (inv_active _ Hi))
    as (u & Hu & Hw).
  destruct (settle_text_project st _ ContentError generateText_apology Hp eq_refl)
    as (Hpr & Ha & _).
  exists s. split; [done|]. unfold current_section in *. rewrite Hpr, Ha, Hw.
  rewrite Hs in Hu. injection Hu as <-. by rewrite apology_paragraph.
Qed.

(** ** The busy/idle machine of the spec (section 4.2) *)

Lemma settle_idle_or_stuck st e :
  app_inv st ->
  (step st e).(loadingAction) = st.(loadingAction) \/
  (st.(loadingAction) = None /\ exists a, (step st e).(loadingAction) = Some a) \/
  (exists a, st.(loadingAction) = Some a) /\ (step st e).(loadingAction) = None.
Proof.
  intros Hi. pose proof (inv_busy _ Hi) as Hb. pose proof (inv_pending _ Hi) as Hp.
  unfold pending_ok, busy_flag in *.
  destruct (step_fields st e) as (_ & _ & _ & -> & _).
  destruct e; handle_cases; try (by left); try (right; left; split; [|eexists]; done);
    try (destruct (loadingAction st); [|congruence]; right; right; split; [eexists|]; done);
    first [congruence | naive_solver].
Qed.

(** C17: [App] refines the spec's busy/idle machine [Idle -> Busy(a) ->
    Idle]: every step leaves the abstract busy state unchanged, enters a
    busy state from idle, or returns from a busy state to idle; no step
    goes from one action's busy state to another's. *)
Theorem busy_machine_refinement st e :
  reachable step initialState st ->
  busy_state (step st e) = busy_state st \/ busy_step (busy_state st) (busy_state (step st e)).
Proof.
  intros Hr. unfold busy_state.
  destruct (settle_idle_or_stuck st e (reachable_app_inv st Hr))
    as [-> | [[-> (a & ->)] | [(a & ->) ->]]]; [by left | right; constructor..].
Qed.

(** C18: every call in flight ends the busy state when it settles, except
    a text generation whose result is [undefined] ([generateText_undefined_stuck]):
    the review on any outcome, the image on any outcome, the text on any
    outcome that yields a string. *)
Theorem settle_returns_idle st :
  reachable step initialState st ->
  (st.(pending) = Some PendingReview ->
     forall o, (step st (ContentSettles o)).(isLoading) = false) /\
  (forall h, st.(pending) = Some (PendingImage h) ->
     forall o year, (step st (ImagesSettle o year)).(isLoading) = false) /\
  (forall t, st.(pending) = Some (PendingText t) ->
     forall o, generateText_result o <> None -> (step st (ContentSettles o)).(isLoading) = false).
Proof.
  intros Hr. pose proof (inv_pending _ (reachable_app_inv st Hr)) as Hq. unfold pending_ok in Hq.
  split_and!.
  - intros Hp o. destruct (step_fields st (ContentSettles o)) as (_ & _ & -> & _).
    simpl. unfold resumeContent. by rewrite Hp.
  - intros h Hp o year. destruct (step_fields st (ImagesSettle o year)) as (_ & _ & -> & _).
    rewrite Hp in Hq. destruct Hq as (_ & _ & (s & Hs & _)).
    simpl. unfold resumeImages, handleInsertImage. rewrite Hp, Hs.
    destruct (generateImage_result o); [case_bool_decide|]; done.
  - intros t Hp o Ho. destruct (generateText_result o) as [text|] eqn:Ht; [|done].
    by destruct (settle_text_project st t o text Hp Ht) as (_ & _ & ->).
Qed.

(** C25: an image generation that yields no image leaves the document as
    it was.  When the provider call fails, returns no image list, an
    empty one, an image without data or empty data ([if (imageData)] is
    false), the handler only clears the busy state: the project, the
    active section and the log of calls are unchanged and the buttons are
    enabled again. *)
Theorem image_no_result_unchanged st h o year :
  st.(pending) = Some (PendingImage h) ->
  generateImage_result o = None \/ generateImage_result o = Some "" ->
  (step st (ImagesSettle o year)).(project) = st.(project) /\
  (step st (ImagesSettle o year)).(activeSectionId) = st.(activeSectionId) /\
  (step st (ImagesSettle o year)).(calls) = st.(calls) /\
  (step st (ImagesSettle o year)).(pending) = None /\
  (step st (ImagesSettle o year)).(isLoading) = false.
Proof.
  intros Hp Ho. destruct (step_fields st (ImagesSettle o year)) as (-> & -> & -> & _ & _ & -> & -> & _).
  simpl. unfold resumeImages. rewrite Hp.
  destruct Ho as [-> | ->]; [done|]. by rewrite bool_decide_true.
Qed.

(** ** Figures *)

(** C19: figure numbering, for both sources of an image.  When the
    closure that inserts a figure is the one of the current render (the
    user stayed on the section and did not edit it in between), an
    uploaded file ([reader.onload]) and a generated image both append to
    the active section, in the editor and the document, a figure numbered
    one more than the figures already there, and such a figure block adds
    exactly one marker: the next figure is numbered one higher. *)
Theorem figure_numbering st year :
  reachable step initialState st ->
  (forall i r, st.(reads) !! i = Some r -> r.(read_handler) = current_snapshot st ->
     r.(read_result) <> "" ->
     exists c, active_html st = Some c /\
       active_html (step st (FileLoaded i year)) =
         Some (c +:+ figure_html (figure_count c + 1) r.(read_result) year)) /\
  (forall o d, st.(pending) = Some (PendingImage (current_snapshot st)) ->
     generateImage_result o = Some d -> d <> "" ->
     exists c, active_html st = Some c /\
       active_html (step st (ImagesSettle o year)) =
         Some (c +:+ figure_html (figure_count c + 1) (png_data_url d) year)) /\
  (forall c url, figure_count (c +:+ figure_html (figure_count c + 1) url year) =
                 S (figure_count c + figure_count url)).
Proof.
  intros Hr. pose proof (reachable_app_inv st Hr) as Hi.
  destruct (current_section_ok st (inv_ids _ Hi) (inv_active _ Hi)) as (s & Hs & _).
  assert (Hc : active_html st = Some s.(content)) by (unfold active_html; by rewrite Hs).
  split_and!.
  - intros i r Hri Hh Hd.
    destruct (upload_project st i r s year Hri ltac:(by rewrite Hh) Hd) as (Hp & Ha & _).
    rewrite Hh in Hp. destruct (active_after_insert st _ _ Hi Hp Ha) as (c & Hc' & Hw).
    rewrite Hc in Hc'. injection Hc' as <-. by exists s.(content).
  - intros o d Hp Ho Hd.
    destruct (settle_image_project st _ s o d year Hp Hs Ho Hd) as (Hpr & Ha & _).
    destruct (active_after_insert st _ _ Hi Hpr Ha) as (c & Hc' & Hw).
    rewrite Hc in Hc'. injection Hc' as <-. by exists s.(content).
  - intros c url. apply figure_count_insert.
Qed.

(** C7: the image handler's write, on every interleaving.  A generated
    image is numbered from the content of the section captured when the
    memoised [handleInsertImage] was last created ([sec]), and written
    into that section ([u], by id) as the content of the section now
    shown followed by the figure.  When the user switched sections after
    typing the prompt, the figure lands in the earlier section, whose own
    text is replaced by the shown section's. *)
Theorem image_generation_write st h o d year :
  reachable step initialState st ->
  st.(pending) = Some (PendingImage h) ->
  generateImage_result o = Some d -> d <> "" ->
  exists sec shown u, h.(snap_section) = Some sec /\ current_section st = Some shown /\
    activeSection st.(project) h.(snap_activeSectionId) = Some u /\
    activeSection (step st (ImagesSettle o year)).(project) h.(snap_activeSectionId) =
      Some (with_content u (shown.(content) +:+
              figure_html (figure_count sec.(content) + 1) (png_data_url d) year)) /\
    (step st (ImagesSettle o year)).(isLoading) = false.
Proof.
  intros Hr Hp Ho Hd. pose proof (reachable_app_inv st Hr) as Hi.
  destruct (pending_image_snapshot st h Hi Hp) as (sec & Hsec & Hid & Hin).
  destruct (current_section_ok st (inv_ids _ Hi) (inv_active _ Hi)) as (shown & Hs & _).
  rewrite Hid in Hin.
  destruct (insert_write st _ (figure_html (figure_count sec.(content) + 1) (png_data_url d) year)
              shown Hi Hs Hin) as (u & Hu & Hw).
  destruct (settle_image_project st h sec o d year Hp Hsec Ho Hd) as (Hpr & _ & Hl).
  exists sec, shown, u. rewrite Hpr. done.
Qed.

(** C21: the upload's write, on every interleaving.  A file read started
    on one render and delivered later is numbered from the section that
    render showed and written into that section, on top of the content
    the editor shows when the read completes; the read leaves the set of
    reads in flight. *)
Theorem upload_write st i r year :
  reachable step initialState st ->
  st.(reads) !! i = Some r -> r.(read_result) <> "" ->
  exists sec shown u, r.(read_handler).(snap_section) = Some sec /\
    current_section st = Some shown /\
    activeSection st.(project) r.(read_handler).(snap_activeSectionId) = Some u /\
    activeSection (step st (FileLoaded i year)).(project) r.(read_handler).(snap_activeSectionId) =
      Some (with_content u (shown.(content) +:+
              figure_html (figure_count sec.(content) + 1) r.(read_result) year)) /\
    (step st (FileLoaded i year)).(reads) = delete i st.(reads).
Proof.
  intros Hr Hri Hd. pose proof (reachable_app_inv st Hr) as Hi.
  destruct (Forall_lookup_1 _ _ _ _ (inv_reads _ Hi) Hri) as (sec & Hsec & Hid & Hin).
  destruct (current_section_ok st (inv_ids _ Hi) (inv_active _ Hi)) as (shown & Hs & _).
  rewrite Hid in Hin.
  destruct (insert_write st _ (figure_html (figure_count sec.(content) + 1) r.(read_result) year)
              shown Hi Hs Hin) as (u & Hu & Hw).
  destruct (upload_project st i r sec year Hri Hsec Hd) as (Hpr & _ & Hrd).
  exists sec, shown, u. rewrite Hpr. done.
Qed.

(** A file read whose closure names the section on screen completes:
    the figure follows the live content. *)
Lemma figure_lands st i r sec year :
  reachable step initialState st ->
  st.(reads) !! i = Some r -> r.(read_handler).(snap_activeSectionId) = st.(activeSectionId) ->
  r.(read_handler).(snap_section) = Some sec -> r.(read_result) <> "" ->
  exists c, active_html st = Some c /\
    active_html (step st (FileLoaded i year)) =
      Some (c +:+ figure_html (figure_count sec.(content) + 1) r.(read_result) year) /\
    (step st (FileLoaded i year)).(activeSectionId) = st.(activeSectionId).
Proof.
  intros Hr Hri Ha Hs Hd. destruct (upload_project st i r sec year Hri Hs Hd) as (Hpr & Ha' & _).
  rewrite Ha in Hpr.
  destruct (active_after_insert st _ _ (reachable_app_inv st Hr) Hpr Ha') as (c & Hc & Hc').
  by exists c.
Qed.

(** Delivering the oldest read removes it from the reads in flight and
    leaves the busy state and the active section alone, whatever the
    read carries. *)
Lemma deliver_oldest st year :
  (step st (FileLoaded 0 year)).(reads) = tail st.(reads) /\
  (step st (FileLoaded 0 year)).(pending) = st.(pending) /\
  (step st (FileLoaded 0 year)).(isLoading) = st.(isLoading) /\
  (step st (FileLoaded 0 year)).(activeSectionId) = st.(activeSectionId).
Proof.
  unfold step. destruct (rerender_fields st (handle st (FileLoaded 0 year)))
    as (_ & -> & -> & _ & _ & _ & -> & -> & _).
  simpl. unfold fileLoaded. destruct (reads st) as [|r rs] eqn:E; simpl; [by rewrite E|].
  unfold handleInsertImage. by repeat (case_match; simplify_eq/=).
Qed.

(** Delivering the oldest read, captured on the section on screen: an
    empty read leaves the content, any other appends its figure. *)
Lemma deliver_figures st r rs year :
  reachable step initialState st -> st.(reads) = r :: rs ->
  r.(read_handler).(snap_activeSectionId) = st.(activeSectionId) ->
  exists c c1, active_html st = Some c /\ active_html (step st (FileLoaded 0 year)) = Some c1 /\
    figure_count c1 = figure_count c + read_figures [r].
Proof.
  intros Hr Hrs Ha. pose proof (reachable_app_inv st Hr) as Hi.
  destruct (active_content st Hi) as (s & Hs & _).
  assert (Hc : active_html st = Some s.(content)) by (unfold active_html; by rewrite Hs).
  unfold read_figures. cbn [sum_list_with]. case_bool_decide as Hd.
  - exists s.(content), s.(content). split_and!; [done| |lia].
    destruct (step_fields st (FileLoaded 0 year)) as (_ & _ & _ & _ & _ & _ & _ & Hcs).
    unfold active_html. rewrite Hcs. simpl. unfold fileLoaded. rewrite Hrs. simpl.
    rewrite bool_decide_true by done. done.
  - pose proof (inv_reads _ Hi) as Hok. rewrite Hrs in Hok. apply Forall_cons in Hok as [(sec & Hsec & _) _].
    destruct (figure_lands st 0 r sec year Hr) as (c & Hc' & Hw & _); [by rewrite Hrs|done|done|done|].
    exists c, (c +:+ figure_html (figure_count sec.(content) + 1) r.(read_result) year).
    split_and!; [done|done|]. rewrite figure_count_insert. lia.
Qed.

(** C22: the uploads in flight all complete, and each one lands.
    Delivering the oldest read once per read in flight empties the
    reads, in every reachable state, busy or not, and leaves the busy
    state and the suspended handler as they were (file reads never wait
    for, nor disturb, a provider call); when the reads were all started
    on the section on screen, its content then holds one more figure per
    non-empty read. *)
Theorem file_reads_drain st year :
  reachable step initialState st ->
  let st' := run step st (repeat (FileLoaded 0 year) (length st.(reads))) in
  st'.(reads) = [] /\ st'.(pending) = st.(pending) /\ st'.(isLoading) = st.(isLoading) /\
  (Forall (fun r => r.(read_handler).(snap_activeSectionId) = st.(activeSectionId)) st.(reads) ->
   exists c c', active_html st = Some c /\ active_html st' = Some c' /\
     figure_count c' = figure_count c + read_figures st.(reads)).
Proof.
  remember (length st.(reads)) as n eqn:Hn. revert st Hn.
  induction n as [|n IH]; intros st Hn Hr; simpl.
  - destruct (reads st) as [|r rs] eqn:E; [|simpl in Hn; lia]. split_and!; [done..|]. intros _.
    destruct (active_content st (reachable_app_inv st Hr)) as (s & Hs & _).
    exists s.(content), s.(content). unfold active_html. rewrite Hs. split_and!; [done|done|].
    cbn. lia.
  - destruct (reads st) as [|r rs] eqn:E; [simpl in Hn; lia|].
    destruct (deliver_oldest st year) as (Hr1 & Hp & Hl & Ha). rewrite E in Hr1. simpl in Hr1.
    destruct (IH (step st (FileLoaded 0 year))) as (H1 & H2 & H3 & H4);
      [rewrite Hr1; simpl in Hn; lia | by apply reach_step |].
    split_and!; [done | by rewrite H2 | by rewrite H3 |].
    intros Hf. apply Forall_cons in Hf as [Hf1 Hfs].
    destruct (deliver_figures st r rs year Hr E Hf1) as (c & c1 & Hc & Hc1 & Hcount).
    destruct H4 as (c1' & c' & Hc1' & Hc' & Hcount'); [by rewrite Hr1, Ha|].
    rewrite Hc1 in Hc1'. injection Hc1' as <-.
    exists c, c'. split_and!; [done|done|]. rewrite Hr1 in Hcount'.
    unfold read_figures in *. cbn [sum_list_with] in *. lia.
Qed.

(** ** What is sent to the provider *)

(** C10: the requests the three AI buttons send from an idle state.  The
    review sends the [reviewSchema] request with the stripped text of
    the textual sections; text continuation (with a title) sends the
    continuation prompt with the shown section's title, the project title
    and the section's stripped content; image generation (with a prompt)
    sends one 1:1 PNG request for the prefixed description.  Each click
    makes exactly that one call. *)
Theorem requests_sent st :
  reachable step initialState st -> st.(isLoading) = false ->
  (step st ClickReview).(calls) =
    st.(calls) ++ [conductFinalReview_request (strip_tags (full_text st.(project).(sections)))] /\
  (st.(project).(project_title) <> "" ->
   exists s, current_section st = Some s /\
     (step st ClickGenerateText).(calls) =
       st.(calls) ++ [generateText_request
                        (text_prompt s.(title) st.(project).(project_title) (strip_tags s.(content)))]) /\
  (st.(imagePrompt) <> "" ->
   (step st ClickGenerateImage).(calls) =
     st.(calls) ++ [GenerateImages "imagen-4.0-generate-001" (image_prompt st.(imagePrompt)) 1 "image/png" "1:1"]).
Proof.
  intros Hr Hl. pose proof (reachable_app_inv st Hr) as Hi.
  destruct (current_section_ok st (inv_ids _ Hi) (inv_active _ Hi)) as (s & Hs & _).
  split_and!.
  - destruct (step_fields st ClickReview) as (_ & _ & _ & _ & _ & _ & -> & _). simpl. by rewrite Hl.
  - intros Ht. exists s. split; [done|].
    destruct (step_fields st ClickGenerateText) as (_ & _ & _ & _ & _ & _ & -> & _). simpl.
    rewrite Hl, bool_decide_false by done. simpl. unfold handleGenerateText.
    rewrite bool_decide_false by done. by rewrite Hs.
  - intros Hp. destruct (step_fields st ClickGenerateImage) as (_ & _ & _ & _ & _ & _ & -> & _). simpl.
    rewrite Hl. unfold handleGenerateImage. by rewrite bool_decide_false.
Qed.

(** ** Guards *)

Lemma rerender_same st : rerender st st = st.
Proof. unfold rerender. by rewrite !bool_decide_true. Qed.

(** C33: with an empty project title, the "Continuar Escrita" button is
    disabled, and the handler itself returns before any provider call:
    the state is unchanged. *)
Theorem empty_title_no_call st :
  st.(project).(project_title) = "" ->
  step st ClickGenerateText = st /\ handleGenerateText st = st.
Proof.
  intros Ht. unfold step, handle, handleGenerateText. rewrite Ht, bool_decide_true, orb_true_r by done.
  split; [apply rerender_same | done].
Qed.

(** C3: while the busy flag is set, the four AI-related buttons (review,
    continue text, create image, upload) are disabled: a click changes
    nothing, so the call in flight and its result are unaffected. *)
Theorem busy_clicks_no_effect st e :
  st.(isLoading) = true ->
  e ∈ [ClickReview; ClickGenerateText; ClickGenerateImage; ClickUpload] ->
  step st e = st.
Proof.
  intros Hl He. unfold step.
  repeat (apply elem_of_cons in He as [-> | He]; [unfold handle; rewrite Hl; apply rerender_same|]).
  by apply elem_of_nil in He.
Qed.
(** A sidebar click keeps the project and selects the clicked section,
    if the index names one. *)
Lemma click_section_fields st i :
  (step st (ClickSection i)).(project) = st.(project) /\
  (step st (ClickSection i)).(activeSectionId) =
    default st.(activeSectionId) (id <$> st.(project).(sections) !! i).
Proof. destruct (step_fields st (ClickSection i)) as (-> & -> & _). simpl. by case_match. Qed.

(** C14: text typed into the editor survives navigation.  After typing
    [h] into the active section of a reachable state, clicking any
    sidebar entry and then the entry of the edited section brings back
    [h]: the section holds it and the editor shows it. *)
Theorem typed_text_survives_navigation st h i k s :
  reachable step initialState st ->
  st.(project).(sections) !! k = Some s -> s.(id) = st.(activeSectionId) ->
  let st3 := step (step (step st (EditorInput h)) (ClickSection i)) (ClickSection k) in
  active_html st3 = Some h /\ st3.(editor) = Some h.
Proof.
  intros Hr Hk Hid st3. pose proof (reachable_app_inv st Hr) as Hi.
  assert (Hr3 : reachable step initialState st3) by (by repeat apply reach_step).
  rewrite (inv_editor _ (reachable_app_inv _ Hr3)). cut (active_html st3 = Some h); [done|].
  rewrite <-(editor_input_html st h (inv_ids _ Hi) (inv_active _ Hi)).
  destruct (step_fields st (EditorInput h)) as (Hp1 & Ha1 & _).
  destruct (click_section_fields (step st (EditorInput h)) i) as [Hp2 _].
  destruct (click_section_fields (step (step st (EditorInput h)) (ClickSection i)) k) as [Hp3 Ha3].
  assert (Hp : (handle st (EditorInput h)).(project) =
                handleSectionContentChange st.(activeSectionId) h st.(project)) by done.
  unfold active_html, current_section. subst st3. rewrite Hp3, Ha3, Hp2, Hp1, Hp.
  rewrite lookup_content_change, Hk. cbn [fmap option_fmap option_map default].
  rewrite set_content_where_id, Hid. done.
Qed.

End Behaviour.

(** * Evaluated runs *)

Definition run_app (es : list Event) : AppState := run (@step reject_all_json) initialState es.

(** ** Witnesses *)

Definition text_started : AppState := run_app [ChangeTitle "T"; ClickGenerateText].

Lemma text_generation_refines_append_witness :
  reachable (@step reject_all_json) initialState text_started /\
  text_started.(pending) = Some (PendingText text_started.(activeSectionId)) /\
  ((@step reject_all_json text_started (ContentSettles (ContentResponse (Some "X")))).(project),
   (@step reject_all_json text_started (ContentSettles (ContentResponse (Some "X")))).(activeSectionId)) =
    appendToActiveContent (paragraphs "X") ((text_started.(project), text_started.(activeSectionId)) : EditorState).
Proof.
  assert (Hr : reachable (@step reject_all_json) initialState text_started) by apply reachable_run.
  assert (Hp : text_started.(pending) = Some (PendingText text_started.(activeSectionId)))
    by (vm_compute; reflexivity).
  split; [exact Hr|]. split; [exact Hp|].
  exact (proj1 (text_generation_refines_append _ (ContentResponse (Some "X")) "X" Hr Hp eq_refl)).
Defined.

Definition text_switched : AppState := run_app [ChangeTitle "T"; ClickGenerateText; ClickSection 3].

Lemma stale_text_write_witness :
  reachable (@step reject_all_json) initialState text_switched /\
  text_switched.(pending) = Some (PendingText "s3") /\ "s3" <> text_switched.(activeSectionId) /\
  exists shown u, current_section text_switched = Some shown /\
    activeSection text_switched.(project) "s3" = Some u /\
    activeSection (@step reject_all_json text_switched (ContentSettles (ContentResponse (Some "X")))).(project) "s3" =
      Some (with_content u (shown.(content) +:+ paragraphs "X")) /\
    current_section (@step reject_all_json text_switched (ContentSettles (ContentResponse (Some "X")))) =
      current_section text_switched.
Proof.
  assert (Hr : reachable (@step reject_all_json) initialState text_switched) by apply reachable_run.
  assert (Hp : text_switched.(pending) = Some (PendingText "s3")) by (vm_compute; reflexivity).
  assert (Hne : "s3" <> text_switched.(activeSectionId)) by (vm_compute; discriminate).
  split; [exact Hr|]. split; [exact Hp|]. split; [exact Hne|].
  exact (stale_text_write _ _ (ContentResponse (Some "X")) "X" Hr Hp Hne eq_refl).
Defined.

Lemma generateText_undefined_stuck_witness :
  reachable (@step reject_all_json) initialState text_started /\
  text_started.(pending) = Some (PendingText "s3") /\
  (run (@step reject_all_json) (@step reject_all_json text_started (ContentSettles (ContentResponse None)))
       [ClickReview; ClickGenerateImage]).(isLoading) = true.
Proof.
  assert (Hr : reachable (@step reject_all_json) initialState text_started) by apply reachable_run.
  assert (Hp : text_started.(pending) = Some (PendingText "s3")) by (vm_compute; reflexivity).
  split; [exact Hr|]. split; [exact Hp|].
  exact (proj1 (generateText_undefined_stuck _ _ (ContentResponse None) [ClickReview; ClickGenerateImage] Hr Hp eq_refl)).
Defined.

Lemma provider_error_inserts_apology_witness :
  reachable (@step reject_all_json) initialState text_started /\
  text_started.(pending) = Some (PendingText text_started.(activeSectionId)) /\
  exists s, current_section text_started = Some s /\
    current_section (@step reject_all_json text_started (ContentSettles ContentError)) =
      Some (with_content s (s.(content) +:+
        "<p>Desculpe, não foi possível gerar o texto no momento.</p>")).
Proof.
  assert (Hr : reachable (@step reject_all_json) initialState text_started) by apply reachable_run.
  assert (Hp : text_started.(pending) = Some (PendingText text_started.(activeSectionId)))
    by (vm_compute; reflexivity).
  split; [exact Hr|]. split; [exact Hp|]. exact (provider_error_inserts_apology _ Hr Hp).
Defined.

Lemma busy_machine_refinement_witness :
  busy_state (@step reject_all_json initialState ClickReview) = busy_state initialState \/
  busy_step (busy_state initialState) (busy_state (@step reject_all_json initialState ClickReview)).
Proof. exact (busy_machine_refinement _ ClickReview (reach_init _ _)). Defined.

Definition review_started : AppState := run_app [ClickReview].

Lemma settle_returns_idle_witness :
  reachable (@step reject_all_json) initialState review_started /\
  review_started.(pending) = Some PendingReview /\
  (@step reject_all_json review_started (ContentSettles ContentError)).(isLoading) = false.
Proof.
  assert (Hr : reachable (@step reject_all_json) initialState review_started) by apply reachable_run.
  assert (Hp : review_started.(pending) = Some PendingReview) by (vm_compute; reflexivity).
  split; [exact Hr|]. split; [exact Hp|].
  exact (proj1 (settle_returns_idle _ Hr) Hp ContentError).
Defined.

Definition upload_started : AppState :=
  run_app [ClickUpload; SelectFile (Some "data:image/png;base64,QUJD")].

Lemma figure_numbering_witness :
  reachable (@step reject_all_json) initialState upload_started /\
  exists c, active_html upload_started = Some c /\
    active_html (@step reject_all_json upload_started (FileLoaded 0 2025)) =
      Some (c +:+ figure_html (figure_count c + 1) "data:image/png;base64,QUJD" 2025).
Proof.
  assert (Hr : reachable (@step reject_all_json) initialState upload_started) by apply reachable_run.
  split; [exact Hr|].
  refine (proj1 (figure_numbering upload_started 2025 Hr) 0
            (mkFileRead (current_snapshot upload_started) "data:image/png;base64,QUJD")
            _ _ _); [vm_compute; reflexivity | reflexivity | discriminate].
Defined.

Definition upload_switched : AppState :=
  run_app [ClickUpload; SelectFile (Some "data:image/png;base64,QUJD"); ClickSection 3].

Lemma upload_write_witness :
  reachable (@step reject_all_json) initialState upload_switched /\
  exists r, upload_switched.(reads) !! 0 = Some r /\
  exists sec shown u, r.(read_handler).(snap_section) = Some sec /\
    current_section upload_switched = Some shown /\
    activeSection upload_switched.(project) r.(read_handler).(snap_activeSectionId) = Some u /\
    activeSection (@step reject_all_json upload_switched (FileLoaded 0 2025)).(project)
                  r.(read_handler).(snap_activeSectionId) =
      Some (with_content u (shown.(content) +:+
              figure_html (figure_count sec.(content) + 1) r.(read_result) 2025)) /\
    (@step reject_all_json upload_switched (FileLoaded 0 2025)).(reads) = delete 0 upload_switched.(reads).
Proof.
  assert (Hr : reachable (@step reject_all_json) initialState upload_switched) by apply reachable_run.
  split; [exact Hr|]. eexists. split; [vm_compute; reflexivity|].
  apply upload_write; [exact Hr | vm_compute; reflexivity | discriminate].
Defined.

Definition image_switched : AppState :=
  run_app [ChangeImagePrompt "x"; ClickSection 3; ClickGenerateImage].

Lemma image_generation_write_witness :
  reachable (@step reject_all_json) initialState image_switched /\
  exists h, image_switched.(pending) = Some (PendingImage h) /\
  exists sec shown u, h.(snap_section) = Some sec /\ current_section image_switched = Some shown /\
    activeSection image_switched.(project) h.(snap_activeSectionId) = Some u /\
    activeSection (@step reject_all_json image_switched
                     (ImagesSettle (ImagesResponse (Some [mkGeneratedImage (Some (mkImage (Some "QUJD")))])) 2025)).(project)
                  h.(snap_activeSectionId) =
      Some (with_content u (shown.(content) +:+
              figure_html (figure_count sec.(content) + 1) (png_data_url "QUJD") 2025)) /\
    (@step reject_all_json image_switched
       (ImagesSettle (ImagesResponse (Some [mkGeneratedImage (Some (mkImage (Some "QUJD")))])) 2025)).(isLoading) = false.
Proof.
  assert (Hr : reachable (@step reject_all_json) initialState image_switched) by apply reachable_run.
  split; [exact Hr|]. eexists. split; [vm_compute; reflexivity|].
  apply image_generation_write; [exact Hr | vm_compute; reflexivity | reflexivity | discriminate].
Defined.

Lemma empty_title_no_call_witness :
  initialState.(project).(project_title) = "" /\
  @step reject_all_json initialState ClickGenerateText = initialState.
Proof.
  assert (Ht : initialState.(project).(project_title) = "") by reflexivity.
  split; [exact Ht | exact (proj1 (empty_title_no_call _ Ht))].
Defined.

Lemma busy_clicks_no_effect_witness :
  text_started.(isLoading) = true /\
  ClickReview ∈ [ClickReview; ClickGenerateText; ClickGenerateImage; ClickUpload] /\
  @step reject_all_json text_started ClickReview = text_started.
Proof.
  assert (Hl : text_started.(isLoading) = true) by (vm_compute; reflexivity).
  assert (He : ClickReview ∈ [ClickReview; ClickGenerateText; ClickGenerateImage; ClickUpload])
    by (left).
  split; [exact Hl|]. split; [exact He|]. exact (busy_clicks_no_effect _ _ Hl He).
Defined.

Lemma requests_sent_witness :
  reachable (@step reject_all_json) initialState (run_app [ChangeTitle "T"; ChangeImagePrompt "x"]) /\
  (run_app [ChangeTitle "T"; ChangeImagePrompt "x"]).(isLoading) = false /\
  (@step reject_all_json (run_app [ChangeTitle "T"; ChangeImagePrompt "x"]) ClickGenerateImage).(calls) =
    (run_app [ChangeTitle "T"; ChangeImagePrompt "x"]).(calls) ++
      [GenerateImages "imagen-4.0-generate-001" (image_prompt "x") 1 "image/png" "1:1"].
Proof.
  assert (Hr := reachable_run (@step reject_all_json) initialState [ChangeTitle "T"; ChangeImagePrompt "x"]).
  assert (Hl : (run_app [ChangeTitle "T"; ChangeImagePrompt "x"]).(isLoading) = false) by reflexivity.
  split_and!; [exact Hr|exact Hl|].
  apply (requests_sent _ Hr Hl). vm_compute. discriminate.
Defined.

Lemma typed_text_survives_navigation_witness :
  reachable (@step reject_all_json) initialState (run_app [ClickSection 3]) /\
  active_html (@step reject_all_json (@step reject_all_json (@step reject_all_json (run_app [ClickSection 3])
    (EditorInput "<p>x</p>")) (ClickSection 0)) (ClickSection 3)) = Some "<p>x</p>".
Proof.
  assert (Hr := reachable_run (@step reject_all_json) initialState [ClickSection 3]).
  split; [exact Hr|].
  exact (proj1 (typed_text_survives_navigation _ "<p>x</p>" 0 3 _ Hr eq_refl eq_refl)).
Defined.

Lemma image_no_result_unchanged_witness :
  image_switched.(pending) = Some (PendingImage image_switched.(imageHandler)) /\
  (@step reject_all_json image_switched (ImagesSettle (ImagesResponse (Some [])) 2025)).(project) =
    image_switched.(project).
Proof.
  assert (Hp : image_switched.(pending) = Some (PendingImage image_switched.(imageHandler)))
    by (vm_compute; reflexivity).
  split; [exact Hp|].
  exact (proj1 (image_no_result_unchanged _ _ (ImagesResponse (Some [])) 2025 Hp (or_introl eq_refl))).
Defined.

Lemma file_reads_drain_witness :
  reachable (@step reject_all_json) initialState upload_started /\
  exists c c', active_html upload_started = Some c /\
    active_html (run (@step reject_all_json) upload_started
                   (repeat (FileLoaded 0 2025) (length upload_started.(reads)))) = Some c' /\
    figure_count c' = figure_count c + read_figures upload_started.(reads).
Proof.
  assert (Hr : reachable (@step reject_all_json) initialState upload_started) by apply reachable_run.
  split; [exact Hr|].
  apply (file_reads_drain upload_started 2025 Hr).
  apply (bool_decide_unpack _). vm_compute. reflexivity.
Defined.
