(* ===== verification/AppReview.v ===== *)
(** * AppReview: the final review, from the provider's reply to the modal

    [handleFinalReview] resumes with [conductFinalReview]'s value
    ([resumeContent] on [PendingReview]): the success path (a reply that
    parses to a review of the requested shape is shown with its eight
    fields), the error paths (a failed call, a reply without text or a
    text [JSON.parse] refuses give [null], the modal stays hidden and the
    document is untouched), and the unchecked cast ([as FinalReview]): a
    JSON value of another shape is stored and crashes the modal.  Closing
    the modal sets the review to [null] and changes nothing else.  The
    last group uses the concrete [JSON.parse] of [Json]: the JSON text of
    a review is shown end to end, and a reply in a Markdown code fence
    gives no review. *)

From S2P Require Import Prelude Types Html Gemini Json Store App ReviewModal AppInvariants AppBehaviour.

Section Review.
Context `{JsonParse}.

(** ** The final review *)

(** The review handler resumes with no review: the provider call failed,
    the response has no text, or [JSON.parse] refuses the trimmed text. *)
Lemma settle_review_absent st o :
  st.(pending) = Some PendingReview ->
  (o = ContentError \/ o = ContentResponse None \/
   exists text, o = ContentResponse (Some text) /\ JSON_parse (js_trim text) = None) ->
  (step st (ContentSettles o)).(finalReview) = JNull /\
  (step st (ContentSettles o)).(project) = st.(project) /\
  (step st (ContentSettles o)).(isLoading) = false.
Proof.
  intros Hp Ho. destruct (step_fields st (ContentSettles o)) as (-> & _ & -> & _ & -> & _).
  simpl. unfold resumeContent. rewrite Hp. simpl.
  destruct Ho as [-> | [-> | (text & -> & Hj)]]; simpl; [done|done|]. by rewrite Hj.
Qed.

(** The review handler resumes with a text that [JSON.parse] reads
    after trimming: the value is stored and the buttons are enabled. *)
Lemma settle_review st text v :
  st.(pending) = Some PendingReview -> JSON_parse (js_trim text) = Some v ->
  (step st (ContentSettles (ContentResponse (Some text)))).(finalReview) = v /\
  (step st (ContentSettles (ContentResponse (Some text)))).(isLoading) = false.
Proof.
  intros Hp Hj.
  destruct (step_fields st (ContentSettles (ContentResponse (Some text)))) as (_ & _ & -> & _ & -> & _).
  simpl. unfold resumeContent. rewrite Hp. simpl. by rewrite Hj.
Qed.

(** C24: a review whose provider call fails, whose response has no text,
    or whose text is not JSON resolves to [null]: the review is absent
    (the modal stays hidden), the document is untouched and the buttons
    are enabled again. *)
Theorem review_malformed_absent st o :
  reachable step initialState st ->
  st.(pending) = Some PendingReview ->
  (o = ContentError \/ o = ContentResponse None \/
   exists text, o = ContentResponse (Some text) /\ JSON_parse (js_trim text) = None) ->
  (step st (ContentSettles o)).(finalReview) = JNull /\
  modal_view (step st (ContentSettles o)).(finalReview) = ModalHidden /\
  (step st (ContentSettles o)).(project) = st.(project) /\
  (step st (ContentSettles o)).(isLoading) = false.
Proof.
  intros _ Hp Ho. destruct (settle_review_absent st o Hp Ho) as (-> & -> & ->). done.
Qed.

(** C27: the success path of the review: a response whose trimmed text
    parses to a review of the requested shape is stored, the modal shows
    its eight fields in order, and the buttons are enabled again. *)
Theorem review_shown st text r :
  reachable step initialState st ->
  st.(pending) = Some PendingReview ->
  JSON_parse (js_trim text) = Some (review_json r) ->
  (step st (ContentSettles (ContentResponse (Some text)))).(finalReview) = review_json r /\
  modal_view (step st (ContentSettles (ContentResponse (Some text)))).(finalReview) =
    ModalShows (map (fun v => Some (JString v)) (review_fields r)) /\
  (step st (ContentSettles (ContentResponse (Some text)))).(isLoading) = false.
Proof.
  intros _ Hp Hj. destruct (settle_review st text _ Hp Hj) as [-> ->].
  by rewrite modal_view_review_json.
Qed.

(** C31: a response that is valid JSON but not a [FinalReview] (here an
    object without [feedback]) is stored as the review, since the cast
    [as FinalReview] checks nothing; the modal is then shown and its
    render throws reading [finalReview.feedback.abntCompliance]. *)
Theorem review_wrong_shape_crashes st text fields :
  reachable step initialState st ->
  st.(pending) = Some PendingReview ->
  JSON_parse (js_trim text) = Some (JObject fields) ->
  lookup_last "feedback" fields = None ->
  (step st (ContentSettles (ContentResponse (Some text)))).(finalReview) = JObject fields /\
  modal_view (step st (ContentSettles (ContentResponse (Some text)))).(finalReview) = ModalCrash.
Proof.
  intros _ Hp Hj Hf.
  destruct (step_fields st (ContentSettles (ContentResponse (Some text)))) as (_ & _ & _ & _ & -> & _).
  simpl. unfold resumeContent. rewrite Hp. simpl. rewrite Hj.
  split; [done|]. unfold modal_view, read_path. simpl. by rewrite Hf.
Qed.

(** C23: closing the review (the overlay or the close button,
    [setFinalReview(null)], lines 232 and 236) hides the modal and
    changes nothing else: the step is exactly the review set to [null]. *)
Theorem close_review_hides st :
  modal_view st.(finalReview) <> ModalHidden ->
  step st CloseReview = set_finalReview JNull st /\
  modal_view (step st CloseReview).(finalReview) = ModalHidden.
Proof.
  intros Hm. assert (Ht : truthy st.(finalReview) = true).
  { unfold modal_view in Hm. by destruct (truthy st.(finalReview)). }
  assert (Hs : step st CloseReview = set_finalReview JNull st).
  { unfold step, handle. rewrite Ht. by apply rerender_unchanged. }
  split; [done|]. by rewrite Hs.
Qed.

End Review.

(** ** The review, end to end, with the concrete [JSON.parse] *)

(** C26: a reply in a Markdown code fence gives no review.  With the
    concrete [JSON.parse], a response text of the form
    ["```json" ++ nl ++ body ++ nl ++ "```"], whatever the body (a
    valid review included), still starts with a backquote after
    [trim()], so [JSON.parse] throws: the review is [null], the modal
    stays hidden, the document is untouched and the buttons are enabled
    again. *)
Theorem fenced_review_absent st body :
  reachable (@step json_parse_instance) initialState st ->
  st.(pending) = Some PendingReview ->
  let st' := @step json_parse_instance st
               (ContentSettles (ContentResponse (Some ("```json" +:+ nl +:+ body +:+ nl +:+ "```")))) in
  st'.(finalReview) = JNull /\ modal_view st'.(finalReview) = ModalHidden /\
  st'.(project) = st.(project) /\ st'.(isLoading) = false.
Proof.
  intros _ Hp. cbv zeta.
  destruct (@settle_review_absent json_parse_instance st
              (ContentResponse (Some ("```json" +:+ nl +:+ body +:+ nl +:+ "```"))) Hp)
    as (-> & -> & ->); [|done].
  right; right. eexists. split; [reflexivity|].
  rewrite append_cons. destruct (js_trim_ascii "`" ("``json" +:+ nl +:+ body +:+ nl +:+ "```"))
    as [z ->]; [done|done|]. apply json_parse_backquote.
Qed.

(** C28: the review as the user sees it.  With [JSON.parse] the JSON
    parser of [Json], a provider response whose text is the JSON text of
    a review (as [JSON.stringify] writes it, with any JSON white space
    around it) is trimmed, parsed and stored, the modal shows the
    review's eight texts in order, and the buttons are enabled again. *)
Theorem review_text_shown st r w1 w2 :
  reachable (@step json_parse_instance) initialState st ->
  st.(pending) = Some PendingReview -> all_ws w1 = true -> all_ws w2 = true ->
  let st' := @step json_parse_instance st
               (ContentSettles (ContentResponse (Some (w1 +:+ print_json (review_json r) +:+ w2)))) in
  modal_view st'.(finalReview) = ModalShows (map (fun v => Some (JString v)) (review_fields r)) /\
  st'.(isLoading) = false.
Proof.
  intros _ Hp H1 H2. cbv zeta.
  destruct (@settle_review json_parse_instance st (w1 +:+ print_json (review_json r) +:+ w2) (review_json r) Hp)
    as [-> ->];
    [|by rewrite modal_view_review_json].
  cbn [JSON_parse json_parse_instance]. unfold review_json at 1. rewrite js_trim_object by done.
  rewrite <-(append_nil_l (print_json _)), <-(append_nil_r (print_json _)).
  by apply json_parse_print.
Qed.


(** ** Witnesses *)

(** [JSON.parse] accepting exactly the text ["{}"]. *)
Definition empty_object_json : JsonParse :=
  {| JSON_parse t := if bool_decide (t = "{}") then Some (JObject []) else None |}.


Lemma review_malformed_absent_witness :
  reachable (@step reject_all_json) initialState review_started /\
  review_started.(pending) = Some PendingReview /\
  (@step reject_all_json review_started (ContentSettles (ContentResponse (Some "not json")))).(finalReview) = JNull.
Proof.
  assert (Hr : reachable (@step reject_all_json) initialState review_started) by apply reachable_run.
  assert (Hp : review_started.(pending) = Some PendingReview) by (vm_compute; reflexivity).
  split; [exact Hr|]. split; [exact Hp|].
  refine (proj1 (review_malformed_absent _ _ Hr Hp _)).
  right; right. exists "not json". split; [reflexivity|]. vm_compute. reflexivity.
Defined.

Definition sample_review : FinalReview :=
  mkFinalReview (mkReviewFeedback "a" "o" "c" "g") (mkImprovementSuggestions "cl" "d" "co" "r").

(** A parser that reads one fixed text as [sample_review]. *)
Definition sample_review_json : JsonParse :=
  {| JSON_parse t := if bool_decide (t = "R") then Some (review_json sample_review) else None |}.

Definition review_started_ok : AppState :=
  run (@step sample_review_json) initialState [ClickReview].

Lemma review_shown_witness :
  reachable (@step sample_review_json) initialState review_started_ok /\
  modal_view (@step sample_review_json review_started_ok
                (ContentSettles (ContentResponse (Some (" R" +:+ nl))))).(finalReview) =
    ModalShows (map (fun v => Some (JString v)) ["a"; "o"; "c"; "g"; "cl"; "d"; "co"; "r"]).
Proof.
  assert (Hr : reachable (@step sample_review_json) initialState review_started_ok) by apply reachable_run.
  split; [exact Hr|].
  exact (proj1 (proj2 (@review_shown sample_review_json review_started_ok (" R" +:+ nl) sample_review
                         Hr ltac:(vm_compute; reflexivity) ltac:(vm_compute; reflexivity)))).
Defined.

Definition review_started_obj : AppState :=
  run (@step empty_object_json) initialState [ClickReview].

Lemma review_wrong_shape_crashes_witness :
  reachable (@step empty_object_json) initialState review_started_obj /\
  review_started_obj.(pending) = Some PendingReview /\
  modal_view (@step empty_object_json review_started_obj
                (ContentSettles (ContentResponse (Some " {} ")))).(finalReview) = ModalCrash.
Proof.
  assert (Hr : reachable (@step empty_object_json) initialState review_started_obj) by apply reachable_run.
  assert (Hp : review_started_obj.(pending) = Some PendingReview) by (vm_compute; reflexivity).
  split; [exact Hr|]. split; [exact Hp|].
  refine (proj2 (review_wrong_shape_crashes _ " {} " [] Hr Hp _ eq_refl)).
  vm_compute. reflexivity.
Defined.

Definition review_started_json : AppState := run (@step json_parse_instance) initialState [ClickReview].

Lemma review_text_shown_witness :
  reachable (@step json_parse_instance) initialState review_started_json /\
  review_started_json.(pending) = Some PendingReview /\ all_ws " " = true /\ all_ws nl = true /\
  modal_view (@step json_parse_instance review_started_json
                (ContentSettles (ContentResponse (Some (" " +:+ print_json (review_json sample_review) +:+ nl))))).(finalReview) =
    ModalShows (map (fun v => Some (JString v)) (review_fields sample_review)).
Proof.
  assert (Hr : reachable (@step json_parse_instance) initialState review_started_json) by apply reachable_run.
  assert (Hp : review_started_json.(pending) = Some PendingReview) by (vm_compute; reflexivity).
  split_and!; [exact Hr|exact Hp|reflexivity|reflexivity|].
  exact (proj1 (review_text_shown _ sample_review " " nl Hr Hp eq_refl eq_refl)).
Defined.

Lemma fenced_review_absent_witness :
  reachable (@step json_parse_instance) initialState review_started_json /\
  review_started_json.(pending) = Some PendingReview /\
  modal_view (@step json_parse_instance review_started_json
                (ContentSettles (ContentResponse
                   (Some ("```json" +:+ nl +:+ print_json (review_json sample_review) +:+ nl +:+ "```"))))).(finalReview) =
    ModalHidden.
Proof.
  assert (Hr : reachable (@step json_parse_instance) initialState review_started_json) by apply reachable_run.
  assert (Hp : review_started_json.(pending) = Some PendingReview) by (vm_compute; reflexivity).
  split_and!; [exact Hr|exact Hp|].
  exact (proj1 (proj2 (fenced_review_absent _ (print_json (review_json sample_review)) Hr Hp))).
Defined.

Definition review_shown_state : AppState :=
  @step sample_review_json review_started_ok (ContentSettles (ContentResponse (Some " R"))).

Lemma close_review_hides_witness :
  modal_view review_shown_state.(finalReview) <> ModalHidden /\
  modal_view (@step sample_review_json review_shown_state CloseReview).(finalReview) = ModalHidden.
Proof.
  assert (Hm : modal_view review_shown_state.(finalReview) <> ModalHidden) by (vm_compute; discriminate).
  split; [exact Hm|]. exact (proj2 (close_review_hides _ Hm)).
Defined.
