(* ===== verification/AppInterleaving.v ===== *)
(** * AppInterleaving: the order of events

    React applies the state updates of one event after those of the
    event before, and the provider's replies and the [FileReader]s
    arrive in any order with respect to the user's edits.  This file
    shows which orders matter:
    - the edits that run no memoised closure commute: the project's
      meta fields, the active section's content and the theme are
      updated by functional [setProject(prev => ...)] and [setX] calls
      that touch disjoint fields ([independent], [edits_commute]);
    - the image prompt does not commute with a content edit: the
      memoised [handleGenerateImage] captures the [activeSection] of the
      render at which the prompt changed ([prompt_content_order_matters]);
    - a file read and a text generation that finish in either order on
      the section on screen both keep their insertion, in the order
      they arrived, because each reads the editor after React refreshed
      it ([figure_and_text_both_kept]);
    - a figure deleted in the editor frees its marker, so the next
      upload repeats a number already shown
      ([figure_number_after_deletion]);
    - the spec's end-to-end scenarios, as evaluated runs. *)

From S2P Require Import Prelude Types Html Gemini Store App AppInvariants AppBehaviour.

(** Pairs of events whose handlers touch disjoint parts of the state
    and run no closure that captured another part. *)
Inductive independent : Event -> Event -> Prop :=
| indep_title_content v h : independent (ChangeTitle v) (EditorInput h)
| indep_author_content v h : independent (ChangeAuthor v) (EditorInput h)
| indep_title_author v w : independent (ChangeTitle v) (ChangeAuthor w)
| indep_prompt_title p v : independent (ChangeImagePrompt p) (ChangeTitle v)
| indep_prompt_author p v : independent (ChangeImagePrompt p) (ChangeAuthor v)
| indep_theme_title v : independent ToggleDarkMode (ChangeTitle v)
| indep_theme_author v : independent ToggleDarkMode (ChangeAuthor v)
| indep_theme_content h : independent ToggleDarkMode (EditorInput h)
| indep_theme_prompt p : independent ToggleDarkMode (ChangeImagePrompt p)
| indep_sym e1 e2 : independent e1 e2 -> independent e2 e1.

Section Interleaving.
Context `{JsonParse}.

(** ** One edit, as a whole step *)


Lemma step_meta st f v :
  rerender st (set_project (handleProjectMetaChange f v st.(project)) st) =
  set_project (handleProjectMetaChange f v st.(project)) st.
Proof.
  apply rerender_unchanged; [done| |done].
  unfold active_html, current_section. simpl. by rewrite activeSection_meta.
Qed.

Lemma step_title st v :
  step st (ChangeTitle v) = set_project (handleProjectMetaChange MetaTitle v st.(project)) st.
Proof. apply step_meta. Qed.

Lemma step_author st v :
  step st (ChangeAuthor v) = set_project (handleProjectMetaChange MetaAuthor v st.(project)) st.
Proof. apply step_meta. Qed.

Lemma step_theme st : step st ToggleDarkMode = set_darkMode (negb st.(darkMode)) st.
Proof. by apply rerender_unchanged. Qed.

(** After typing, the active section holds what was typed (or there is
    no active section, before and after). *)
Lemma active_html_input st h e :
  active_html (set_project (handleSectionContentChange st.(activeSectionId) h st.(project))
                (set_editor e st)) = Some h \/
  active_html (set_project (handleSectionContentChange st.(activeSectionId) h st.(project))
                (set_editor e st)) = None /\ active_html st = None.
Proof.
  unfold active_html, current_section. cbn [project activeSectionId set_project set_editor].
  rewrite activeSection_content_change.
  destruct (activeSection (project st) (activeSectionId st)) as [s|] eqn:Hs; [left|by right].
  simpl. by erewrite set_content_where_found.
Qed.

(** Typing leaves the editor holding what was typed: React either keeps
    the node (same [__html]) or writes back the same HTML. *)
Lemma step_input st h :
  step st (EditorInput h) =
  set_project (handleSectionContentChange st.(activeSectionId) h st.(project)) (set_editor (Some h) st).
Proof.
  unfold step, handle, rerender. cbn [imagePrompt set_project set_editor].
  rewrite (bool_decide_true (_ = _)) by done.
  destruct (active_html_input st h (Some h)) as [-> | [-> ->]]; case_bool_decide as Hc; try done.
  destruct Hc. done.
Qed.

(** A prompt edit re-creates the memoised image handler with the
    current render's section; an edit to the same text changes nothing. *)
Lemma step_prompt st p :
  step st (ChangeImagePrompt p) =
  if bool_decide (st.(imagePrompt) = p) then st
  else set_imageHandler (current_snapshot st) (set_imagePrompt p st).
Proof.
  unfold step, handle, rerender. rewrite (bool_decide_true (_ /\ _)) by done.
  cbn [imagePrompt set_imagePrompt]. case_bool_decide as Hp; [|done].
  subst p. by destruct st.
Qed.

Lemma meta_content_change f v a h p :
  handleSectionContentChange a h (handleProjectMetaChange f v p) =
  handleProjectMetaChange f v (handleSectionContentChange a h p).
Proof. by destruct f. Qed.

Lemma current_snapshot_meta st f v :
  current_snapshot (set_project (handleProjectMetaChange f v st.(project)) st) = current_snapshot st.
Proof. unfold current_snapshot, current_section. simpl. by rewrite activeSection_meta. Qed.

(** ** File reads and text generation *)

Lemma file_loaded_pending st i year :
  (step st (FileLoaded i year)).(pending) = st.(pending).
Proof.
  destruct (step_fields st (FileLoaded i year)) as (_ & _ & _ & _ & _ & -> & _).
  simpl. unfold fileLoaded, handleInsertImage. by repeat (case_match; simplify_eq/=).
Qed.

Lemma settle_reads st o : (step st (ContentSettles o)).(reads) = st.(reads).
Proof.
  unfold step. destruct (rerender_fields st (handle st (ContentSettles o))) as (_ & _ & _ & _ & _ & _ & _ & -> & _).
  simpl. unfold resumeContent, finish. by repeat (case_match; simplify_eq/=).
Qed.

(** A text generation for the section on screen completes: the
    paragraphs follow the live content. *)
Lemma text_lands st o text :
  reachable step initialState st ->
  st.(pending) = Some (PendingText st.(activeSectionId)) -> generateText_result o = Some text ->
  exists c, active_html st = Some c /\
    active_html (step st (ContentSettles o)) = Some (c +:+ paragraphs text) /\
    (step st (ContentSettles o)).(activeSectionId) = st.(activeSectionId).
Proof.
  intros Hr Hp Ho. destruct (settle_text_project st _ o text Hp Ho) as (Hpr & Ha & _).
  destruct (active_after_insert st _ _ (reachable_app_inv st Hr) Hpr Ha) as (c & Hc & Hc').
  by exists c.
Qed.

(** The upload button and a chosen file: the read joins the reads in
    flight with the closure of the current render; the document and
    the active section are unchanged. *)
Lemma upload_select st url :
  st.(isLoading) = false ->
  let st' := step (step st ClickUpload) (SelectFile (Some url)) in
  st'.(project) = st.(project) /\ st'.(activeSectionId) = st.(activeSectionId) /\
  st'.(reads) = st.(reads) ++ [mkFileRead (current_snapshot st) url].
Proof.
  intros Hl st'. subst st'.
  assert (H1 : step st ClickUpload = set_pickerOpen true st).
  { unfold step. simpl. rewrite Hl. by apply rerender_unchanged. }
  rewrite H1. unfold step. rewrite rerender_unchanged by done. done.
Qed.

End Interleaving.

(** Rewrite every edit step to its state update and compare the records. *)
Ltac commute_edits :=
  rewrite ?step_title, ?step_author, ?step_theme, ?step_input, ?step_prompt;
  cbn [imagePrompt project activeSectionId set_project set_editor set_darkMode set_imagePrompt
       set_imageHandler];
  rewrite ?step_title, ?step_author, ?step_theme, ?step_input, ?step_prompt;
  cbn [imagePrompt project activeSectionId set_project set_editor set_darkMode set_imagePrompt
       set_imageHandler];
  repeat case_bool_decide; rewrite ?current_snapshot_meta, ?meta_content_change; try done;
  unfold set_project, set_editor, set_darkMode, set_imagePrompt, set_imageHandler; simpl;
  rewrite ?meta_content_change; try done.

Section Orders.
Context `{JsonParse}.

(** C16: edits that touch disjoint state commute.  For every pair of
    [independent] events (title, author, section content, theme, and the
    image prompt with the meta fields and the theme), applying them in
    either order gives the same state: the same project, editor,
    memoised image handler and everything else. *)
Theorem edits_commute st e1 e2 :
  independent e1 e2 -> step (step st e1) e2 = step (step st e2) e1.
Proof. induction 1; [commute_edits..| done]. Qed.

(** C15: an upload and a text generation that finish in either order on
    the section on screen are both kept.  When a text generation was
    started on the active section and a file read in flight was started
    on it too, delivering the read and then the text, or the text and
    then the read, leaves the section's content followed by both
    insertions, in the order they arrived: neither write overwrites the
    other, since each reads the editor React refreshed after the first. *)
Theorem figure_and_text_both_kept st i r sec o text year :
  reachable step initialState st ->
  st.(pending) = Some (PendingText st.(activeSectionId)) -> generateText_result o = Some text ->
  st.(reads) !! i = Some r -> r.(read_handler).(snap_activeSectionId) = st.(activeSectionId) ->
  r.(read_handler).(snap_section) = Some sec -> r.(read_result) <> "" ->
  let fig := figure_html (figure_count sec.(content) + 1) r.(read_result) year in
  exists c, active_html st = Some c /\
    active_html (step (step st (FileLoaded i year)) (ContentSettles o)) =
      Some (c +:+ fig +:+ paragraphs text) /\
    active_html (step (step st (ContentSettles o)) (FileLoaded i year)) =
      Some (c +:+ paragraphs text +:+ fig).
Proof.
  intros Hr Hp Ho Hri Ha Hs Hd fig.
  destruct (figure_lands st i r sec year Hr Hri Ha Hs Hd) as (c & Hc & Hf1 & Ha1).
  destruct (text_lands (step st (FileLoaded i year)) o text) as (c1 & Hc1 & Ht1 & _);
    [by apply reach_step | by rewrite file_loaded_pending, Ha1 | done |].
  destruct (text_lands st o text Hr Hp Ho) as (c2 & Hc2 & Ht2 & Ha2).
  destruct (figure_lands (step st (ContentSettles o)) i r sec year) as (c3 & Hc3 & Hf3 & _);
    [by apply reach_step | by rewrite settle_reads | by rewrite Ha2 | done | done |].
  rewrite Hf1 in Hc1. injection Hc1 as <-. rewrite Hc in Hc2. injection Hc2 as <-.
  rewrite Ht2 in Hc3. injection Hc3 as <-.
  exists c. rewrite Ht1, Hf3, !append_assoc. done.
Qed.

(** C20: figure numbers repeat after a figure is deleted.  The next
    figure number is counted from the [<figure] markers in the section
    (spec 4.1 and the open question of 9).  When the user deletes a
    figure block from the editor (typing the content without it) and
    then uploads an image, the new figure is numbered with the count of
    figures before the deletion: if the figures were numbered 1 to k,
    the new one is numbered k, a number already in use unless the
    deleted figure was the last. *)
Theorem figure_number_after_deletion st a b n u y url year :
  reachable step initialState st -> st.(isLoading) = false ->
  active_html st = Some (a +:+ figure_html n u y +:+ b) ->
  figure_count u = 0 -> figure_count (a +:+ b) = figure_count a + figure_count b ->
  url <> "" ->
  active_html (run step st [EditorInput (a +:+ b); ClickUpload; SelectFile (Some url);
                            FileLoaded (length st.(reads)) year]) =
    Some (a +:+ b +:+ figure_html (figure_count (a +:+ figure_html n u y +:+ b)) url year).
Proof.
  intros Hr Hl Hc Hu Hj Hd. unfold run. cbn [fold_left].
  set (st1 := step st (EditorInput (a +:+ b))).
  assert (Hr1 : reachable step initialState st1) by by apply reach_step.
  assert (Hc1 : active_html st1 = Some (a +:+ b)).
  { subst st1. rewrite step_input.
    destruct (active_html_input st (a +:+ b) (Some (a +:+ b))) as [? | [_ ?]]; congruence. }
  assert (Hf1 : st1.(isLoading) = false /\ st1.(reads) = st.(reads)) by (subst st1; by rewrite step_input).
  destruct Hf1 as [Hl1 Hrd1].
  destruct (upload_select st1 url Hl1) as (Hp3 & Ha3 & Hr3).
  pose proof (reachable_app_inv st1 Hr1) as Hi1.
  destruct (current_section_ok st1 (inv_ids _ Hi1) (inv_active _ Hi1)) as (sec & Hs & _).
  assert (Hsc : sec.(content) = a +:+ b) by (unfold active_html in Hc1; rewrite Hs in Hc1; by injection Hc1).
  destruct (figure_lands (step (step st1 ClickUpload) (SelectFile (Some url))) (length st.(reads))
              (mkFileRead (current_snapshot st1) url) sec year) as (c & Hc3 & Hw & _);
    [by repeat apply reach_step | rewrite Hr3, Hrd1; by apply list_lookup_middle
    | simpl; by rewrite Ha3 | exact Hs | done |].
  unfold active_html, current_section in Hc3. rewrite Hp3, Ha3 in Hc3.
  fold (current_section st1) (active_html st1) in Hc3. rewrite Hc1 in Hc3. injection Hc3 as <-.
  rewrite Hw, Hsc, figure_count_around, Hu, Hj, append_assoc. repeat f_equal. lia.
Qed.

End Orders.

(** The image prompt and a content edit do not commute: the memoised
    [handleGenerateImage] captures the section as it is when the prompt
    changes, so typing after the prompt leaves the handler with the old
    content, and typing before it gives the handler the new one. *)
Lemma prompt_content_order_matters :
  let st1 := run (@step reject_all_json) initialState [ChangeImagePrompt "x"; EditorInput "<p>y</p>"] in
  let st2 := run (@step reject_all_json) initialState [EditorInput "<p>y</p>"; ChangeImagePrompt "x"] in
  content <$> st1.(imageHandler).(snap_section) = content <$> current_section initialState /\
  content <$> st2.(imageHandler).(snap_section) = Some "<p>y</p>" /\
  st1.(project) = st2.(project).
Proof. vm_compute. split_and!; reflexivity. Qed.

(** * Evaluated runs *)

(** the spec's end-to-end scenario: with the title "Redes Neurais",
    the section "Desenvolvimento" holding "<p>Texto inicial.</p>" and a
    provider returning "Continuação gerada.", the section ends with
    "<p>Texto inicial.</p><p>Continuação gerada.</p>", after exactly one
    provider call, and the buttons are enabled again. *)
Theorem spec_scenario_continue_text :
  let st := run_app [ChangeTitle "Redes Neurais"; ClickSection 3;
                     EditorInput "<p>Texto inicial.</p>"; ClickGenerateText;
                     ContentSettles (ContentResponse (Some "Continuação gerada."))] in
  current_section st =
    Some (mkSection "s4" "Desenvolvimento" "<p>Texto inicial.</p><p>Continuação gerada.</p>" TEXTUAL) /\
  length st.(calls) = 1 /\ st.(isLoading) = false.
Proof. vm_compute. split_and!; reflexivity. Qed.

(** the spec's scenario of an image generation whose provider
    returns no image: the document is identical to what it was, and the
    buttons are enabled again. *)
Theorem spec_scenario_no_image :
  let st := run_app [ChangeImagePrompt "Uma rede neural"; ClickGenerateImage;
                     ImagesSettle (ImagesResponse (Some [])) 2025] in
  st.(project) = initialProject /\ length st.(calls) = 1 /\ st.(isLoading) = false.
Proof. vm_compute. split_and!; reflexivity. Qed.

(** the memoised image handler is stale.  A prompt typed on
    "Introdução" (s3), a switch to "Desenvolvimento" (s4) and a generated
    image: the figure goes into s3, built on s4's content (s3's own text
    is lost), while s4, the section on screen, is unchanged. *)
Theorem stale_image_scenario :
  let st := run_app [ChangeImagePrompt "x"; ClickSection 3; ClickGenerateImage;
                     ImagesSettle (ImagesResponse (Some [mkGeneratedImage (Some (mkImage (Some "QUJD")))])) 2025] in
  content <$> activeSection st.(project) "s3" =
    Some ("<p>O desenvolvimento aprofunda os conceitos, análises e resultados...</p>"
          +:+ figure_html 1 (png_data_url "QUJD") 2025) /\
  current_section st = activeSection initialProject "s4".
Proof. vm_compute. split; reflexivity. Qed.


(** ** Witnesses *)

Lemma edits_commute_witness :
  independent (ChangeTitle "Redes Neurais") (EditorInput "<p>x</p>") /\
  @step reject_all_json (@step reject_all_json initialState (ChangeTitle "Redes Neurais")) (EditorInput "<p>x</p>") =
  @step reject_all_json (@step reject_all_json initialState (EditorInput "<p>x</p>")) (ChangeTitle "Redes Neurais").
Proof.
  assert (Hi : independent (ChangeTitle "Redes Neurais") (EditorInput "<p>x</p>")) by constructor.
  split; [exact Hi|]. exact (edits_commute _ _ _ Hi).
Defined.

(** A read in flight and a text generation, both on the section on screen. *)
Definition upload_and_text : AppState :=
  run_app [ChangeTitle "T"; ClickUpload; SelectFile (Some "data:image/png;base64,QUJD"); ClickGenerateText].

Lemma figure_and_text_both_kept_witness :
  reachable (@step reject_all_json) initialState upload_and_text /\
  exists c, active_html upload_and_text = Some c /\
    active_html (@step reject_all_json (@step reject_all_json upload_and_text (FileLoaded 0 2025))
                   (ContentSettles (ContentResponse (Some "X")))) =
      Some (c +:+ figure_html (figure_count c + 1) "data:image/png;base64,QUJD" 2025 +:+ paragraphs "X").
Proof.
  assert (Hr : reachable (@step reject_all_json) initialState upload_and_text) by apply reachable_run.
  split; [exact Hr|].
  destruct (figure_and_text_both_kept upload_and_text 0
              (mkFileRead (current_snapshot upload_and_text) "data:image/png;base64,QUJD")
              (default (mkSection "" "" "" TEXTUAL) (current_section upload_and_text))
              (ContentResponse (Some "X")) "X" 2025 Hr)
    as (c & Hc & H1 & _); [vm_compute; reflexivity.. | discriminate |].
  exists c. split; [exact Hc|]. rewrite H1. do 3 f_equal.
  vm_compute in Hc. injection Hc as <-. reflexivity.
Defined.

Definition url1 : string := "data:image/png;base64,QUJD".
Definition url2 : string := "data:image/png;base64,REVG".

(** Two figures uploaded into the section on screen. *)
Definition two_figures : AppState :=
  run_app [ClickUpload; SelectFile (Some url1); FileLoaded 0 2025;
           ClickUpload; SelectFile (Some url2); FileLoaded 0 2025].

Definition intro_text : string := default "" (active_html initialState).

(** Deleting "Figura 1" and uploading a third image gives a second
    "Figura 2". *)
Lemma figure_number_after_deletion_witness :
  reachable (@step reject_all_json) initialState two_figures /\
  active_html two_figures = Some (intro_text +:+ figure_html 1 url1 2025 +:+ figure_html 2 url2 2025) /\
  active_html (run (@step reject_all_json) two_figures
                 [EditorInput (intro_text +:+ figure_html 2 url2 2025); ClickUpload;
                  SelectFile (Some url1); FileLoaded 0 2025]) =
    Some (intro_text +:+ figure_html 2 url2 2025 +:+
          figure_html (figure_count (intro_text +:+ figure_html 1 url1 2025 +:+ figure_html 2 url2 2025)) url1 2025) /\
  figure_count (intro_text +:+ figure_html 1 url1 2025 +:+ figure_html 2 url2 2025) = 2.
Proof.
  assert (Hr : reachable (@step reject_all_json) initialState two_figures) by apply reachable_run.
  assert (Hc : active_html two_figures = Some (intro_text +:+ figure_html 1 url1 2025 +:+ figure_html 2 url2 2025))
    by (vm_compute; reflexivity).
  split_and!; [exact Hr | exact Hc | | vm_compute; reflexivity].
  apply (figure_number_after_deletion two_figures intro_text (figure_html 2 url2 2025) 1 url1 2025 url1 2025 Hr);
    [vm_compute; reflexivity.. | discriminate].
Defined.
