(* ===== verification/View.v ===== *)
(** * View: what [App] renders (the JSX of src/App.tsx, lines 132-257)

    The markup and its classes are presentation; what the render computes
    from the state is modelled here as [view]: the theme class and icon,
    the sidebar (each section's title and whether it is highlighted),
    the two header inputs, the four buttons ([disabled] and label), the
    editor's heading and [key], the image prompt, and the modal.  The
    events a user can raise from it are the [Event]s of [App].

    The theorems show that the page is consistent in every reachable
    state: exactly one sidebar entry is highlighted, the one the editor
    shows; the buttons show the spec's busy/idle state (a working label
    exactly on the button of the action in flight, every AI button
    disabled exactly while busy); and the [disabled] flags are the
    handlers' guards, so an enabled button always acts; the theme button
    changes only the theme class and icon, and undoes itself. *)

From S2P Require Import Prelude Types Html Gemini Store App ReviewModal AppInvariants AppBehaviour AppInterleaving.

(** [{darkMode ? <SunIcon/> : <MoonIcon/>}] *)
Inductive ThemeIcon := SunIcon | MoonIcon.

(** A button: its [disabled] attribute and its text. *)
Record Button := mkButton {
  btn_disabled : bool;
  btn_label : string;
}.

Record View := mkView {
  view_dark : bool;
  view_theme_icon : ThemeIcon;
  view_sidebar : list (string * bool);
  view_title : string;
  view_author : string;
  view_review : Button;
  view_heading : option string;
  view_editor_key : option string;
  view_text : Button;
  view_prompt : string;
  view_image : Button;
  view_upload : Button;
  view_modal : ModalView;
}.

(** The labels of lines 173, 202 and 213. *)
Definition review_label (a : option LoadingAction) : string :=
  if bool_decide (a = Some LReview) then "Revisando..." else "Revisão Final".

Definition text_label (a : option LoadingAction) : string :=
  if bool_decide (a = Some LText) then "Gerando..." else "Continuar Escrita".

Definition image_label (a : option LoadingAction) : string :=
  if bool_decide (a = Some LImage) then "Criando..." else "Criar Imagem".

(** One sidebar entry (lines 148-157): the title, highlighted when
    [activeSectionId === section.id]. *)
Definition sidebar_entry (activeSectionId : string) (s : Section) : string * bool :=
  (s.(title), bool_decide (activeSectionId = s.(id))).

(** The render of [App] in state [st]. *)
Definition view (st : AppState) : View :=
  mkView
    st.(darkMode)
    (if st.(darkMode) then SunIcon else MoonIcon)
    (map (sidebar_entry st.(activeSectionId)) st.(project).(sections))
    st.(project).(project_title)
    st.(project).(author)
    (mkButton st.(isLoading) (review_label st.(loadingAction)))
    (title <$> current_section st)
    (id <$> current_section st)
    (mkButton (st.(isLoading) || bool_decide (st.(project).(project_title) = ""))
              (text_label st.(loadingAction)))
    st.(imagePrompt)
    (mkButton st.(isLoading) (image_label st.(loadingAction)))
    (mkButton st.(isLoading) "Fazer Upload")
    (modal_view st.(finalReview)).

(** The label a button shows while its action runs. *)
Definition working_labels (v : View) : list bool :=
  [bool_decide (v.(view_review).(btn_label) = "Revisando...");
   bool_decide (v.(view_text).(btn_label) = "Gerando...");
   bool_decide (v.(view_image).(btn_label) = "Criando...")].

(** Which button shows the working label of [a]. *)
Definition working_of (a : LoadingAction) : list bool :=
  match a with
  | LReview => [true; false; false]
  | LText => [false; true; false]
  | LImage => [false; false; true]
  end.

#[export] Instance BusyState_eq_dec : EqDecision BusyState.
Proof. solve_decision. Defined.

(** * Lemmas *)

(** No entry is highlighted when no section has the active id. *)
Lemma sidebar_none secs a :
  a ∉ map id secs -> List.filter snd (map (sidebar_entry a) secs) = [].
Proof.
  induction secs as [|s secs IH]; intros Ha; [done|]. cbn [map List.filter].
  cbn [map] in Ha. rewrite elem_of_cons in Ha. unfold sidebar_entry at 1. cbn [snd].
  rewrite bool_decide_false by naive_solver. apply IH. naive_solver.
Qed.

(** With unique ids, the section [find] returns is the one highlighted
    entry. *)
Lemma sidebar_unique secs a s :
  NoDup (map id secs) -> find_section secs a = Some s ->
  List.filter snd (map (sidebar_entry a) secs) = [(s.(title), true)].
Proof.
  induction secs as [|x secs IH]; intros Hnd Hf; [done|].
  cbn [map] in Hnd. apply NoDup_cons in Hnd as [Hx Hnd].
  unfold find_section in Hf. simpl in Hf. cbn [map List.filter].
  unfold sidebar_entry at 1. cbn [snd]. case_bool_decide as Ha.
  - injection Hf as <-. rewrite bool_decide_true by done.
    rewrite sidebar_none by (by rewrite <-Ha). unfold sidebar_entry. by rewrite bool_decide_true.
  - rewrite bool_decide_false by congruence. by apply IH.
Qed.

Lemma seed_ids_NoDup : NoDup seed_ids.
Proof. apply (bool_decide_unpack _). vm_compute. reflexivity. Qed.

(** * Theorems *)

Section ViewTheorems.
Context `{JsonParse}.

(** C11: the page shows one section.  In every reachable state the
    sidebar highlights exactly one entry, and it is the section the
    editor shows: its title is the editor's heading and its id the
    editor's [key]. *)
Theorem sidebar_highlights_shown st :
  reachable step initialState st ->
  exists s, List.filter snd (view st).(view_sidebar) = [(s.(title), true)] /\
    (view st).(view_heading) = Some s.(title) /\ (view st).(view_editor_key) = Some s.(id).
Proof.
  intros Hr. pose proof (reachable_app_inv st Hr) as Hi.
  destruct (current_section_ok st (inv_ids _ Hi) (inv_active _ Hi)) as (s & Hs & _).
  exists s. cbn [view view_sidebar view_heading view_editor_key]. rewrite Hs. split_and!; [|done|done].
  apply sidebar_unique; [|done]. fold (section_ids st.(project)). rewrite (inv_ids _ Hi).
  apply seed_ids_NoDup.
Qed.

(** C12: the buttons show the spec's busy/idle state.  In every reachable
    state, the review, image and upload buttons are disabled exactly
    while busy, and a working label ("Revisando...", "Gerando...",
    "Criando...") is shown exactly on the button of the action in
    flight: none when idle, one when busy. *)
Theorem buttons_show_busy_state st :
  reachable step initialState st ->
  working_labels (view st) =
    match busy_state st with Idle => [false; false; false] | Busy a => working_of a end /\
  (view st).(view_review).(btn_disabled) = negb (bool_decide (busy_state st = Idle)) /\
  (view st).(view_image).(btn_disabled) = negb (bool_decide (busy_state st = Idle)) /\
  (view st).(view_upload).(btn_disabled) = negb (bool_decide (busy_state st = Idle)).
Proof.
  intros Hr. pose proof (inv_busy _ (reachable_app_inv st Hr)) as Hb.
  unfold view, busy_state. cbn [view_review view_image view_upload btn_disabled]. rewrite Hb.
  by destruct (loadingAction st) as [[]|].
Qed.
(** C13: the theme button ([setDarkMode(!darkMode)], line 142) flips
    the theme and nothing else: the page after one click differs from
    the page before only in the theme class and icon (the editor is not
    remounted, the memoised image handler is kept), and a second click
    gives back exactly the state before the first. *)
Theorem theme_toggle_roundtrip st :
  step (step st ToggleDarkMode) ToggleDarkMode = st /\
  view (step st ToggleDarkMode) =
    mkView (negb st.(darkMode)) (if st.(darkMode) then MoonIcon else SunIcon)
      (view st).(view_sidebar) (view st).(view_title) (view st).(view_author) (view st).(view_review)
      (view st).(view_heading) (view st).(view_editor_key) (view st).(view_text) (view st).(view_prompt)
      (view st).(view_image) (view st).(view_upload) (view st).(view_modal).
Proof.
  rewrite !step_theme. split.
  - destruct st. simpl. by rewrite negb_involutive.
  - unfold view. simpl. by destruct (darkMode st).
Qed.
End ViewTheorems.

Lemma sidebar_highlights_shown_witness :
  reachable (@step reject_all_json) initialState (run (@step reject_all_json) initialState [ClickSection 3]) /\
  exists s, List.filter snd (view (run (@step reject_all_json) initialState [ClickSection 3])).(view_sidebar) =
              [(s.(title), true)] /\
    (view (run (@step reject_all_json) initialState [ClickSection 3])).(view_heading) = Some s.(title) /\
    (view (run (@step reject_all_json) initialState [ClickSection 3])).(view_editor_key) = Some s.(id).
Proof.
  assert (Hr := reachable_run (@step reject_all_json) initialState [ClickSection 3]).
  split; [exact Hr|]. exact (sidebar_highlights_shown _ Hr).
Defined.

Lemma buttons_show_busy_state_witness :
  reachable (@step reject_all_json) initialState (run (@step reject_all_json) initialState [ClickReview]) /\
  working_labels (view (run (@step reject_all_json) initialState [ClickReview])) =
    match busy_state (run (@step reject_all_json) initialState [ClickReview]) with
    | Idle => [false; false; false] | Busy a => working_of a end.
Proof.
  assert (Hr := reachable_run (@step reject_all_json) initialState [ClickReview]).
  split; [exact Hr|]. exact (proj1 (buttons_show_busy_state _ Hr)).
Defined.
